(** * Malatang product pipeline: a shallow embedding and its properties

    The development follows [malatang_processor.py]: the feed extractor
    ([DataExtractor]), the spreadsheet catalog ([ExcelManager]), the image
    downloader ([ImageDownloader]), the file watcher ([FileMonitorHandler])
    and the sequencing of a run ([MalatangProcessor.process_file]).

    Python values are modelled as follows.
    - A [str] is the list of its Unicode code points ([pystr], code points
      in [N]); the filename table replaces ASCII by full-width characters,
      so bytes would not do.
    - [bytes] is a list of [Byte.byte].
    - A decoded JSON document is a [json] tree; an object keeps its
      members in order, and a lookup takes the last binding of a key, as
      [json.load] builds a [dict].
    - A raised exception is [None]; handlers are written out where the
      source has [try]/[except].
    - The file system, the network, Pillow and the clock are the outside
      world: files are a finite map from paths to contents, and what the
      world answers (a response, a decode result, whether a write is
      permitted, the time) is read from an environment record [Env]. *)

From Stdlib Require Import ZArith NArith QArith List String Ascii Lia Lqa Bool.
From Stdlib Require Import Strings.Byte.
From stdpp Require Import base option list gmap.

Local Open Scope N_scope.

(** ** Python strings *)

Abbreviation pystr := (list N).
Abbreviation bytes := (list Byte.byte).

(** An ASCII literal as a Python string. *)
Definition py (s : string) : pystr :=
  List.map (fun a => N_of_ascii a) (list_ascii_of_string s).

(** [str.isspace] on one code point. *)
Definition isspace (c : N) : bool :=
  ((9 <=? c) && (c <=? 13)) || ((28 <=? c) && (c <=? 32))
  || (c =? 133) || (c =? 160) || (c =? 5760)
  || ((8192 <=? c) && (c <=? 8202))
  || (c =? 8232) || (c =? 8233) || (c =? 8239) || (c =? 8287) || (c =? 12288).

Fixpoint lstrip (s : pystr) : pystr :=
  match s with
  | c :: s' => if isspace c then lstrip s' else s
  | [] => []
  end.

(** [str.strip()] with no argument. *)
Definition strip (s : pystr) : pystr :=
  rev (lstrip (rev (lstrip s))).

Fixpoint startswith (pre s : pystr) : bool :=
  match pre, s with
  | [], _ => true
  | p :: pre', c :: s' => (p =? c) && startswith pre' s'
  | _ :: _, [] => false
  end.

(** [s.endswith(suffix)] *)
Definition endswith (s suffix : pystr) : bool :=
  startswith (rev suffix) (rev s).

(** The scan of [str.replace(old, new)] for a non-empty [old]: [skip]
    counts the characters of a match still to be dropped. *)
Fixpoint replace_scan (old new s : pystr) (skip : nat) : pystr :=
  match s with
  | [] => []
  | c :: s' =>
      match skip with
      | S k => replace_scan old new s' k
      | O =>
          if startswith old s
          then new ++ replace_scan old new s' (length old - 1)
          else c :: replace_scan old new s' 0
      end
  end.

(** [s.replace(old, new)]: every non-overlapping occurrence, from the left.
    An empty [old] matches before every character and at the end. *)
Definition str_replace (old new s : pystr) : pystr :=
  match old with
  | [] => new ++ flat_map (fun c => c :: new) s
  | _ :: _ => replace_scan old new s 0
  end.

(** ** Decoded JSON *)

#[warnings="-register-all"]
Inductive json : Type :=
| JNull
| JBool (b : bool)
| JNum (q : Q)
| JStr (s : pystr)
| JArr (items : list json)
| JObj (members : list (pystr * json)).

(** Truth value of a decoded value ([if not data], [if pic_url], [or]). *)
Definition truthy (v : json) : bool :=
  match v with
  | JNull => false
  | JBool b => b
  | JNum q => negb (Qeq_bool q 0)
  | JStr s => negb (bool_decide (s = []))
  | JArr l => match l with [] => false | _ => true end
  | JObj m => match m with [] => false | _ => true end
  end.

(** The last binding of [key] among the members of an object. *)
Fixpoint members_lookup (key : pystr) (m : list (pystr * json)) : option json :=
  match m with
  | [] => None
  | (k, v) :: m' =>
      match members_lookup key m' with
      | Some v' => Some v'
      | None => if bool_decide (k = key) then Some v else None
      end
  end.

(** [v.get(key, dflt)]; [None] when [v] is not a dict (AttributeError). *)
Definition dict_get (v : json) (key : pystr) (dflt : json) : option json :=
  match v with
  | JObj m => Some (default dflt (members_lookup key m))
  | _ => None
  end.

(** [v > 0]; [None] when the comparison raises TypeError. A bool compares
    as 0 or 1. *)
Definition gt_zero (v : json) : option bool :=
  match v with
  | JNum q => Some (if Qlt_le_dec 0 q then true else false)
  | JBool b => Some b
  | _ => None
  end.

(** [v[0]]; [None] when it raises (an empty or unsubscriptable value, or a
    dict, whose keys are strings). *)
Definition index0 (v : json) : option json :=
  match v with
  | JArr (x :: _) => Some x
  | JStr (c :: _) => Some (JStr [c])
  | _ => None
  end.

(** ** Configuration ([class Config]) *)

Record Config : Type := {
  INPUT_FILE : pystr;
  OUTPUT_EXCEL : pystr;
  IMAGES_DIR : pystr;
  LOG_FILE : pystr;
  REQUEST_TIMEOUT : nat;
  MAX_RETRIES : nat;
  FILENAME_MAX_LENGTH : nat;
  CONVERT_TO_JPG : bool;
  JPG_QUALITY : nat
}.

(** The values the class is declared with. *)
Definition shipped_config : Config := {|
  INPUT_FILE := py "D:/ailun/liansuoshuju.txt";
  OUTPUT_EXCEL := py "malatang_products.xlsx";
  IMAGES_DIR := py "images";
  LOG_FILE := py "malatang_processor.log";
  REQUEST_TIMEOUT := 30;
  MAX_RETRIES := 3;
  FILENAME_MAX_LENGTH := 100;
  CONVERT_TO_JPG := true;
  JPG_QUALITY := 95
|}.

(** ** Products and catalog rows *)

Record Product : Type := {
  name : pystr;
  price : json;
  discount_price : json;
  month_sale : json;
  image_url : json;
  image_filename : pystr
}.

(** One row of the sheet, in column order: 商品名称, 原价, 折扣价, 月售数量,
    图片链接, 图片文件名, 更新时间. *)
Record Row : Type := {
  col_name : pystr;
  col_price : json;
  col_discount_price : json;
  col_month_sale : json;
  col_image_url : json;
  col_image_filename : pystr;
  col_update_time : pystr
}.

(** ** The outside world *)

(** What is found at the feed path. *)
Inductive FeedFile : Type :=
| FeedMissing                 (* FileNotFoundError *)
| FeedMalformed               (* json.JSONDecodeError *)
| FeedUnreadable              (* any other exception of open/json.load *)
| FeedJson (data : json).

(** What is found at the catalog path. A sheet is one this program wrote:
    it has the seven columns, and reading it gives back the rows written. *)
Inductive ExcelFile : Type :=
| ExcelAbsent
| ExcelCorrupt                (* pd.read_excel raises *)
| ExcelSheet (rows : list Row).

(** Exceptions [session.get] and [raise_for_status] raise, by the handler
    of [_download_single_image] that catches them. *)
Inductive RequestError : Type :=
| SSLError
| ConnectionError
| Timeout
| HTTPError                   (* raise_for_status on an error status *)
| OtherError.

Inductive GetOutcome : Type :=
| Raises (e : RequestError)
| Responds (error_status : bool) (content : bytes).

(** Library functions the code calls that depend on their arguments only. *)
Record Lib : Type := {
  urlparse_netloc : json -> option pystr;   (* urlparse(url).netloc; None: raises *)
  url_splitext : json -> option pystr;      (* os.path.splitext(urlparse(url).path)[1] *)
  pil_to_jpeg : nat -> bytes -> option bytes
    (* Image.open, the mode conversion and img.save(..., 'JPEG', quality);
       None: one of them raises *)
}.

(** The answers of the world during one run. [session_get url n] is the
    outcome of the [n]-th call of [session.get] of the run. *)
Record Env : Type := {
  now : pystr;                              (* datetime.now().strftime(...) *)
  excel_writable : bool;                    (* to_excel succeeds *)
  session_get : json -> nat -> GetOutcome;
  can_write : pystr -> bool                 (* open(path, 'wb') succeeds *)
}.

Record World : Type := {
  feed : FeedFile;
  excel : ExcelFile;
  files : gmap pystr bytes;
  dirs : gset pystr
}.

(** ** What a run does that can be observed: log lines, requests, sleeps *)

Inductive Level : Type := DEBUG | INFO | WARNING | ERROR.

(** The four warnings of the retry loop. *)
Inductive Classification : Type :=
| ClsSSL                      (* SSL错误 *)
| ClsConnection               (* 连接错误 *)
| ClsTimeout                  (* 超时 *)
| ClsFailed.                  (* 下载图片失败 *)

Inductive Message : Type :=
| MsgParsed                                  (* 成功解析JSON文件 *)
| MsgJsonError                               (* JSON解析错误 *)
| MsgFileNotFound                            (* 文件不存在 *)
| MsgReadError                               (* 读取文件时发生错误 *)
| MsgFound (n : nat)                         (* 找到 n 个商品 *)
| MsgSingleFailed                            (* 提取单个商品信息失败 *)
| MsgListFailed                              (* 提取商品列表时出错 *)
| MsgExtracted (n : nat)                     (* 成功提取 n 个商品信息 *)
| MsgLoaded (n : nat)                        (* 加载现有Excel数据，共 n 条记录 *)
| MsgNoExcel                                 (* Excel文件不存在，将创建新文件 *)
| MsgLoadFailed                              (* 加载Excel文件失败 *)
| MsgAdded (n : nat)                         (* 新增 n 条商品数据到Excel文件 *)
| MsgNothingNew                              (* 没有新的商品数据需要添加 *)
| MsgSaveFailed                              (* 保存Excel文件失败 *)
| MsgSummary (downloaded skipped failed : nat) (* 图片下载完成 - ... *)
| MsgTooSmall (size : nat) (path : pystr)    (* 文件太小 *)
| MsgDownloaded (path : pystr) (size : nat)  (* 成功下载图片 *)
| MsgAttemptFailed (c : Classification) (attempt max : nat) (url : json)
| MsgConverted (path : pystr)                (* 成功下载并转换图片为JPG *)
| MsgConvertFailed                           (* 图片转换失败 *)
| MsgSavedRaw (path : pystr)                 (* 转换失败，保存原始格式 *)
| MsgRawFailed                               (* 保存原始格式也失败 *)
| MsgChangeDetected                          (* 检测到文件变化，开始处理... *)
| MsgStart                                   (* 开始处理麻辣烫数据... *)
| MsgNoProducts                              (* 没有提取到商品信息 *)
| MsgDone.                                   (* 数据处理完成 *)

Inductive Event : Type :=
| Log (lvl : Level) (m : Message)
| Get (url : json) (cdn_headers : bool) (timeout : nat)
| Sleep (seconds : nat).

(** ** The monad of a run: the world, the count of requests, the trace *)

Record State : Type := {
  world : World;
  calls : nat;
  trace : list Event
}.

Definition M (A : Type) : Type := State -> A * State.

Definition ret {A} (a : A) : M A := fun st => (a, st).

Definition bind {A B} (m : M A) (k : A -> M B) : M B :=
  fun st => let (a, st') := m st in k a st'.

Notation "'do' x <- m ; k" := (bind m (fun x => k))
  (at level 10, x name, m at level 100, k at level 200, only parsing).
Notation "m ;; k" := (bind m (fun _ => k))
  (at level 100, k at level 200, right associativity, only parsing).

Definition emit (e : Event) : M unit :=
  fun st => (tt, {| world := world st; calls := calls st; trace := trace st ++ [e] |}).

Definition logger (lvl : Level) (m : Message) : M unit := emit (Log lvl m).

Definition sleep (seconds : nat) : M unit := emit (Sleep seconds).

Definition get_world : M World := fun st => (world st, st).

(** The state a run starts from. *)
Definition start (w : World) : State := {| world := w; calls := 0; trace := [] |}.

(** *** File system primitives *)

Definition exists_file (path : pystr) : M bool :=
  fun st => (bool_decide (is_Some (files (world st) !! path)), st).

(** [open(path, 'wb').write(data)]: [false] when it raises. *)
Definition write_file (env : Env) (path : pystr) (data : bytes) : M bool :=
  fun st =>
    if can_write env path
    then (true, {| world := {| feed := feed (world st); excel := excel (world st);
                              files := <[path := data]> (files (world st));
                              dirs := dirs (world st) |};
                   calls := calls st; trace := trace st |})
    else (false, st).

(** [os.remove(path)] of a file that is there. *)
Definition remove_file (path : pystr) : M unit :=
  fun st =>
    (tt, {| world := {| feed := feed (world st); excel := excel (world st);
                        files := delete path (files (world st));
                        dirs := dirs (world st) |};
            calls := calls st; trace := trace st |}).

(** The content [open(path, 'rb')] reads; [None] when the file is missing. *)
Definition read_file (path : pystr) : M (option bytes) :=
  fun st => (files (world st) !! path, st).

(** [os.path.getsize(path)] of a file just written. *)
Definition getsize (path : pystr) : M nat :=
  fun st => (from_option (@length byte) 0%nat (files (world st) !! path), st).

(** [Path(d).mkdir(exist_ok=True)] *)
Definition mkdir (d : pystr) : M unit :=
  fun st =>
    (tt, {| world := {| feed := feed (world st); excel := excel (world st);
                        files := files (world st);
                        dirs := {[ d ]} ∪ dirs (world st) |};
            calls := calls st; trace := trace st |}).

(** [os.path.join(d, f)] for a relative, separator-free [f]. *)
Definition path_join (d f : pystr) : pystr := d ++ py "/" ++ f.

(** ** [class DataExtractor] *)

Module DataExtractor.

(** [parse_json_file]: the decoded document, or [None] with an error line. *)
Definition parse_json_file (file_path : pystr) : M (option json) :=
  do w <- get_world;
  match feed w with
  | FeedJson data => logger INFO MsgParsed ;; ret (Some data)
  | FeedMalformed => logger ERROR MsgJsonError ;; ret None
  | FeedMissing => logger ERROR MsgFileNotFound ;; ret None
  | FeedUnreadable => logger ERROR MsgReadError ;; ret None
  end.

(** The dict [replacements] of [_clean_filename], in insertion order. *)
Definition replacements : list (pystr * pystr) :=
  [ ([60], [65308]);      (* less-than sign      -> U+FF1C *)
    ([62], [65310]);      (* greater-than sign   -> U+FF1E *)
    ([58], [65306]);      (* colon               -> U+FF1A *)
    ([34], [34]);         (* quotation mark      -> U+0022, the same ASCII character *)
    ([47], [65295]);      (* solidus             -> U+FF0F *)
    ([92], [65340]);      (* reverse solidus     -> U+FF3C *)
    ([124], [65372]);     (* vertical line       -> U+FF5C *)
    ([63], [65311]);      (* question mark       -> U+FF1F *)
    ([42], [65290]) ].    (* asterisk            -> U+FF0A *)

(** The loop [for old_char, new_char in replacements.items()]. *)
Definition clean_name (product_name : pystr) : pystr :=
  fold_left (fun acc r => str_replace (fst r) (snd r) acc) replacements product_name.

(** [_clean_filename]; [None] when [urlparse] raises on the url. *)
Definition _clean_filename (cfg : Config) (lib : Lib)
    (product_name : pystr) (url : json) : option pystr :=
  if CONVERT_TO_JPG cfg
  then Some (clean_name product_name ++ py ".jpg")
  else
    ext ← url_splitext lib url;
    Some (clean_name product_name ++ (if bool_decide (ext = []) then py ".jpg" else ext)).

(** [_extract_image_info]: the pair [(url, filename)]; [None] when an
    exception escapes. [product_name.replace] raises on a name that is not
    a string. *)
Definition _extract_image_info (cfg : Config) (lib : Lib) (item : json)
    : option (json * pystr) :=
  pic_vos ← dict_get item (py "wmProductPicVos") (JArr []);
  if negb (truthy pic_vos) then Some (JStr [], []) else
  first ← index0 pic_vos;
  large ← dict_get first (py "picLargeUrl") JNull;
  pic_url ← (if truthy large then Some large
             else dict_get first (py "picUrl") (JStr []));
  if truthy pic_url then
    product_name ← dict_get item (py "name") (JStr (py "unknown"));
    filename ← match product_name with
               | JStr s => _clean_filename cfg lib s pic_url
               | _ => None
               end;
    Some (pic_url, filename)
  else Some (JStr [], []).

(** The [try] block of [_extract_single_product]: [None] when it raises,
    [Some None] for the early [return None]. *)
Definition single_product_body (cfg : Config) (lib : Lib) (item : json)
    : option (option Product) :=
  raw ← dict_get item (py "name") (JStr []);
  nm ← match raw with JStr s => Some (strip s) | _ => None end;
  if bool_decide (nm = []) then Some None else
  price_v ← dict_get item (py "price") (JNum 0);
  discount_v ← dict_get item (py "discountPrice") (JNum (-1));
  month_sale_v ← dict_get item (py "monthSale") (JNum 0);
  pic_info ← _extract_image_info cfg lib item;
  positive ← gt_zero discount_v;
  Some (Some {| name := nm;
                price := price_v;
                discount_price := if positive : bool then discount_v else price_v;
                month_sale := month_sale_v;
                image_url := fst pic_info;
                image_filename := snd pic_info |}).

Definition _extract_single_product (cfg : Config) (lib : Lib) (item : json)
    : M (option Product) :=
  match single_product_body cfg lib item with
  | Some r => ret r
  | None => logger WARNING MsgSingleFailed ;; ret None
  end.

(** The keys of a dict, each once, in order of first insertion. *)
Fixpoint dict_keys (m : list (pystr * json)) (seen : list pystr) : list pystr :=
  match m with
  | [] => []
  | (k, _) :: m' =>
      if bool_decide (k ∈ seen) then dict_keys m' seen
      else k :: dict_keys m' (k :: seen)
  end.

(** What [for item in v] yields, which is also what [len(v)] counts;
    [None] when [v] has no length (TypeError). *)
Definition iterate (v : json) : option (list json) :=
  match v with
  | JArr l => Some l
  | JStr s => Some (List.map (fun c => JStr [c]) s)
  | JObj m => Some (List.map JStr (dict_keys m []))
  | _ => None
  end.

(** The loop over [spu_list]; [_extract_single_product] catches its own
    exceptions, so the inner handler is never entered. *)
Fixpoint extract_loop (cfg : Config) (lib : Lib) (items : list json)
    (products : list Product) : M (list Product) :=
  match items with
  | [] => ret products
  | item :: rest =>
      do product <- _extract_single_product cfg lib item;
      match product with
      | Some p => extract_loop cfg lib rest (products ++ [p])
      | None => extract_loop cfg lib rest products
      end
  end.

Definition extract_products (cfg : Config) (lib : Lib) (data : json)
    : M (list Product) :=
  do products <-
    match (inner ← dict_get data (py "data") (JObj []);
           spu_list ← dict_get inner (py "spuListVos") (JArr []);
           iterate spu_list) with
    | Some items =>
        logger INFO (MsgFound (length items)) ;;
        extract_loop cfg lib items []
    | None => logger ERROR MsgListFailed ;; ret []
    end;
  logger INFO (MsgExtracted (length products)) ;;
  ret products.

End DataExtractor.

(** ** [class ExcelManager] *)

Module ExcelManager.

(** [load_existing_data]: the rows of the sheet; an absent or unreadable
    file gives the empty frame. *)
Definition load_existing_data (file_path : pystr) : M (list Row) :=
  do w <- get_world;
  match excel w with
  | ExcelSheet rows => logger INFO (MsgLoaded (length rows)) ;; ret rows
  | ExcelAbsent => logger INFO MsgNoExcel ;; ret []
  | ExcelCorrupt => logger ERROR MsgLoadFailed ;; ret []
  end.

(** The dict appended to [new_data] for one product. *)
Definition new_row (current_time : pystr) (product : Product) : Row := {|
  col_name := name product;
  col_price := price product;
  col_discount_price := discount_price product;
  col_month_sale := month_sale product;
  col_image_url := image_url product;
  col_image_filename := image_filename product;
  col_update_time := current_time
|}.

(** The loop [for product in products] filling [new_data]. *)
Fixpoint collect_new (existing_names : gset pystr) (current_time : pystr)
    (products : list Product) (new_data : list Row) : list Row :=
  match products with
  | [] => new_data
  | product :: rest =>
      if bool_decide (name product ∉ existing_names)
      then collect_new existing_names current_time rest
             (new_data ++ [new_row current_time product])
      else collect_new existing_names current_time rest new_data
  end.

(** [combined_df.to_excel(file_path, index=False)]; [false] when it raises. *)
Definition to_excel (env : Env) (rows : list Row) : M bool :=
  fun st =>
    if excel_writable env
    then (true, {| world := {| feed := feed (world st); excel := ExcelSheet rows;
                              files := files (world st); dirs := dirs (world st) |};
                   calls := calls st; trace := trace st |})
    else (false, st).

Definition save_products_to_excel (env : Env) (products : list Product)
    (file_path : pystr) : M unit :=
  do existing_df <- load_existing_data file_path;
  let existing_names : gset pystr :=
    match existing_df with
    | [] => ∅
    | _ => list_to_set (List.map col_name existing_df)
    end in
  let current_time := now env in
  let new_data := collect_new existing_names current_time products [] in
  match new_data with
  | _ :: _ =>
      do written <- to_excel env (existing_df ++ new_data);
      if written then logger INFO (MsgAdded (length new_data))
      else logger ERROR MsgSaveFailed
  | [] => logger INFO MsgNothingNew
  end.

End ExcelManager.

(** ** [class ImageDownloader] *)

Module ImageDownloader.

(** One call of [session.get]: the request is recorded and counted. The
    session is set up once, in [__init__]: browser-like headers,
    certificate verification off, and an adapter that retries inside the
    transport; what that setup changes is which outcome the world gives to
    a call. [cdn_headers] tells whether the Referer and Origin override
    for [img.meituan.net] was passed. *)
Definition get (cfg : Config) (env : Env) (url : json) (cdn_headers : bool)
    : M GetOutcome :=
  fun st =>
    (session_get env url (calls st),
     {| world := world st; calls := S (calls st);
        trace := trace st ++ [Get url cdn_headers (REQUEST_TIMEOUT cfg)] |}).

(** [_download_and_convert_to_jpg]; the body of the [try] gives [None]
    when it raises. *)
Definition _download_and_convert_to_jpg (lib : Lib) (cfg : Config) (env : Env)
    (image_data : bytes) (file_path : pystr) : M bool :=
  let temp_path := file_path ++ py ".temp" in
  do body <-
    (do stored <- write_file env temp_path image_data;
     if stored then
       do raw <- read_file temp_path;
       match raw ≫= pil_to_jpeg lib (JPG_QUALITY cfg) with
       | Some jpeg =>
           do saved <- write_file env file_path jpeg;
           if saved then
             remove_file temp_path ;;
             logger DEBUG (MsgConverted file_path) ;;
             ret (Some true)
           else ret None
       | None => ret None
       end
     else ret None);
  do result <-
    match body with
    | Some b => ret b
    | None =>
        logger WARNING MsgConvertFailed ;;
        do saved <- write_file env file_path image_data;
        if saved then logger DEBUG (MsgSavedRaw file_path) ;; ret true
        else logger ERROR MsgRawFailed ;; ret false
    end;
  (* finally *)
  do left <- exists_file temp_path;
  (if left then remove_file temp_path else ret tt) ;;
  ret result.

(** How one iteration of the retry loop ends. *)
Inductive Step : Type :=
| Return (b : bool)
| NextAttempt.

(** The [except] clause that catches an exception. *)
Definition classify (e : RequestError) : Classification :=
  match e with
  | SSLError => ClsSSL
  | ConnectionError => ClsConnection
  | Timeout => ClsTimeout
  | HTTPError | OtherError => ClsFailed
  end.

Definition delay (c : Classification) : nat :=
  match c with
  | ClsSSL | ClsConnection | ClsTimeout => 2
  | ClsFailed => 1
  end.

(** The four handlers: a warning, then a sleep unless this was the last
    attempt. *)
Definition on_error (cfg : Config) (e : RequestError) (attempt : nat)
    (url : json) : M Step :=
  logger WARNING (MsgAttemptFailed (classify e) (attempt + 1) (MAX_RETRIES cfg) url) ;;
  (if (attempt <? MAX_RETRIES cfg - 1)%nat then sleep (delay (classify e)) else ret tt) ;;
  ret NextAttempt.

(** The body of [for attempt in range(Config.MAX_RETRIES)]. *)
Definition attempt_once (lib : Lib) (cfg : Config) (env : Env)
    (url : json) (file_path : pystr) (attempt : nat) : M Step :=
  match urlparse_netloc lib url with
  | None => on_error cfg OtherError attempt url
  | Some domain =>
      do outcome <- get cfg env url (bool_decide (domain = py "img.meituan.net"));
      match outcome with
      | Raises e => on_error cfg e attempt url
      | Responds true _ => on_error cfg HTTPError attempt url
      | Responds false content =>
          if CONVERT_TO_JPG cfg then
            do b <- _download_and_convert_to_jpg lib cfg env content file_path;
            ret (Return b)
          else
            do stored <- write_file env file_path content;
            if stored then
              do file_size <- getsize file_path;
              if (file_size <? 1024)%nat then
                logger WARNING (MsgTooSmall file_size file_path) ;;
                remove_file file_path ;;
                ret (Return false)
              else
                logger DEBUG (MsgDownloaded file_path file_size) ;;
                ret (Return true)
            else on_error cfg OtherError attempt url
      end
  end.

Fixpoint attempts (lib : Lib) (cfg : Config) (env : Env)
    (url : json) (file_path : pystr) (range : list nat) : M bool :=
  match range with
  | [] => ret false
  | attempt :: rest =>
      do step <- attempt_once lib cfg env url file_path attempt;
      match step with
      | Return b => ret b
      | NextAttempt => attempts lib cfg env url file_path rest
      end
  end.

Definition _download_single_image (lib : Lib) (cfg : Config) (env : Env)
    (url : json) (file_path : pystr) : M bool :=
  attempts lib cfg env url file_path (seq 0 (MAX_RETRIES cfg)).

(** The loop of [download_images], with its three counters. *)
Fixpoint download_loop (lib : Lib) (cfg : Config) (env : Env)
    (products : list Product) (images_dir : pystr)
    (downloaded_count skipped_count failed_count : nat) : M (nat * nat * nat) :=
  match products with
  | [] => ret (downloaded_count, skipped_count, failed_count)
  | product :: rest =>
      if negb (truthy (image_url product)) || bool_decide (image_filename product = [])
      then download_loop lib cfg env rest images_dir
             downloaded_count skipped_count failed_count
      else
        let file_path := path_join images_dir (image_filename product) in
        do present <- exists_file file_path;
        if present then
          download_loop lib cfg env rest images_dir
            downloaded_count (S skipped_count) failed_count
        else
          do ok <- _download_single_image lib cfg env (image_url product) file_path;
          if ok then
            download_loop lib cfg env rest images_dir
              (S downloaded_count) skipped_count failed_count
          else
            download_loop lib cfg env rest images_dir
              downloaded_count skipped_count (S failed_count)
  end.

Definition download_images (lib : Lib) (cfg : Config) (env : Env)
    (products : list Product) (images_dir : pystr) : M unit :=
  mkdir images_dir ;;
  do counts <- download_loop lib cfg env products images_dir 0 0 0;
  logger INFO (MsgSummary (fst (fst counts)) (snd (fst counts)) (snd counts)).

End ImageDownloader.

(** ** [class MalatangProcessor] *)

Module MalatangProcessor.

Definition process_file (lib : Lib) (cfg : Config) (env : Env) : M unit :=
  logger INFO MsgStart ;;
  do data <- DataExtractor.parse_json_file (INPUT_FILE cfg);
  match data with
  | None => ret tt
  | Some data =>
      if negb (truthy data) then ret tt else
      do products <- DataExtractor.extract_products cfg lib data;
      match products with
      | [] => logger WARNING MsgNoProducts
      | _ :: _ =>
          ExcelManager.save_products_to_excel env products (OUTPUT_EXCEL cfg) ;;
          ImageDownloader.download_images lib cfg env products (IMAGES_DIR cfg) ;;
          logger INFO MsgDone
      end
  end.

End MalatangProcessor.

(** ** [class FileMonitorHandler] *)

Module FileMonitorHandler.

Record t : Type := { last_modified : Q }.

Record FileSystemEvent : Type := {
  is_directory : bool;
  src_path : pystr
}.

Definition init : t := {| last_modified := 0 |}.

(** [on_modified]: [current_time] is what [time.time()] returns when the
    handler reads the clock; [process_file] is the processor's method. *)
Definition on_modified (cfg : Config) (process_file : M unit)
    (current_time : Q) (event : FileSystemEvent) (self : t) : M t :=
  if is_directory event then ret self
  else if endswith (src_path event) (INPUT_FILE cfg) then
    if Qlt_le_dec (current_time - last_modified self) 2 then ret self
    else
      logger INFO MsgChangeDetected ;;
      sleep 1 ;;
      process_file ;;
      ret {| last_modified := current_time |}
  else ret self.

End FileMonitorHandler.

(** * Vocabulary of the properties *)

(** ** Filename derivation *)

(** What the nine replacements do to one character. *)
Definition substitute (c : N) : N :=
  if c =? 60 then 65308
  else if c =? 62 then 65310
  else if c =? 58 then 65306
  else if c =? 47 then 65295
  else if c =? 92 then 65340
  else if c =? 124 then 65372
  else if c =? 63 then 65311
  else if c =? 42 then 65290
  else c.

(** The nine reserved ASCII characters: the keys of [replacements]. *)
Definition reserved (c : N) : bool :=
  existsb (N.eqb c) [60; 62; 58; 34; 47; 92; 124; 63; 42].

(** The table as the specification words it: every reserved character,
    the quotation mark included, goes to its full-width form. *)
Definition fullwidth_counterpart (c : N) : N :=
  if reserved c then c + 65248 else c.

Definition specified_filename (product_name : pystr) : pystr :=
  List.map fullwidth_counterpart product_name ++ py ".jpg".

(** Two names differ outside the reserved set: their lengths differ, or at
    some position they carry different characters, neither reserved. *)
Fixpoint differ_outside (a b : pystr) : bool :=
  match a, b with
  | [], [] => false
  | x :: a', y :: b' =>
      (negb (x =? y) && negb (reserved x) && negb (reserved y))
      || differ_outside a' b'
  | _, _ => true
  end.


(** ** Catalog *)

(** The rows [load_existing_data] finds in a catalog file. *)
Definition catalog_rows (f : ExcelFile) : list Row :=
  match f with
  | ExcelSheet rows => rows
  | ExcelAbsent | ExcelCorrupt => []
  end.

(** The products of a list whose name is not in the catalog. *)
Definition fresh_products (rows : list Row) (products : list Product) : list Product :=
  List.filter (fun p => bool_decide (name p ∉ List.map col_name rows)) products.

(** A state with more lines in its trace and nothing else changed. *)
Definition add_trace (st : State) (l : list Event) : State :=
  {| world := world st; calls := calls st; trace := trace st ++ l |}.

(** ** Concrete inputs *)

(** A library whose URL parser finds the CDN host and the extension
    [.png], and whose decoder accepts every input. *)
Definition example_lib : Lib := {|
  urlparse_netloc := fun _ => Some (py "img.meituan.net");
  url_splitext := fun _ => Some (py ".png");
  pil_to_jpeg := fun _ data => Some data
|}.

(** A library whose decoder rejects every input. *)
Definition undecodable_lib : Lib := {|
  urlparse_netloc := fun _ => Some (py "img.meituan.net");
  url_splitext := fun _ => Some (py ".png");
  pil_to_jpeg := fun _ _ => None
|}.

(** A world that answers every request with the two bytes 00 01. *)
Definition example_env : Env := {|
  now := py "2024-05-01 12:00:00";
  excel_writable := true;
  session_get := fun _ _ => Responds false [x00; x01];
  can_write := fun _ => true
|}.

(** A world in which every request times out. *)
Definition offline_env : Env := {|
  now := py "2024-05-01 12:00:00";
  excel_writable := true;
  session_get := fun _ _ => Raises Timeout;
  can_write := fun _ => true
|}.

Definition product_named (n : pystr) (url : pystr) : Product := {|
  name := n;
  price := JNum 20;
  discount_price := JNum 18;
  month_sale := JNum 3;
  image_url := JStr url;
  image_filename := n ++ py ".jpg"
|}.

Definition empty_world : World := {|
  feed := FeedMissing; excel := ExcelAbsent; files := ∅; dirs := ∅
|}.

(** A world whose catalog holds one row, for the product named [a]. *)
Definition world_with_a : World := {|
  feed := FeedMissing;
  excel := ExcelSheet
    [ExcelManager.new_row (py "2024-04-30 08:00:00")
       (product_named (py "a") (py "http://h/a.png"))];
  files := ∅;
  dirs := ∅
|}.

(** ** Runs and notifications *)

(** The feed file holds a document that decodes. *)
Definition decoded (f : FeedFile) : bool :=
  match f with
  | FeedJson _ => true
  | FeedMissing | FeedMalformed | FeedUnreadable => false
  end.

(** A notification that passes the two filters of [on_modified]: it is
    not for a directory and its path ends with the watched file name. *)
Definition watched (cfg : Config) (e : FileMonitorHandler.FileSystemEvent) : bool :=
  negb (FileMonitorHandler.is_directory e)
  && endswith (FileMonitorHandler.src_path e) (INPUT_FILE cfg).

(** What an accepted notification does. *)
Definition accepted (process_file : M unit) (current_time : Q) : M FileMonitorHandler.t :=
  logger INFO MsgChangeDetected ;;
  sleep 1 ;;
  process_file ;;
  ret {| FileMonitorHandler.last_modified := current_time |}.

(** A change of the shipped input file. *)
Definition input_changed : FileMonitorHandler.FileSystemEvent := {|
  FileMonitorHandler.is_directory := false;
  FileMonitorHandler.src_path := INPUT_FILE shipped_config
|}.

(** ** Requests *)

(** The exception an outcome of [session.get] followed by
    [raise_for_status] ends in, if any. *)
Definition failure (o : GetOutcome) : option RequestError :=
  match o with
  | Raises e => Some e
  | Responds true _ => Some HTTPError
  | Responds false _ => None
  end.

(** What a failed attempt leaves in the trace: the request, the warning
    with the 1-based attempt number, and a sleep unless it was the last. *)
Definition failure_trace (cfg : Config) (url : json) (cdn : bool)
    (e : RequestError) (attempt : nat) : list Event :=
  [Get url cdn (REQUEST_TIMEOUT cfg);
   Log WARNING (MsgAttemptFailed (ImageDownloader.classify e) (attempt + 1)
                  (MAX_RETRIES cfg) url)]
  ++ (if (attempt <? MAX_RETRIES cfg - 1)%nat
      then [Sleep (ImageDownloader.delay (ImageDownloader.classify e))]
      else []).

(** The state after a failed attempt. *)
Definition after_failure (cfg : Config) (url : json) (cdn : bool)
    (e : RequestError) (attempt : nat) (st : State) : State :=
  {| world := world st;
     calls := S (calls st);
     trace := trace st ++ failure_trace cfg url cdn e attempt |}.

(** The shipped configuration with JPEG conversion switched off. *)
Definition keep_format_config : Config := {|
  INPUT_FILE := INPUT_FILE shipped_config;
  OUTPUT_EXCEL := OUTPUT_EXCEL shipped_config;
  IMAGES_DIR := IMAGES_DIR shipped_config;
  LOG_FILE := LOG_FILE shipped_config;
  REQUEST_TIMEOUT := REQUEST_TIMEOUT shipped_config;
  MAX_RETRIES := MAX_RETRIES shipped_config;
  FILENAME_MAX_LENGTH := FILENAME_MAX_LENGTH shipped_config;
  CONVERT_TO_JPG := false;
  JPG_QUALITY := JPG_QUALITY shipped_config
|}.

(** A world whose first answer is a two-byte body and whose later answers
    are bodies of 2048 bytes. *)
Definition small_then_large_env : Env := {|
  now := py "2024-05-01 12:00:00";
  excel_writable := true;
  session_get := fun _ n =>
    match n with
    | O => Responds false [x00; x01]
    | S _ => Responds false (repeat x00 2048)
    end;
  can_write := fun _ => true
|}.

(** ** Two runs of the pipeline *)

(** The product an entry of the feed yields, if any. *)
Definition extract_item (cfg : Config) (lib : Lib) (item : json) : option Product :=
  match DataExtractor.single_product_body cfg lib item with
  | Some (Some p) => Some p
  | Some None | None => None
  end.

(** The products [extract_products] returns for a decoded document. *)
Definition extracted_products (cfg : Config) (lib : Lib) (data : json) : list Product :=
  match (inner ← dict_get data (py "data") (JObj []);
         spu_list ← dict_get inner (py "spuListVos") (JArr []);
         DataExtractor.iterate spu_list) with
  | Some items => omap (extract_item cfg lib) items
  | None => []
  end.

(** The products a run works on, given what is at the feed path. *)
Definition products_of_feed (cfg : Config) (lib : Lib) (f : FeedFile) : list Product :=
  match f with
  | FeedJson data => if truthy data then extracted_products cfg lib data else []
  | FeedMissing | FeedMalformed | FeedUnreadable => []
  end.

(** The products [download_images] does not pass over. *)
Definition wanted (p : Product) : bool :=
  truthy (image_url p) && negb (bool_decide (image_filename p = [])).

(** Where the image of a product is stored. *)
Definition target (cfg : Config) (p : Product) : pystr :=
  path_join (IMAGES_DIR cfg) (image_filename p).

(** The stages of [process_file] that follow the extraction. *)
Definition persist_and_fetch (lib : Lib) (cfg : Config) (env : Env)
    (products : list Product) : M unit :=
  ExcelManager.save_products_to_excel env products (OUTPUT_EXCEL cfg) ;;
  ImageDownloader.download_images lib cfg env products (IMAGES_DIR cfg) ;;
  logger INFO MsgDone.

(** The images a trace reports as failed, over all its summary lines. *)
Fixpoint failed_images (tr : list Event) : nat :=
  match tr with
  | [] => 0
  | Log _ (MsgSummary _ _ failed) :: tr' => failed + failed_images tr'
  | _ :: tr' => failed_images tr'
  end.

(** The counters of the latest summary line, searching a reversed trace. *)
Fixpoint latest_summary (rev_trace : list Event) : option (nat * nat * nat) :=
  match rev_trace with
  | [] => None
  | Log _ (MsgSummary downloaded skipped failed) :: _ => Some (downloaded, skipped, failed)
  | _ :: tr' => latest_summary tr'
  end.

Definition image_counts (tr : list Event) : option (nat * nat * nat) :=
  latest_summary (rev tr).

(** A feed with one product, named [a], that has a picture. *)
Definition one_product_feed : json :=
  JObj [(py "data",
         JObj [(py "spuListVos",
                JArr [JObj [(py "name", JStr (py "a"));
                            (py "price", JNum 20);
                            (py "wmProductPicVos",
                             JArr [JObj [(py "picUrl", JStr (py "http://h/a.png"))]])]])])].

Definition one_product_world : World := {|
  feed := FeedJson one_product_feed; excel := ExcelAbsent; files := ∅; dirs := ∅
|}.

(** The feed of the worked example: an entry named 麻辣烫/鸭血 priced 20
    with discount price -1 and one picture, and an entry with an empty
    name. *)
Definition malatang_feed : json :=
  JObj [(py "data",
         JObj [(py "spuListVos",
                JArr [JObj [(py "name", JStr [40635; 36771; 28907; 47; 40493; 34880]);
                            (py "price", JNum 20);
                            (py "discountPrice", JNum (-1));
                            (py "wmProductPicVos",
                             JArr [JObj [(py "picLargeUrl", JStr (py "http://h/m.png"))]])];
                      JObj [(py "name", JStr [])]])])].

(** * Vocabulary of the further properties *)

(** ** Extraction *)

(** The list [extract_products] loops over: [data['data']['spuListVos']]
    with the two defaults; [None] when one of the two [get]s raises. *)
Definition spu_list (data : json) : option json :=
  inner ← dict_get data (py "data") (JObj []);
  dict_get inner (py "spuListVos") (JArr []).

(** The product of the worked feed. *)
Definition malatang_product : Product := {|
  name := [40635; 36771; 28907; 47; 40493; 34880];
  price := JNum 20;
  discount_price := JNum 20;
  month_sale := JNum 0;
  image_url := JStr (py "http://h/m.png");
  image_filename := [40635; 36771; 28907; 65295; 40493; 34880] ++ py ".jpg"
|}.

(** A feed document whose list of entries is [items]. *)
Definition feed_of_entries (items : list json) : json :=
  JObj [(py "data", JObj [(py "spuListVos", JArr items)])].

(** The first entry of the worked feed. *)
Definition malatang_entry : json :=
  JObj [(py "name", JStr [40635; 36771; 28907; 47; 40493; 34880]);
        (py "price", JNum 20);
        (py "discountPrice", JNum (-1));
        (py "wmProductPicVos",
         JArr [JObj [(py "picLargeUrl", JStr (py "http://h/m.png"))]])].

(** An entry whose name is empty. *)
Definition blank_entry : json := JObj [(py "name", JStr [])].

(** ** Catalog *)

(** A world in which the sheet cannot be written. *)
Definition locked_env : Env := {|
  now := py "2024-05-01 12:00:00";
  excel_writable := false;
  session_get := fun _ _ => Responds false [x00; x01];
  can_write := fun _ => true
|}.

(** ** Image stage *)

(** A world in which the image of the product named [a] is on disk
    already, with one byte in it. *)
Definition world_with_image : World := {|
  feed := FeedMissing;
  excel := ExcelAbsent;
  files := {[ py "images/a.jpg" := [x01] ]};
  dirs := {[ py "images" ]}
|}.

(** A world whose first two requests time out and whose later ones are
    answered with 2048 bytes. *)
Definition flaky_env : Env := {|
  now := py "2024-05-01 12:00:00";
  excel_writable := true;
  session_get := fun _ n =>
    match n with
    | O | S O => Raises Timeout
    | S (S _) => Responds false (repeat x00 2048)
    end;
  can_write := fun _ => true
|}.

(** ** Sequences of notifications *)

(** The observer hands its notifications to the handler one after the
    other; each comes with the time the handler reads for it. *)
Fixpoint dispatch (cfg : Config) (process_file : M unit)
    (notifications : list (Q * FileMonitorHandler.FileSystemEvent))
    (self : FileMonitorHandler.t) : M FileMonitorHandler.t :=
  match notifications with
  | [] => ret self
  | (current_time, event) :: rest =>
      do self' <- FileMonitorHandler.on_modified cfg process_file current_time event self;
      dispatch cfg process_file rest self'
  end.

(** The times of the notifications that get through, [last] being the
    time of the latest one accepted so far. *)
Fixpoint accepted_times (cfg : Config) (last : Q)
    (notifications : list (Q * FileMonitorHandler.FileSystemEvent)) : list Q :=
  match notifications with
  | [] => []
  | (t, e) :: rest =>
      if watched cfg e
      then if Qlt_le_dec (t - last) 2
           then accepted_times cfg last rest
           else t :: accepted_times cfg t rest
      else accepted_times cfg last rest
  end.

(** Each time is at least 2 seconds after the one before, [last] first. *)
Fixpoint spaced (last : Q) (times : list Q) : Prop :=
  match times with
  | [] => True
  | t :: ts => (2 <= t - last)%Q /\ spaced t ts
  end.

(** One accepted notification after the other. *)
Fixpoint run_accepted (process_file : M unit) (times : list Q)
    (self : FileMonitorHandler.t) : M FileMonitorHandler.t :=
  match times with
  | [] => ret self
  | t :: ts =>
      do self' <- accepted process_file t;
      run_accepted process_file ts self'
  end.

(** A change of some other file, and a change of a directory. *)
Definition other_changed : FileMonitorHandler.FileSystemEvent := {|
  FileMonitorHandler.is_directory := false;
  FileMonitorHandler.src_path := py "notes.txt"
|}.

Definition directory_changed : FileMonitorHandler.FileSystemEvent := {|
  FileMonitorHandler.is_directory := true;
  FileMonitorHandler.src_path := INPUT_FILE shipped_config
|}.

(** Five notifications: the file at 1000, another file at 1000.5, the file
    at 1001, a directory at 1003, the file at 1003. *)
Definition five_notifications : list (Q * FileMonitorHandler.FileSystemEvent) :=
  [(1000%Q, input_changed); (1000.5%Q, other_changed); (1001%Q, input_changed);
   (1003%Q, directory_changed); (1003%Q, input_changed)].

(** ** States that differ in the catalog and in the trace only *)

(** Two states agree on what the image stage reads and writes. *)
Definition agree (st st' : State) : Prop :=
  feed (world st) = feed (world st')
  /\ files (world st) = files (world st')
  /\ dirs (world st) = dirs (world st')
  /\ calls st = calls st'.

(** A computation that, from states that agree, returns the same value
    and leaves states that agree. *)
Definition blind {A} (m : M A) : Prop :=
  forall st st', agree st st' ->
    fst (m st) = fst (m st') /\ agree (snd (m st)) (snd (m st')).

(** ** [class GUIProcessor] of [gui_processor.py] *)

Module GUIProcessor.

(** The step names passed to [update_progress]. *)
Inductive StepName : Type :=
| StepParse                   (* 解析JSON文件 *)
| StepExtract                 (* 提取商品信息 *)
| StepCheckExcel              (* 检查Excel数据 *)
| StepSave                    (* 保存Excel数据 *)
| StepMakeDir                 (* 创建图片目录 *)
| StepDownload                (* 下载图片 *)
| StepDone.                   (* 处理完成 *)

(** The two exceptions [process_file] raises itself. *)
Inductive Failure : Type :=
| ParseFailed                 (* JSON文件解析失败 *)
| NoProducts.                 (* 没有提取到商品信息 *)

Inductive GuiMessage : Type :=
| GParseStart                                 (* 开始解析JSON文件... *)
| GProgressLine (percent : nat) (step : StepName)   (* 进度 percent%: step *)
| GExtractStart                               (* 提取商品信息... *)
| GExtracted (n : nat)                        (* 成功提取 n 个商品信息 *)
| GCheckExcel                                 (* 检查现有Excel数据... *)
| GNewFound (n : nat)                         (* 发现 n 个新商品需要处理 *)
| GSaving                                     (* 保存数据到Excel... *)
| GMakeDir                                    (* 创建图片目录... *)
| GDownloadStart                              (* 开始下载图片... *)
| GSkipExisting (filename : pystr)            (* 跳过已存在的图片 *)
| GDownloading (index total : nat) (name : pystr)   (* 下载图片 (index/total) *)
| GDownloadOk (filename : pystr)              (* 下载成功 *)
| GDownloadFailed (filename : pystr)          (* 下载失败 *)
| GAllDone                                    (* 所有处理完成！ *)
| GStats (total new : nat)                    (* 统计: 商品..个, 新增..个 *)
| GImageStats (downloaded skipped failed : nat)     (* 图片: 下载.., 跳过.., 失败.. *)
| GProcessFailed (e : Failure).               (* 处理失败 *)

Inductive GuiLevel : Type := LvInfo | LvWarning | LvError.

(** What the processor shows: a line given to its logger, a call of the
    log callback, a call of the progress callback. *)
Inductive GuiEvent : Type :=
| LoggerInfo (m : GuiMessage)
| LogCallback (m : GuiMessage) (level : GuiLevel)
| ProgressCallback (percent : nat).

(** The fields of the object; a callback is present or [None]. *)
Record t : Type := {
  log_callback : bool;
  progress_callback : bool;
  total_steps : nat;
  current_step : nat
}.

(** [__init__] *)
Definition init (log_callback progress_callback : bool) : t := {|
  log_callback := log_callback;
  progress_callback := progress_callback;
  total_steps := 0;
  current_step := 0
|}.

(** The dict [process_file] returns. *)
Record Results : Type := {
  total_products : nat;
  new_products : nat;
  downloaded_images : nat;
  skipped_images : nat;
  failed_images : nat;
  excel_file : pystr;
  images_dir : pystr
}.

(** The state of a run through the processor: the run state of the
    components, the object, and what was shown. *)
Record GState : Type := {
  base : State;
  self : t;
  shown : list GuiEvent
}.

Definition GM (A : Type) : Type := GState -> A * GState.

Definition gret {A} (a : A) : GM A := fun g => (a, g).

Definition gbind {A B} (m : GM A) (k : A -> GM B) : GM B :=
  fun g => let (a, g') := m g in k a g'.

Notation "'gdo' x <- m ; k" := (gbind m (fun x => k))
  (at level 10, x name, m at level 100, k at level 200, only parsing).
Notation "m ;;; k" := (gbind m (fun _ => k))
  (at level 100, k at level 200, right associativity, only parsing).

(** A call into one of the components. *)
Definition lift {A} (m : M A) : GM A :=
  fun g => let (a, st') := m (base g) in
           (a, {| base := st'; self := self g; shown := shown g |}).

Definition show (e : GuiEvent) : GM unit :=
  fun g => (tt, {| base := base g; self := self g; shown := shown g ++ [e] |}).

Definition get_self : GM t := fun g => (self g, g).

Definition set_steps (total current : nat) : GM unit :=
  fun g => (tt, {| base := base g;
                   self := {| log_callback := log_callback (self g);
                              progress_callback := progress_callback (self g);
                              total_steps := total;
                              current_step := current |};
                   shown := shown g |}).

(** [log] *)
Definition log (message : GuiMessage) (level : GuiLevel) : GM unit :=
  show (LoggerInfo message) ;;;
  gdo s <- get_self;
  if log_callback s then show (LogCallback message level) else gret tt.

(** [update_progress]. Python computes [int((current_step / total_steps)
    * 100)] in floating point; for the steps 0 to 6 of 6 that is the
    integer quotient taken here. *)
Definition update_progress (step_name : option StepName) : GM unit :=
  gdo s <- get_self;
  if (0 <? total_steps s)%nat then
    let progress := (current_step s * 100 / total_steps s)%nat in
    (if progress_callback s then show (ProgressCallback progress) else gret tt) ;;;
    match step_name with
    | Some step => log (GProgressLine progress step) LvInfo
    | None => gret tt
    end
  else gret tt.

(** [self.current_step += 1] followed by [update_progress(step)]. *)
Definition next_step (step : StepName) : GM unit :=
  gdo s <- get_self;
  set_steps (total_steps s) (current_step s + 1) ;;;
  update_progress (Some step).

(** [_download_single_image_gui]: the call of the downloader, which
    catches its own exceptions. *)
Definition _download_single_image_gui (lib : Lib) (cfg : Config) (env : Env)
    (url : json) (file_path : pystr) (product_name : pystr) : GM bool :=
  lift (ImageDownloader._download_single_image lib cfg env url file_path).

(** The loop of [download_images_with_progress] over
    [enumerate(products)]. *)
Fixpoint progress_loop (lib : Lib) (cfg : Config) (env : Env)
    (products : list Product) (images_dir : pystr) (total_images i : nat)
    (downloaded_count skipped_count failed_count : nat) : GM (nat * nat * nat) :=
  match products with
  | [] => gret (downloaded_count, skipped_count, failed_count)
  | product :: rest =>
      if negb (truthy (image_url product)) || bool_decide (image_filename product = [])
      then progress_loop lib cfg env rest images_dir total_images (S i)
             downloaded_count skipped_count failed_count
      else
        let file_path := path_join images_dir (image_filename product) in
        gdo present <- lift (exists_file file_path);
        if present then
          log (GSkipExisting (image_filename product)) LvInfo ;;;
          progress_loop lib cfg env rest images_dir total_images (S i)
            downloaded_count (S skipped_count) failed_count
        else
          log (GDownloading (i + 1) total_images (name product)) LvInfo ;;;
          gdo ok <- _download_single_image_gui lib cfg env (image_url product)
                      file_path (name product);
          if ok then
            log (GDownloadOk (image_filename product)) LvInfo ;;;
            progress_loop lib cfg env rest images_dir total_images (S i)
              (S downloaded_count) skipped_count failed_count
          else
            log (GDownloadFailed (image_filename product)) LvWarning ;;;
            progress_loop lib cfg env rest images_dir total_images (S i)
              downloaded_count skipped_count (S failed_count)
  end.

(** [download_images_with_progress] *)
Definition download_images_with_progress (lib : Lib) (cfg : Config) (env : Env)
    (products : list Product) (images_dir : pystr) : GM (nat * nat * nat) :=
  let total_images :=
    length (List.filter (fun p => truthy (image_url p)) products) in
  progress_loop lib cfg env products images_dir total_images 0 0 0 0.

(** The [try] block of [process_file]: [inl] when it raises. *)
Definition process_file_body (lib : Lib) (cfg : Config) (env : Env)
    (input_file output_excel images_dir : pystr) : GM (Failure + Results) :=
  set_steps 6 0 ;;;
  log GParseStart LvInfo ;;;
  next_step StepParse ;;;
  gdo data <- lift (DataExtractor.parse_json_file input_file);
  match data with
  | None => gret (inl ParseFailed)
  | Some data =>
      if negb (truthy data) then gret (inl ParseFailed) else
      log GExtractStart LvInfo ;;;
      next_step StepExtract ;;;
      gdo products <- lift (DataExtractor.extract_products cfg lib data);
      match products with
      | [] => gret (inl NoProducts)
      | _ :: _ =>
          log (GExtracted (length products)) LvInfo ;;;
          log GCheckExcel LvInfo ;;;
          next_step StepCheckExcel ;;;
          gdo existing_df <- lift (ExcelManager.load_existing_data output_excel);
          let existing_names : gset pystr :=
            match existing_df with
            | [] => ∅
            | _ => list_to_set (List.map col_name existing_df)
            end in
          let new_list :=
            List.filter (fun p => bool_decide (name p ∉ existing_names)) products in
          log (GNewFound (length new_list)) LvInfo ;;;
          log GSaving LvInfo ;;;
          next_step StepSave ;;;
          lift (ExcelManager.save_products_to_excel env products output_excel) ;;;
          log GMakeDir LvInfo ;;;
          next_step StepMakeDir ;;;
          lift (mkdir images_dir) ;;;
          log GDownloadStart LvInfo ;;;
          next_step StepDownload ;;;
          gdo counts <- download_images_with_progress lib cfg env products images_dir;
          gdo s <- get_self;
          set_steps (total_steps s) (total_steps s) ;;;
          update_progress (Some StepDone) ;;;
          let results := {|
            total_products := length products;
            new_products := length new_list;
            downloaded_images := fst (fst counts);
            skipped_images := snd (fst counts);
            failed_images := snd counts;
            excel_file := output_excel;
            images_dir := images_dir
          |} in
          log GAllDone LvInfo ;;;
          log (GStats (total_products results) (new_products results)) LvInfo ;;;
          log (GImageStats (downloaded_images results) (skipped_images results)
                 (failed_images results)) LvInfo ;;;
          gret (inr results)
      end
  end.

(** [process_file]: an exception is shown, then raised again. *)
Definition process_file (lib : Lib) (cfg : Config) (env : Env)
    (input_file output_excel images_dir : pystr) : GM (Failure + Results) :=
  gdo r <- process_file_body lib cfg env input_file output_excel images_dir;
  match r with
  | inl e => log (GProcessFailed e) LvError ;;; gret (inl e)
  | inr results => gret (inr results)
  end.

(** The state a processor starts from. *)
Definition gstart (log_callback progress_callback : bool) (st : State) : GState :=
  {| base := st; self := init log_callback progress_callback; shown := [] |}.

End GUIProcessor.

(** ** The processor of the interface and its components *)

(** A step that only shows something or only changes the object. *)
Definition quiet {A} (q : GUIProcessor.GM A) : Prop :=
  forall g, GUIProcessor.base (snd (q g)) = GUIProcessor.base g.

(** A computation of the processor does to the run state what a
    computation of the components does, and returns the same value. *)
Definition tracks {A} (gm : GUIProcessor.GM A) (m : M A) : Prop :=
  forall g,
    fst (gm g) = fst (m (GUIProcessor.base g))
    /\ GUIProcessor.base (snd (gm g)) = snd (m (GUIProcessor.base g)).

(** The calls into the components that [GUIProcessor.process_file] makes,
    in its order, with the value it returns. *)
Definition component_calls (lib : Lib) (cfg : Config) (env : Env)
    (input_file output_excel images_dir : pystr)
    : M (GUIProcessor.Failure + GUIProcessor.Results) :=
  do data <- DataExtractor.parse_json_file input_file;
  match data with
  | None => ret (inl GUIProcessor.ParseFailed)
  | Some data =>
      if negb (truthy data) then ret (inl GUIProcessor.ParseFailed) else
      do products <- DataExtractor.extract_products cfg lib data;
      match products with
      | [] => ret (inl GUIProcessor.NoProducts)
      | _ :: _ =>
          do existing_df <- ExcelManager.load_existing_data output_excel;
          ExcelManager.save_products_to_excel env products output_excel ;;
          mkdir images_dir ;;
          do counts <- ImageDownloader.download_loop lib cfg env products images_dir 0 0 0;
          ret (inr {|
            GUIProcessor.total_products := length products;
            GUIProcessor.new_products :=
              length (List.filter
                        (fun p => bool_decide
                           (name p ∉ match existing_df with
                                     | [] => (∅ : gset pystr)
                                     | _ => list_to_set (List.map col_name existing_df)
                                     end))
                        products);
            GUIProcessor.downloaded_images := fst (fst counts);
            GUIProcessor.skipped_images := snd (fst counts);
            GUIProcessor.failed_images := snd counts;
            GUIProcessor.excel_file := output_excel;
            GUIProcessor.images_dir := images_dir
          |})
      end
  end.

(** ** What the processor of the interface shows *)

(** The values given to the progress callback, in order. *)
Definition progress_values (l : list GUIProcessor.GuiEvent) : list nat :=
  omap (fun e => match e with
                 | GUIProcessor.ProgressCallback n => Some n
                 | _ => None
                 end) l.

(** The messages given to the logger, in order. *)
Definition logger_lines (l : list GUIProcessor.GuiEvent) : list GUIProcessor.GuiMessage :=
  omap (fun e => match e with
                 | GUIProcessor.LoggerInfo m => Some m
                 | _ => None
                 end) l.

(** The messages given to the log callback, in order. *)
Definition callback_lines (l : list GUIProcessor.GuiEvent) : list GUIProcessor.GuiMessage :=
  omap (fun e => match e with
                 | GUIProcessor.LogCallback m _ => Some m
                 | _ => None
                 end) l.

(** From a state in [P], the computation ends in a state in [Q]. *)
Definition triple {A} (P : GUIProcessor.GState -> Prop) (gm : GUIProcessor.GM A)
    (Q : A -> GUIProcessor.GState -> Prop) : Prop :=
  forall g, P g -> Q (fst (gm g)) (snd (gm g)).

(** The object has a progress callback and is at step [k] of [total], and the
    callback was given the values [l]. *)
Definition progress_state (lc : bool) (total k : nat) (l : list nat)
    (g : GUIProcessor.GState) : Prop :=
  GUIProcessor.self g
  = {| GUIProcessor.log_callback := lc; GUIProcessor.progress_callback := true;
       GUIProcessor.total_steps := total; GUIProcessor.current_step := k |}
  /\ progress_values (GUIProcessor.shown g) = l.

(** Since a state that had shown the logger [a] and the callback [b], the
    callback, if there is one, was given the lines that the logger was
    given, and no line otherwise. *)
Definition mirrored (lc : bool) (a b : list GUIProcessor.GuiMessage)
    (g : GUIProcessor.GState) : Prop :=
  GUIProcessor.log_callback (GUIProcessor.self g) = lc
  /\ exists more,
       logger_lines (GUIProcessor.shown g) = a ++ more
       /\ callback_lines (GUIProcessor.shown g) = b ++ (if lc then more else []).
(** * Properties *)

Arguments py : simpl never.
Arguments Nat.ltb : simpl never.

(** ** Filename derivation *)

Lemma replace_scan_single (o n : N) (s : pystr) :
  replace_scan [o] [n] s 0 = List.map (fun c => if c =? o then n else c) s.
Proof.
  induction s as [|c s IH]; [reflexivity|].
  cbn [replace_scan startswith List.map length Nat.sub].
  rewrite andb_true_r, (N.eqb_sym o c).
  destruct (c =? o); cbn; now rewrite IH.
Qed.

Lemma str_replace_single (o n : N) (s : pystr) :
  str_replace [o] [n] s = List.map (fun c => if c =? o then n else c) s.
Proof. apply replace_scan_single. Qed.

Ltac split_eqb c k :=
  destruct (N.eqb_spec c k) as [->|?]; [reflexivity|].

Lemma substitute_chain (c : N) :
  (fun c => if c =? 42 then 65290 else c)
    ((fun c => if c =? 63 then 65311 else c)
      ((fun c => if c =? 124 then 65372 else c)
        ((fun c => if c =? 92 then 65340 else c)
          ((fun c => if c =? 47 then 65295 else c)
            ((fun c => if c =? 34 then 34 else c)
              ((fun c => if c =? 58 then 65306 else c)
                ((fun c => if c =? 62 then 65310 else c)
                  ((fun c => if c =? 60 then 65308 else c) c))))))))
  = substitute c.
Proof.
  unfold substitute.
  split_eqb c 60. split_eqb c 62. split_eqb c 58. split_eqb c 47.
  split_eqb c 92. split_eqb c 124. split_eqb c 63. split_eqb c 42.
  cbv beta.
  repeat match goal with H : c <> _ |- _ => apply N.eqb_neq in H end.
  destruct (c =? 34) eqn:E; [apply N.eqb_eq in E; subst; reflexivity|].
  repeat match goal with H : (c =? _) = false |- _ => rewrite H end.
  reflexivity.
Qed.

(** The loop over the table is a character-wise substitution. *)
Lemma clean_name_map (s : pystr) :
  DataExtractor.clean_name s = List.map substitute s.
Proof.
  unfold DataExtractor.clean_name, DataExtractor.replacements.
  cbn [fold_left fst snd].
  rewrite !str_replace_single, !List.map_map.
  apply List.map_ext. intros c. apply substitute_chain.
Qed.

Lemma clean_filename_convert (cfg : Config) (lib : Lib) (s : pystr) (url : json) :
  CONVERT_TO_JPG cfg = true ->
  DataExtractor._clean_filename cfg lib s url = Some (List.map substitute s ++ py ".jpg").
Proof.
  intros H. unfold DataExtractor._clean_filename. now rewrite H, clean_name_map.
Qed.

Lemma substitute_not_reserved (c : N) : reserved c = false -> substitute c = c.
Proof.
  unfold reserved, substitute. cbn [existsb]. intros H.
  repeat (apply orb_false_elim in H; destruct H as [? H]).
  repeat match goal with E : (c =? _) = false |- _ => rewrite E; clear E end.
  reflexivity.
Qed.

(** Away from the quotation mark the code and the specified table agree. *)
Lemma substitute_fullwidth (c : N) : c <> 34 -> substitute c = fullwidth_counterpart c.
Proof.
  intros Hq. unfold fullwidth_counterpart.
  destruct (reserved c) eqn:R; [|now apply substitute_not_reserved].
  unfold reserved in R. cbn [existsb] in R.
  repeat (apply orb_prop in R; destruct R as [R|R];
          [apply N.eqb_eq in R; subst; (reflexivity || congruence)|]).
  discriminate.
Qed.

Lemma differ_outside_map (a b : pystr) :
  differ_outside a b = true -> List.map substitute a <> List.map substitute b.
Proof.
  revert b. induction a as [|x a IH]; intros [|y b]; cbn; try discriminate.
  intros H E. injection E as Exy Eab.
  apply orb_prop in H. destruct H as [H|H]; [|exact (IH b H Eab)].
  apply andb_prop in H. destruct H as [H Ry].
  apply andb_prop in H. destruct H as [Hne Rx].
  apply negb_true_iff in Hne, Rx, Ry.
  rewrite (substitute_not_reserved x Rx), (substitute_not_reserved y Ry) in Exy.
  apply N.eqb_neq in Hne. contradiction.
Qed.

Lemma clean_filename_specified_without_quote (cfg : Config) (lib : Lib)
    (s : pystr) (url : json) :
  CONVERT_TO_JPG cfg = true -> 34 ∉ s ->
  DataExtractor._clean_filename cfg lib s url = Some (specified_filename s).
Proof.
  intros Hc Hq. rewrite clean_filename_convert by exact Hc.
  unfold specified_filename. do 2 f_equal.
  induction s as [|c s IH]; [reflexivity|].
  cbn. rewrite substitute_fullwidth, IH; [reflexivity| |]; set_solver.
Qed.

(** C3, at the failing input: for the name made of the letter a, the
    quotation mark and the letter b (code points 97, 34, 98) the code
    derives a filename whose quotation mark is still the ASCII one, whereas
    the specified table puts the full-width U+FF02 in its place. The table
    entry for the quotation mark maps it to itself, although the comment
    beside it announces the full-width quote. *)
Theorem clean_filename_keeps_ascii_quote (lib : Lib) (url : json) :
  DataExtractor._clean_filename shipped_config lib [97; 34; 98] url
    = Some ([97; 34; 98] ++ py ".jpg")
  /\ specified_filename [97; 34; 98] = [97; 65282; 98] ++ py ".jpg"
  /\ DataExtractor._clean_filename shipped_config lib [97; 34; 98] url
       <> Some (specified_filename [97; 34; 98]).
Proof.
  repeat split; try reflexivity.
  cbv. discriminate.
Qed.

(** C4: with JPEG conversion on, the derived filename keeps every character
    that is not one of the nine reserved ones at its position and adds
    exactly the four characters [.jpg] at the end; and two names that
    differ outside the reserved set (in length, or at a position where
    neither character is reserved) get different filenames. *)
Theorem clean_filename_injective_outside_reserved (cfg : Config) (lib : Lib) :
  CONVERT_TO_JPG cfg = true ->
  (forall (product_name : pystr) (url : json),
     exists f,
       DataExtractor._clean_filename cfg lib product_name url = Some f
       /\ length f = (length product_name + 4)%nat
       /\ (forall (i : nat) (c : N),
             product_name !! i = Some c -> reserved c = false -> f !! i = Some c)
       /\ drop (length product_name) f = py ".jpg")
  /\ (forall (n1 n2 : pystr) (u1 u2 : json),
        differ_outside n1 n2 = true ->
        DataExtractor._clean_filename cfg lib n1 u1
          <> DataExtractor._clean_filename cfg lib n2 u2).
Proof.
  intros Hc. split.
  - intros s url. exists (List.map substitute s ++ py ".jpg").
    split; [now apply clean_filename_convert|].
    split; [rewrite length_app, length_map; reflexivity|].
    split.
    + intros i c Hi Hr.
      rewrite lookup_app_l by (rewrite length_map; eapply lookup_lt_Some, Hi).
      change (List.map substitute s) with (substitute <$> s).
      rewrite list_lookup_fmap, Hi. cbn. now rewrite substitute_not_reserved.
    + rewrite <- (length_map substitute s). now rewrite drop_app_length.
  - intros n1 n2 u1 u2 Hd.
    rewrite !clean_filename_convert by exact Hc.
    intros E. injection E as E. apply app_inv_tail in E.
    exact (differ_outside_map n1 n2 Hd E).
Qed.

(** The names [a/b] and [a/c] under the shipped configuration. *)
Lemma clean_filename_injective_witness :
  CONVERT_TO_JPG shipped_config = true
  /\ differ_outside [97; 47; 98] [97; 47; 99] = true
  /\ forall (lib : Lib) (u1 u2 : json),
       DataExtractor._clean_filename shipped_config lib [97; 47; 98] u1
         <> DataExtractor._clean_filename shipped_config lib [97; 47; 99] u2.
Proof.
  split; [reflexivity|]. split; [reflexivity|].
  intros lib u1 u2.
  apply (clean_filename_injective_outside_reserved shipped_config lib); reflexivity.
Defined.

(** The worked example: one product, discount price defaulted to the
    price, the solidus of the name full-width in the filename; the entry
    with the empty name is passed over. *)
Example extract_malatang_feed :
  fst (DataExtractor.extract_products shipped_config example_lib malatang_feed
         (start empty_world))
  = [{| name := [40635; 36771; 28907; 47; 40493; 34880];
        price := JNum 20;
        discount_price := JNum 20;
        month_sale := JNum 0;
        image_url := JStr (py "http://h/m.png");
        image_filename := [40635; 36771; 28907; 65295; 40493; 34880] ++ py ".jpg" |}].
Proof. vm_compute. reflexivity. Qed.

(** The name is stripped for the product but not for the filename. *)
Example extract_keeps_spaces_in_filename :
  extract_item shipped_config example_lib
    (JObj [(py "name", JStr (py " a "));
           (py "wmProductPicVos", JArr [JObj [(py "picUrl", JStr (py "http://h/a.png"))]])])
  = Some {| name := py "a";
            price := JNum 0;
            discount_price := JNum 0;
            month_sale := JNum 0;
            image_url := JStr (py "http://h/a.png");
            image_filename := py " a .jpg" |}.
Proof. vm_compute. reflexivity. Qed.

(** The boundary of C4: a reserved character and its own full-width form
    are not told apart, so [a<b] and [a＜b] share a filename. *)
Lemma clean_filename_fullwidth_collision (lib : Lib) (u : json) :
  DataExtractor._clean_filename shipped_config lib [97; 60; 98] u
    = DataExtractor._clean_filename shipped_config lib [97; 65308; 98] u.
Proof. reflexivity. Qed.

(** ** Catalog persistence *)

Lemma collect_new_filter (names : gset pystr) (t : pystr)
    (products : list Product) (acc : list Row) :
  ExcelManager.collect_new names t products acc
  = acc ++ List.map (ExcelManager.new_row t)
             (List.filter (fun p => bool_decide (name p ∉ names)) products).
Proof.
  revert acc. induction products as [|p ps IH]; intros acc; cbn.
  - now rewrite app_nil_r.
  - destruct (bool_decide (name p ∉ names)); rewrite IH; cbn;
      [now rewrite <- app_assoc | reflexivity].
Qed.

Lemma existing_names_rows (rows : list Row) (p : Product) :
  bool_decide (name p ∉ match rows with
                        | [] => (∅ : gset pystr)
                        | _ => list_to_set (List.map col_name rows)
                        end)
  = bool_decide (name p ∉ List.map col_name rows).
Proof.
  apply bool_decide_ext. destruct rows as [|r rows]; [set_solver|].
  now rewrite elem_of_list_to_set.
Qed.

(** What [save_products_to_excel] does, in one equation. *)
Lemma save_products_to_excel_eq (env : Env) (products : list Product)
    (path : pystr) (st : State) :
  let rows := catalog_rows (excel (world st)) in
  let new_data := List.map (ExcelManager.new_row (now env)) (fresh_products rows products) in
  let loaded := match excel (world st) with
                | ExcelSheet r => Log INFO (MsgLoaded (length r))
                | ExcelAbsent => Log INFO MsgNoExcel
                | ExcelCorrupt => Log ERROR MsgLoadFailed
                end in
  ExcelManager.save_products_to_excel env products path st
  = (tt, match new_data with
         | [] => add_trace st [loaded; Log INFO MsgNothingNew]
         | _ :: _ =>
             if excel_writable env
             then {| world := {| feed := feed (world st);
                                 excel := ExcelSheet (rows ++ new_data);
                                 files := files (world st);
                                 dirs := dirs (world st) |};
                     calls := calls st;
                     trace := trace st ++ [loaded; Log INFO (MsgAdded (length new_data))] |}
             else add_trace st [loaded; Log ERROR MsgSaveFailed]
         end).
Proof.
  cbv zeta.
  unfold ExcelManager.save_products_to_excel, ExcelManager.load_existing_data,
    fresh_products, bind, get_world.
  assert (Hrows : forall rows,
    ExcelManager.collect_new
      match rows with [] => (∅ : gset pystr) | _ => list_to_set (List.map col_name rows) end
      (now env) products []
    = List.map (ExcelManager.new_row (now env))
        (List.filter (fun p => bool_decide (name p ∉ List.map col_name rows)) products)).
  { intros rows. rewrite collect_new_filter. cbn. f_equal.
    apply List.filter_ext. intros p. apply existing_names_rows. }
  destruct (excel (world st)) as [| |rows] eqn:E;
    [pose proof (Hrows []) as H | pose proof (Hrows []) as H
    | pose proof (Hrows rows) as H];
    cbn in H |- *; unfold logger, emit, bind, ret; cbn; rewrite H;
    match goal with |- context [List.map ?f ?l] => destruct (List.map f l) eqn:En end;
    cbn; unfold ExcelManager.to_excel, add_trace;
    try (destruct (excel_writable env)); cbn; rewrite <- ?app_assoc; reflexivity.
Qed.

Lemma save_products_to_excel_rows (env : Env) (products : list Product)
    (path : pystr) (st : State) :
  excel_writable env = true ->
  catalog_rows (excel (world (snd (ExcelManager.save_products_to_excel env products path st))))
  = catalog_rows (excel (world st))
    ++ List.map (ExcelManager.new_row (now env))
         (fresh_products (catalog_rows (excel (world st))) products).
Proof.
  intros Hw. rewrite save_products_to_excel_eq. cbv zeta. rewrite Hw. cbn [snd].
  destruct (List.map _ _) eqn:E; cbn; [symmetry; apply app_nil_r | reflexivity].
Qed.

Lemma save_products_to_excel_frame (env : Env) (products : list Product)
    (path : pystr) (st : State) :
  let st' := snd (ExcelManager.save_products_to_excel env products path st) in
  feed (world st') = feed (world st)
  /\ files (world st') = files (world st)
  /\ dirs (world st') = dirs (world st)
  /\ calls st' = calls st.
Proof.
  rewrite save_products_to_excel_eq. cbv zeta. cbn [snd].
  destruct (List.map _ _); [|destruct (excel_writable env)]; cbn; auto.
Qed.

Lemma fresh_products_spec (rows : list Row) (products : list Product) (p : Product) :
  p ∈ fresh_products rows products
  <-> p ∈ products /\ name p ∉ List.map col_name rows.
Proof.
  unfold fresh_products.
  rewrite list_elem_of_In, List.filter_In, bool_decide_eq_true, <- list_elem_of_In.
  reflexivity.
Qed.



Lemma not_NoDup_twice {A} (x : A) (l1 l2 l3 l4 : list A) :
  ~ NoDup (l1 ++ l2 ++ x :: l3 ++ x :: l4).
Proof.
  intros H. apply NoDup_app in H as (_ & _ & H).
  apply NoDup_app in H as (_ & _ & H).
  apply NoDup_cons in H as [H _]. apply H. set_solver.
Qed.

(** C10: the names to skip are those of the loaded catalog only. When a
    product list carries two entries [p] and [q] with one name that the
    catalog does not hold, both are appended, [p] before [q], and the
    catalog written by this single call has a repeated name. *)
Theorem save_keeps_duplicates_within_feed (env : Env) (path : pystr) (st : State)
    (l1 l2 l3 : list Product) (p q : Product) :
  excel_writable env = true ->
  name p = name q ->
  name p ∉ List.map col_name (catalog_rows (excel (world st))) ->
  let rows := catalog_rows (excel (world st)) in
  let st' := snd (ExcelManager.save_products_to_excel env
                    (l1 ++ p :: l2 ++ q :: l3) path st) in
  let rows' := catalog_rows (excel (world st')) in
  rows' = rows
          ++ List.map (ExcelManager.new_row (now env)) (fresh_products rows l1)
          ++ ExcelManager.new_row (now env) p
          :: List.map (ExcelManager.new_row (now env)) (fresh_products rows l2)
          ++ ExcelManager.new_row (now env) q
          :: List.map (ExcelManager.new_row (now env)) (fresh_products rows l3)
  /\ ~ NoDup (List.map col_name rows').
Proof.
  intros Hw Hpq Hp rows st' rows'.
  assert (E : rows' = rows
          ++ List.map (ExcelManager.new_row (now env)) (fresh_products rows l1)
          ++ ExcelManager.new_row (now env) p
          :: List.map (ExcelManager.new_row (now env)) (fresh_products rows l2)
          ++ ExcelManager.new_row (now env) q
          :: List.map (ExcelManager.new_row (now env)) (fresh_products rows l3)).
  { unfold rows', st'. rewrite save_products_to_excel_rows by exact Hw.
    fold rows. f_equal. unfold fresh_products.
    rewrite List.filter_app. cbn [List.filter].
    rewrite bool_decide_eq_true_2 by exact Hp.
    rewrite List.filter_app. cbn [List.filter].
    rewrite bool_decide_eq_true_2 by (rewrite <- Hpq; exact Hp).
    rewrite List.map_app. cbn [List.map]. rewrite List.map_app. reflexivity. }
  split; [exact E|].
  rewrite E, !List.map_app. cbn [List.map]. rewrite !List.map_app. cbn [List.map].
  change (col_name (ExcelManager.new_row (now env) p)) with (name p).
  change (col_name (ExcelManager.new_row (now env) q)) with (name q).
  rewrite <- Hpq. apply not_NoDup_twice.
Qed.

(** An empty catalog and a feed that lists [a] twice. *)
Lemma save_keeps_duplicates_witness :
  excel_writable example_env = true
  /\ catalog_rows (excel (world (snd (ExcelManager.save_products_to_excel example_env
        [product_named (py "a") (py "http://h/a.png");
         product_named (py "a") (py "http://h/a2.png")]
        (py "malatang_products.xlsx") (start empty_world)))))
     = [ExcelManager.new_row (py "2024-05-01 12:00:00")
          (product_named (py "a") (py "http://h/a.png"));
        ExcelManager.new_row (py "2024-05-01 12:00:00")
          (product_named (py "a") (py "http://h/a2.png"))].
Proof.
  split; [reflexivity|].
  refine (proj1 (save_keeps_duplicates_within_feed example_env
    (py "malatang_products.xlsx") (start empty_world) [] [] []
    (product_named (py "a") (py "http://h/a.png"))
    (product_named (py "a") (py "http://h/a2.png")) eq_refl eq_refl _)).
  cbn. apply not_elem_of_nil.
Defined.

(** ** A run whose feed does not parse *)

(** C8: when the feed file is missing, malformed or unreadable,
    [parse_json_file] returns nothing, and [process_file] ends there: the
    world (catalog, files and directories) is as it was, no request was
    made, and the run logged its start and one error line only. *)
Theorem parse_failure_aborts_run (lib : Lib) (cfg : Config) (env : Env) (st : State) :
  decoded (feed (world st)) = false ->
  fst (DataExtractor.parse_json_file (INPUT_FILE cfg) st) = None
  /\ let st' := snd (MalatangProcessor.process_file lib cfg env st) in
     world st' = world st
     /\ calls st' = calls st
     /\ exists m, trace st' = trace st ++ [Log INFO MsgStart; Log ERROR m].
Proof.
  intros H.
  unfold MalatangProcessor.process_file, DataExtractor.parse_json_file,
    bind, get_world, logger, emit, ret. cbn.
  destruct (feed (world st)); try discriminate; cbn;
    (split; [reflexivity|]); (split; [reflexivity|]); (split; [reflexivity|]);
    eexists; rewrite <- app_assoc; reflexivity.
Qed.

(** A malformed feed beside a catalog that holds one row. *)
Lemma parse_failure_witness :
  world (snd (MalatangProcessor.process_file example_lib shipped_config example_env
                (start {| feed := FeedMalformed; excel := excel world_with_a;
                          files := ∅; dirs := ∅ |})))
  = {| feed := FeedMalformed; excel := excel world_with_a; files := ∅; dirs := ∅ |}.
Proof.
  exact (proj1 (proj2 (parse_failure_aborts_run example_lib shipped_config example_env
    (start {| feed := FeedMalformed; excel := excel world_with_a;
              files := ∅; dirs := ∅ |}) eq_refl))).
Defined.

(** ** The file watcher *)

Lemma on_modified_accepts (cfg : Config) (P : M unit) (t : Q)
    (e : FileMonitorHandler.FileSystemEvent) (h : FileMonitorHandler.t) (st : State) :
  watched cfg e = true ->
  (2 <= t - FileMonitorHandler.last_modified h)%Q ->
  FileMonitorHandler.on_modified cfg P t e h st = accepted P t st.
Proof.
  unfold watched, FileMonitorHandler.on_modified. intros Hw Ht.
  apply andb_prop in Hw as [Hd He]. apply negb_true_iff in Hd.
  rewrite Hd, He.
  destruct (Qlt_le_dec _ _) as [Hlt|_]; [lra | reflexivity].
Qed.

Lemma on_modified_discards (cfg : Config) (P : M unit) (t : Q)
    (e : FileMonitorHandler.FileSystemEvent) (h : FileMonitorHandler.t) (st : State) :
  (t - FileMonitorHandler.last_modified h < 2)%Q ->
  FileMonitorHandler.on_modified cfg P t e h st = (h, st).
Proof.
  unfold FileMonitorHandler.on_modified. intros Ht.
  destruct (FileMonitorHandler.is_directory e); [reflexivity|].
  destruct (endswith _ _); [|reflexivity].
  destruct (Qlt_le_dec _ _) as [_|Hle]; [reflexivity | lra].
Qed.

(** C9: the handler reads the clock at [t1] for a first notification of
    the watched file, which it accepts, and at [t2], less than 2 seconds
    later, for a second one. The two calls together do what the first
    alone does: one log line, one settle sleep, one call of [P1]; the
    second is dropped and [P2] never runs. A notification read at least 2
    seconds after the last accepted one is accepted in its turn. *)
Theorem debounce_discards_second (cfg : Config) (P1 P2 P3 : M unit) (t1 t2 t3 : Q)
    (e1 e2 e3 : FileMonitorHandler.FileSystemEvent)
    (h : FileMonitorHandler.t) (st : State) :
  watched cfg e1 = true -> watched cfg e2 = true -> watched cfg e3 = true ->
  (2 <= t1 - FileMonitorHandler.last_modified h)%Q ->
  (t2 - t1 < 2)%Q ->
  (2 <= t3 - t1)%Q ->
  (do h1 <- FileMonitorHandler.on_modified cfg P1 t1 e1 h;
   FileMonitorHandler.on_modified cfg P2 t2 e2 h1) st
  = accepted P1 t1 st
  /\ (do h1 <- FileMonitorHandler.on_modified cfg P1 t1 e1 h;
      do h2 <- FileMonitorHandler.on_modified cfg P2 t2 e2 h1;
      FileMonitorHandler.on_modified cfg P3 t3 e3 h2) st
     = (accepted P1 t1 ;; accepted P3 t3) st.
Proof.
  intros W1 W2 W3 A1 D2 A3.
  assert (E1 : forall s, FileMonitorHandler.on_modified cfg P1 t1 e1 h s = accepted P1 t1 s)
    by (intros s; now apply on_modified_accepts).
  assert (R : forall s, accepted P1 t1 s
            = (({| FileMonitorHandler.last_modified := t1 |},
                snd (accepted P1 t1 s)))).
  { intros s. unfold accepted, bind, ret, logger, sleep, emit. cbn.
    destruct (P1 _). reflexivity. }
  split.
  - unfold bind at 1. rewrite E1, R.
    rewrite on_modified_discards by (cbn; exact D2). reflexivity.
  - unfold bind. rewrite E1, (R st).
    rewrite on_modified_discards by (cbn; exact D2).
    rewrite on_modified_accepts by (assumption || (cbn; exact A3)).
    reflexivity.
Qed.

(** A fresh handler, the clock read at 1000, 1001 and 1002 seconds. *)
Lemma debounce_witness :
  watched shipped_config input_changed = true
  /\ (2 <= 1000 - FileMonitorHandler.last_modified FileMonitorHandler.init)%Q
  /\ (1001 - 1000 < 2)%Q
  /\ (2 <= 1002 - 1000)%Q
  /\ (do h1 <- FileMonitorHandler.on_modified shipped_config
                 (MalatangProcessor.process_file example_lib shipped_config example_env)
                 1000 input_changed FileMonitorHandler.init;
      FileMonitorHandler.on_modified shipped_config
        (MalatangProcessor.process_file example_lib shipped_config offline_env)
        1001 input_changed h1) (start empty_world)
     = accepted (MalatangProcessor.process_file example_lib shipped_config example_env)
         1000 (start empty_world).
Proof.
  assert (W : watched shipped_config input_changed = true) by (vm_compute; reflexivity).
  assert (A1 : (2 <= 1000 - FileMonitorHandler.last_modified FileMonitorHandler.init)%Q)
    by (unfold Qle; cbn; lia).
  assert (D2 : (1001 - 1000 < 2)%Q) by (unfold Qlt; cbn; lia).
  assert (A3 : (2 <= 1002 - 1000)%Q) by (unfold Qle; cbn; lia).
  split; [exact W|]. split; [exact A1|]. split; [exact D2|]. split; [exact A3|].
  exact (proj1 (debounce_discards_second shipped_config
    (MalatangProcessor.process_file example_lib shipped_config example_env)
    (MalatangProcessor.process_file example_lib shipped_config offline_env)
    (MalatangProcessor.process_file example_lib shipped_config example_env)
    1000 1001 1002 input_changed input_changed input_changed
    FileMonitorHandler.init (start empty_world) W W W A1 D2 A3)).
Defined.

(** ** The image downloader *)

Lemma temp_path_ne (path : pystr) : path ++ py ".temp" <> path.
Proof.
  intros E. apply (f_equal length) in E. rewrite length_app in E. change (length (py ".temp")) with 5%nat in E. lia.
Qed.

Ltac run_m :=
  unfold bind, ret, logger, sleep, emit, get_world, exists_file,
    write_file, remove_file, read_file, getsize, mkdir in *; cbn in *.

Ltac fs_solve :=
  repeat first
    [ rewrite lookup_delete_eq
    | rewrite lookup_insert_eq
    | rewrite lookup_delete_ne by congruence
    | rewrite lookup_insert_ne by congruence ];
  try (reflexivity || assumption || congruence).

Ltac fs_in H :=
  repeat first
    [ rewrite lookup_delete_eq in H
    | rewrite lookup_insert_eq in H
    | rewrite lookup_delete_ne in H by congruence
    | rewrite lookup_insert_ne in H by congruence ].

Lemma convert_to_jpg_spec (lib : Lib) (cfg : Config) (env : Env)
    (data : bytes) (path : pystr) (st : State) :
  let temp := path ++ py ".temp" in
  let r := ImageDownloader._download_and_convert_to_jpg lib cfg env data path st in
  files (world (snd r)) !! temp = None
  /\ (forall q, q <> path -> q <> temp ->
        files (world (snd r)) !! q = files (world st) !! q)
  /\ feed (world (snd r)) = feed (world st)
  /\ excel (world (snd r)) = excel (world st)
  /\ dirs (world (snd r)) = dirs (world st)
  /\ calls (snd r) = calls st
  /\ match (if can_write env temp then pil_to_jpeg lib (JPG_QUALITY cfg) data else None),
           can_write env path with
     | Some jpeg, true => fst r = true /\ files (world (snd r)) !! path = Some jpeg
     | None, true => fst r = true /\ files (world (snd r)) !! path = Some data
     | _, false => fst r = false /\ files (world (snd r)) !! path = files (world st) !! path
     end.
Proof.
  cbv zeta. pose proof (temp_path_ne path) as Hne.
  unfold ImageDownloader._download_and_convert_to_jpg.
  run_m.
  destruct (can_write env (path ++ py ".temp")) eqn:Wt; cbn;
    rewrite ?lookup_insert_eq; cbn;
    [destruct (pil_to_jpeg lib (JPG_QUALITY cfg) data) as [jpeg|] eqn:P; cbn|];
    destruct (can_write env path) eqn:Wp; cbn;
    match goal with
    | |- context [bool_decide (is_Some ?o)] =>
        destruct (bool_decide (is_Some o)) eqn:B; cbn;
        [|apply bool_decide_eq_false, eq_None_not_Some in B;
          fs_in B; try discriminate B]
    end;
    repeat split; intros; fs_solve.
Qed.

Lemma attempt_once_failure (lib : Lib) (cfg : Config) (env : Env) (url : json)
    (path : pystr) (attempt : nat) (st : State) (d : pystr) (e : RequestError) :
  urlparse_netloc lib url = Some d ->
  failure (session_get env url (calls st)) = Some e ->
  ImageDownloader.attempt_once lib cfg env url path attempt st
  = (ImageDownloader.NextAttempt,
     after_failure cfg url (bool_decide (d = py "img.meituan.net")) e attempt st).
Proof.
  intros Hd Hf. unfold ImageDownloader.attempt_once. rewrite Hd.
  unfold bind at 1. unfold ImageDownloader.get.
  unfold after_failure, failure_trace.
  destruct (session_get env url (calls st)) as [e'|[|] content]; cbn in Hf;
    try discriminate; injection Hf as <-;
    unfold ImageDownloader.on_error;
    destruct (attempt <? MAX_RETRIES cfg - 1)%nat;
    run_m; rewrite <- ?app_assoc; reflexivity.
Qed.

Lemma on_error_eq (cfg : Config) (e : RequestError) (attempt : nat) (url : json)
    (st : State) :
  ImageDownloader.on_error cfg e attempt url st
  = (ImageDownloader.NextAttempt,
     add_trace st
       (Log WARNING (MsgAttemptFailed (ImageDownloader.classify e) (attempt + 1)
                       (MAX_RETRIES cfg) url)
        :: (if (attempt <? MAX_RETRIES cfg - 1)%nat
            then [Sleep (ImageDownloader.delay (ImageDownloader.classify e))]
            else []))).
Proof.
  unfold ImageDownloader.on_error, add_trace.
  destruct (attempt <? MAX_RETRIES cfg - 1)%nat; run_m;
    rewrite <- ?app_assoc; reflexivity.
Qed.

(** What one attempt can do to the world. *)
Lemma attempt_once_spec (lib : Lib) (cfg : Config) (env : Env) (url : json)
    (path : pystr) (attempt : nat) (st st' : State) (step : ImageDownloader.Step) :
  ImageDownloader.attempt_once lib cfg env url path attempt st = (step, st') ->
  (calls st <= calls st' <= S (calls st))%nat
  /\ feed (world st') = feed (world st)
  /\ excel (world st') = excel (world st)
  /\ dirs (world st') = dirs (world st)
  /\ (forall q, q <> path ->
        (CONVERT_TO_JPG cfg = true -> q <> path ++ py ".temp") ->
        files (world st') !! q = files (world st) !! q)
  /\ (step = ImageDownloader.Return true -> is_Some (files (world st') !! path))
  /\ (step = ImageDownloader.NextAttempt -> files (world st') = files (world st)).
Proof.
  unfold ImageDownloader.attempt_once.
  destruct (urlparse_netloc lib url) as [d|].
  2: { rewrite on_error_eq. intros [= <- <-]. cbn.
       repeat split; intros; (lia || discriminate || auto). }
  unfold bind at 1. unfold ImageDownloader.get.
  destruct (session_get env url (calls st)) as [e|[|] content].
  1,2: rewrite on_error_eq; intros [= <- <-]; cbn;
       repeat split; intros; (lia || discriminate || auto).
  destruct (CONVERT_TO_JPG cfg) eqn:Hc.
  - unfold bind, ret.
    match goal with
    | |- context [ImageDownloader._download_and_convert_to_jpg _ _ _ _ _ ?s] =>
        pose proof (convert_to_jpg_spec lib cfg env content path s) as H;
        cbv zeta in H;
        destruct (ImageDownloader._download_and_convert_to_jpg lib cfg env content path s)
          as [b s'] eqn:E
    end.
    intros [= <- <-].
    cbn in H. destruct H as (Ht & Hq & Hf & He & Hd & Hcalls & Hcase).
    rewrite Hcalls.
    repeat split; intros; try (lia || discriminate || auto).
    injection H as ->.
    destruct (if can_write env _ then _ else _), (can_write env path);
      destruct Hcase as [? Hp]; try discriminate; rewrite Hp; eauto.
  - unfold bind at 1. unfold write_file.
    destruct (can_write env path) eqn:Wp.
    + unfold bind at 1. unfold getsize. cbn. rewrite lookup_insert_eq. cbn.
      destruct (length content <? 1024)%nat; run_m; intros [= <- <-]; cbn;
        repeat split; intros; fs_solve; try (lia || discriminate || eauto).
    + rewrite on_error_eq. intros [= <- <-]. cbn.
      repeat split; intros; (lia || discriminate || auto).
Qed.

(** What the retry loop can do to the world. *)
Lemma attempts_spec (lib : Lib) (cfg : Config) (env : Env) (url : json)
    (path : pystr) (range : list nat) (st st' : State) (b : bool) :
  ImageDownloader.attempts lib cfg env url path range st = (b, st') ->
  (calls st <= calls st' <= calls st + length range)%nat
  /\ feed (world st') = feed (world st)
  /\ excel (world st') = excel (world st)
  /\ dirs (world st') = dirs (world st)
  /\ (forall q, q <> path ->
        (CONVERT_TO_JPG cfg = true -> q <> path ++ py ".temp") ->
        files (world st') !! q = files (world st) !! q)
  /\ (b = true -> is_Some (files (world st') !! path)).
Proof.
  revert st. induction range as [|attempt rest IH]; intros st.
  - cbn. unfold ret. intros [= <- <-]. cbn.
    repeat split; intros; (lia || discriminate || auto).
  - cbn [ImageDownloader.attempts]. unfold bind at 1.
    destruct (ImageDownloader.attempt_once lib cfg env url path attempt st)
      as [step s1] eqn:E1.
    apply attempt_once_spec in E1
      as (Hcalls & Hfeed & Hexcel & Hdirs & Hframe & Hok & _).
    destruct step as [b1|].
    + unfold ret. intros [= <- <-]. cbn [length].
      repeat split; intros; try (lia || auto). subst b1. auto.
    + intros E2. apply IH in E2
        as (Hcalls2 & Hfeed2 & Hexcel2 & Hdirs2 & Hframe2 & Hok2).
      cbn [length].
      repeat split; intros; try (lia || congruence || auto).
      rewrite Hframe2, Hframe; auto.
Qed.

Lemma download_single_image_spec (lib : Lib) (cfg : Config) (env : Env) (url : json)
    (path : pystr) (st st' : State) (b : bool) :
  ImageDownloader._download_single_image lib cfg env url path st = (b, st') ->
  (calls st <= calls st' <= calls st + MAX_RETRIES cfg)%nat
  /\ feed (world st') = feed (world st)
  /\ excel (world st') = excel (world st)
  /\ dirs (world st') = dirs (world st)
  /\ (forall q, q <> path ->
        (CONVERT_TO_JPG cfg = true -> q <> path ++ py ".temp") ->
        files (world st') !! q = files (world st) !! q)
  /\ (b = true -> is_Some (files (world st') !! path)).
Proof.
  unfold ImageDownloader._download_single_image. intros E.
  apply attempts_spec in E. now rewrite length_seq in E.
Qed.



Lemma attempts_small_body_eq (lib : Lib) (cfg : Config) (env : Env) (url : json)
    (path : pystr) (attempt : nat) (rest : list nat) (st : State)
    (d : pystr) (content : bytes) :
  CONVERT_TO_JPG cfg = false ->
  urlparse_netloc lib url = Some d ->
  session_get env url (calls st) = Responds false content ->
  (length content < 1024)%nat ->
  can_write env path = true ->
  ImageDownloader.attempts lib cfg env url path (attempt :: rest) st
  = (false,
     {| world := {| feed := feed (world st); excel := excel (world st);
                    files := delete path (<[path := content]> (files (world st)));
                    dirs := dirs (world st) |};
        calls := S (calls st);
        trace := trace st
          ++ [Get url (bool_decide (d = py "img.meituan.net")) (REQUEST_TIMEOUT cfg);
              Log WARNING (MsgTooSmall (length content) path)] |}).
Proof.
  intros Hc Hd Hg Hlen Hw.
  cbn [ImageDownloader.attempts]. unfold bind at 1.
  unfold ImageDownloader.attempt_once. rewrite Hd.
  unfold bind at 1. unfold ImageDownloader.get. rewrite Hg, Hc.
  unfold bind at 1. unfold write_file. rewrite Hw.
  unfold bind at 1. unfold getsize. cbn. rewrite lookup_insert_eq. cbn.
  apply Nat.ltb_lt in Hlen. rewrite Hlen. run_m.
  rewrite <- app_assoc. reflexivity.
Qed.

(** C5, as the code has it: with conversion off, a response body of fewer
    than 1024 bytes is written to the target path, measured, and removed
    again; the call then returns [False] at once, whatever attempts were
    left: one request is made and none follows. *)
Theorem small_body_fails_at_once (lib : Lib) (cfg : Config) (env : Env) (url : json)
    (path : pystr) (attempt : nat) (rest : list nat) (st : State)
    (d : pystr) (content : bytes) :
  CONVERT_TO_JPG cfg = false ->
  urlparse_netloc lib url = Some d ->
  session_get env url (calls st) = Responds false content ->
  (length content < 1024)%nat ->
  can_write env path = true ->
  let r := ImageDownloader.attempts lib cfg env url path (attempt :: rest) st in
  fst r = false
  /\ calls (snd r) = S (calls st)
  /\ files (world (snd r)) = delete path (<[path := content]> (files (world st)))
  /\ files (world (snd r)) !! path = None
  /\ trace (snd r)
     = trace st ++ [Get url (bool_decide (d = py "img.meituan.net")) (REQUEST_TIMEOUT cfg);
                    Log WARNING (MsgTooSmall (length content) path)].
Proof.
  intros Hc Hd Hg Hlen Hw. cbv zeta.
  rewrite (attempts_small_body_eq lib cfg env url path attempt rest st d content)
    by assumption.
  cbn. repeat split. apply lookup_delete_eq.
Qed.

(** The first answer has two bytes, conversion is off. *)
Lemma small_body_witness :
  let r := ImageDownloader._download_single_image example_lib keep_format_config
             small_then_large_env (JStr (py "http://h/a.png")) (py "images/a.png")
             (start empty_world) in
  fst r = false /\ calls (snd r) = 1%nat
  /\ files (world (snd r)) !! py "images/a.png" = None.
Proof.
  pose proof (small_body_fails_at_once example_lib keep_format_config
    small_then_large_env (JStr (py "http://h/a.png")) (py "images/a.png")
    0%nat [1%nat; 2%nat] (start empty_world) (py "img.meituan.net") [x00; x01]
    eq_refl eq_refl eq_refl) as H.
  cbv zeta in H. specialize (H ltac:(cbn; lia) eq_refl).
  destruct H as (H1 & H2 & _ & H4 & _).
  cbv zeta. exact (conj H1 (conj H2 H4)).
Defined.

(** C5 as stated fails: the claim has the small body use up one attempt
    and the remaining attempts still made. Here the first body has two
    bytes and the world would answer a second request with 2048 bytes;
    of the three attempts allowed only one is made, and the call fails. *)
Lemma small_body_counterexample :
  let r := ImageDownloader._download_single_image example_lib keep_format_config
             small_then_large_env (JStr (py "http://h/a.png")) (py "images/a.png")
             (start empty_world) in
  MAX_RETRIES keep_format_config = 3%nat
  /\ session_get small_then_large_env (JStr (py "http://h/a.png")) 1
     = Responds false (repeat x00 2048)
  /\ fst r = false
  /\ calls (snd r) = 1%nat
  /\ ~ (1 < calls (snd r))%nat.
Proof.
  vm_compute. repeat split. lia.
Qed.

(** C7, as the code has it: whatever happens, no file is left at the
    temporary path [file_path + '.temp'], and no path other than the
    target and the temporary one is touched. The JPEG is written straight
    to the target path when the raw bytes could be stored and decoded;
    when that fails the raw bytes themselves are written to the target
    path and the call still returns [True]; when the target cannot be
    written the call returns [False] and the target is as before. No
    rename takes place. *)
Theorem convert_cleans_temp_and_falls_back_to_raw (lib : Lib) (cfg : Config) (env : Env)
    (data : bytes) (path : pystr) (st : State) :
  let temp := path ++ py ".temp" in
  let r := ImageDownloader._download_and_convert_to_jpg lib cfg env data path st in
  files (world (snd r)) !! temp = None
  /\ (forall q, q <> path -> q <> temp ->
        files (world (snd r)) !! q = files (world st) !! q)
  /\ match (if can_write env temp then pil_to_jpeg lib (JPG_QUALITY cfg) data else None),
           can_write env path with
     | Some jpeg, true => fst r = true /\ files (world (snd r)) !! path = Some jpeg
     | None, true => fst r = true /\ files (world (snd r)) !! path = Some data
     | _, false => fst r = false /\ files (world (snd r)) !! path = files (world st) !! path
     end.
Proof.
  pose proof (convert_to_jpg_spec lib cfg env data path st) as H.
  cbv zeta in H |- *. tauto.
Qed.

(** A decodable body: the target holds the JPEG and the temporary file is gone. *)
Lemma convert_cleans_temp_witness :
  let r := ImageDownloader._download_and_convert_to_jpg example_lib shipped_config
             example_env [x00; x01] (py "images/a.jpg") (start empty_world) in
  files (world (snd r)) !! (py "images/a.jpg" ++ py ".temp") = None
  /\ files (world (snd r)) !! py "images/b.jpg" = None.
Proof.
  pose proof (convert_cleans_temp_and_falls_back_to_raw example_lib shipped_config
    example_env [x00; x01] (py "images/a.jpg") (start empty_world)) as H.
  cbv zeta in H. destruct H as (H1 & H2 & _).
  cbv zeta. split; [exact H1|].
  rewrite H2; [reflexivity | vm_compute; discriminate | vm_compute; discriminate].
Defined.

(** C7 as stated fails: the claim has raw fetched bytes never left on
    disk. Here the body does not decode; after the call the target path
    holds the two raw bytes, and the call reports success. *)
Lemma raw_bytes_left_counterexample :
  let r := ImageDownloader._download_and_convert_to_jpg undecodable_lib shipped_config
             example_env [x00; x01] (py "images/a.jpg") (start empty_world) in
  pil_to_jpeg undecodable_lib (JPG_QUALITY shipped_config) [x00; x01] = None
  /\ fst r = true
  /\ files (world (snd r)) !! py "images/a.jpg" = Some [x00; x01].
Proof.
  vm_compute. repeat split.
Qed.

(** ** Two runs on one feed *)

Lemma add_trace_nil (st : State) : add_trace st [] = st.
Proof. destruct st. unfold add_trace. cbn. now rewrite app_nil_r. Qed.

Lemma add_trace_app (st : State) (l l' : list Event) :
  add_trace (add_trace st l) l' = add_trace st (l ++ l').
Proof. unfold add_trace. cbn. now rewrite app_assoc. Qed.

Lemma logger_eq (lvl : Level) (m : Message) (st : State) :
  logger lvl m st = (tt, add_trace st [Log lvl m]).
Proof. reflexivity. Qed.

Lemma extract_single_product_eq (cfg : Config) (lib : Lib) (item : json) :
  exists l, forall st,
    DataExtractor._extract_single_product cfg lib item st
    = (extract_item cfg lib item, add_trace st l).
Proof.
  unfold DataExtractor._extract_single_product, extract_item.
  destruct (DataExtractor.single_product_body cfg lib item) as [[p|]|].
  - exists []. intros st. unfold ret. now rewrite add_trace_nil.
  - exists []. intros st. unfold ret. now rewrite add_trace_nil.
  - exists [Log WARNING MsgSingleFailed]. intros st. reflexivity.
Qed.

Lemma extract_loop_eq (cfg : Config) (lib : Lib) (items : list json) :
  forall acc, exists l, forall st,
    DataExtractor.extract_loop cfg lib items acc st
    = (acc ++ omap (extract_item cfg lib) items, add_trace st l).
Proof.
  induction items as [|item rest IH]; intros acc.
  - exists []. intros st. cbn. unfold ret. now rewrite add_trace_nil, app_nil_r.
  - destruct (extract_single_product_eq cfg lib item) as [l1 H1].
    cbn [DataExtractor.extract_loop omap list_omap].
    destruct (extract_item cfg lib item) as [p|] eqn:E.
    + destruct (IH (acc ++ [p])) as [l2 H2]. exists (l1 ++ l2). intros st.
      unfold bind. rewrite H1, H2, add_trace_app, <- app_assoc. reflexivity.
    + destruct (IH acc) as [l2 H2]. exists (l1 ++ l2). intros st.
      unfold bind. rewrite H1, H2, add_trace_app. reflexivity.
Qed.

Lemma extract_products_eq (cfg : Config) (lib : Lib) (data : json) :
  exists l, forall st,
    DataExtractor.extract_products cfg lib data st
    = (extracted_products cfg lib data, add_trace st l).
Proof.
  unfold DataExtractor.extract_products, extracted_products.
  destruct (_ ≫= _) as [items|].
  - destruct (extract_loop_eq cfg lib items []) as [l H].
    eexists. intros st. unfold bind. rewrite !logger_eq, H, !logger_eq.
    unfold ret. rewrite !add_trace_app. cbn [app]. reflexivity.
  - eexists. intros st. unfold bind. rewrite !logger_eq. unfold ret.
    rewrite !logger_eq, !add_trace_app. reflexivity.
Qed.

Lemma bind_run {A B} (m : M A) (k : A -> M B) (st st1 : State) (a : A) :
  m st = (a, st1) -> bind m k st = k a st1.
Proof. unfold bind. now intros ->. Qed.

Lemma parse_json_file_eq (path : pystr) (st : State) :
  exists m,
    DataExtractor.parse_json_file path st
    = (match feed (world st) with FeedJson data => Some data | _ => None end,
       add_trace st [m]).
Proof.
  unfold DataExtractor.parse_json_file.
  erewrite bind_run by reflexivity.
  destruct (feed (world st)); eexists; (erewrite bind_run by apply logger_eq); reflexivity.
Qed.

(** A run is its extraction, which only logs, followed by the two stages
    that write. *)
Lemma process_file_eq (lib : Lib) (cfg : Config) (env : Env) (st : State) :
  exists l,
    MalatangProcessor.process_file lib cfg env st
    = match products_of_feed cfg lib (feed (world st)) with
      | [] => (tt, add_trace st l)
      | _ :: _ =>
          persist_and_fetch lib cfg env (products_of_feed cfg lib (feed (world st)))
            (add_trace st l)
      end.
Proof.
  unfold MalatangProcessor.process_file, products_of_feed.
  destruct (parse_json_file_eq (INPUT_FILE cfg) (add_trace st [Log INFO MsgStart]))
    as [m Hp].
  erewrite bind_run by apply logger_eq.
  erewrite bind_run by exact Hp.
  change (world (add_trace st [Log INFO MsgStart])) with (world st).
  destruct (feed (world st)) as [| | |data];
    try (eexists; unfold ret; rewrite add_trace_app; reflexivity).
  destruct (truthy data) eqn:T; cbn [negb];
    [|eexists; unfold ret; rewrite add_trace_app; reflexivity].
  destruct (extract_products_eq cfg lib data) as [l H].
  erewrite bind_run by apply H.
  destruct (extracted_products cfg lib data) as [|p ps] eqn:E.
  - eexists. rewrite logger_eq, !add_trace_app. reflexivity.
  - eexists. rewrite !add_trace_app. reflexivity.
Qed.

Lemma wanted_test (p : Product) :
  negb (truthy (image_url p)) || bool_decide (image_filename p = []) = negb (wanted p).
Proof.
  unfold wanted. destruct (truthy _), (bool_decide _); reflexivity.
Qed.

(** With every wanted image on disk the loop only counts. *)
Lemma download_loop_all_present (lib : Lib) (cfg : Config) (env : Env)
    (products : list Product) :
  forall (st : State) (d s f : nat),
    (forall p, p ∈ products -> wanted p = true ->
       is_Some (files (world st) !! target cfg p)) ->
    ImageDownloader.download_loop lib cfg env products (IMAGES_DIR cfg) d s f st
    = ((d, (s + length (List.filter wanted products))%nat, f), st).
Proof.
  induction products as [|p ps IH]; intros st d s f Hall.
  - cbn. unfold ret. now rewrite Nat.add_0_r.
  - cbn [ImageDownloader.download_loop List.filter]. rewrite wanted_test.
    destruct (wanted p) eqn:W; cbn [negb].
    + erewrite bind_run by reflexivity.
      fold (target cfg p).
      rewrite bool_decide_eq_true_2 by (apply Hall; [left|exact W]).
      rewrite IH by (intros q Hq; apply Hall; now right).
      cbn [length]. do 3 f_equal. lia.
    + apply IH. intros q Hq. apply Hall. now right.
Qed.

(** The first pass: files only appear, and a pass without a failure leaves
    every wanted image on disk. *)
Lemma download_loop_spec (lib : Lib) (cfg : Config) (env : Env)
    (products : list Product) :
  forall (st st' : State) (d s f d' s' f' : nat),
    ImageDownloader.download_loop lib cfg env products (IMAGES_DIR cfg) d s f st
      = ((d', s', f'), st') ->
    (CONVERT_TO_JPG cfg = true ->
       forall p q, p ∈ products -> q ∈ products -> wanted p = true -> wanted q = true ->
         target cfg q <> target cfg p ++ py ".temp") ->
    (f <= f')%nat
    /\ feed (world st') = feed (world st)
    /\ excel (world st') = excel (world st)
    /\ dirs (world st') = dirs (world st)
    /\ (forall x, is_Some (files (world st) !! x) ->
          (CONVERT_TO_JPG cfg = true ->
             forall p, p ∈ products -> wanted p = true -> x <> target cfg p ++ py ".temp") ->
          is_Some (files (world st') !! x))
    /\ (f' = f -> forall p, p ∈ products -> wanted p = true ->
          is_Some (files (world st') !! target cfg p)).
Proof.
  induction products as [|p ps IH]; intros st st' d s f d' s' f' E Hclash.
  - cbn in E. unfold ret in E. injection E as <- <- <- <-.
    repeat split; auto. intros _ q Hq. inversion Hq.
  - cbn [ImageDownloader.download_loop] in E. rewrite wanted_test in E.
    assert (Hclash' : CONVERT_TO_JPG cfg = true ->
       forall a b, a ∈ ps -> b ∈ ps -> wanted a = true -> wanted b = true ->
         target cfg b <> target cfg a ++ py ".temp").
    { intros Hc a b Ha Hb. apply Hclash; [exact Hc | now right | now right]. }
    destruct (wanted p) eqn:W; cbn [negb] in E.
    + erewrite bind_run in E by reflexivity. fold (target cfg p) in E.
      destruct (bool_decide (is_Some (files (world st) !! target cfg p))) eqn:B.
      * apply bool_decide_eq_true in B.
        apply IH in E as (Hf & Hfeed & Hexcel & Hdirs & Hmono & Hall); [|exact Hclash'].
        repeat split; auto.
        -- intros x Hx Hx'. apply Hmono; [exact Hx|].
           intros Hc q Hq. apply Hx'; [exact Hc | now right].
        -- intros -> q Hq Wq. apply elem_of_cons in Hq as [->|Hq]; [|now apply Hall].
           apply Hmono; [exact B|].
           intros Hc a Ha Wa. apply Hclash; [exact Hc | now right | now left | exact Wa | exact Wq].
      * apply bool_decide_eq_false in B.
        destruct (ImageDownloader._download_single_image lib cfg env (image_url p)
                    (target cfg p) st) as [ok s1] eqn:D.
        erewrite bind_run in E by exact D.
        apply download_single_image_spec in D
          as (_ & Hfeed1 & Hexcel1 & Hdirs1 & Hframe1 & Hok1).
        assert (Hkeep : forall x, is_Some (files (world st) !! x) ->
                  (CONVERT_TO_JPG cfg = true ->
                     forall a, a ∈ p :: ps -> wanted a = true ->
                       x <> target cfg a ++ py ".temp") ->
                  is_Some (files (world s1) !! x)).
        { intros x Hx Hx'. rewrite Hframe1; [exact Hx| |].
          - intros ->. contradiction.
          - intros Hc. apply Hx'; [exact Hc | now left | exact W]. }
        destruct ok.
        -- apply IH in E as (Hf & Hfeed & Hexcel & Hdirs & Hmono & Hall); [|exact Hclash'].
           repeat split; try congruence; auto.
           ++ intros x Hx Hx'. apply Hmono; [now apply Hkeep|].
              intros Hc q Hq. apply Hx'; [exact Hc | now right].
           ++ intros -> q Hq Wq. apply elem_of_cons in Hq as [->|Hq]; [|now apply Hall].
              apply Hmono; [now apply Hok1|].
              intros Hc a Ha Wa.
              apply Hclash; [exact Hc | now right | now left | exact Wa | exact Wq].
        -- apply IH in E as (Hf & Hfeed & Hexcel & Hdirs & Hmono & Hall); [|exact Hclash'].
           repeat split; try congruence; try lia; auto.
           intros x Hx Hx'. apply Hmono; [now apply Hkeep|].
           intros Hc q Hq. apply Hx'; [exact Hc | now right].
    + apply IH in E as (Hf & Hfeed & Hexcel & Hdirs & Hmono & Hall); [|exact Hclash'].
      repeat split; auto.
      * intros x Hx Hx'. apply Hmono; [exact Hx|].
        intros Hc q Hq. apply Hx'; [exact Hc | now right].
      * intros Hff q Hq Wq. apply elem_of_cons in Hq as [->|Hq]; [congruence|now apply Hall].
Qed.

Lemma clean_filename_shape (cfg : Config) (lib : Lib) (s : pystr) (u : json) (f : pystr) :
  DataExtractor._clean_filename cfg lib s u = Some f ->
  f <> [] /\ (CONVERT_TO_JPG cfg = true -> exists x, f = x ++ py ".jpg").
Proof.
  unfold DataExtractor._clean_filename.
  destruct (CONVERT_TO_JPG cfg).
  - intros [= <-]. split; [|eauto].
    intros E. apply (f_equal length) in E. rewrite length_app in E.
    change (length (py ".jpg")) with 4%nat in E. cbn in E. lia.
  - destruct (url_splitext lib u) as [ext|]; cbn; [|discriminate].
    intros [= <-]. split; [|discriminate].
    intros E. apply app_eq_nil in E as [_ E].
    destruct (bool_decide (ext = [])) eqn:B; [discriminate|].
    apply bool_decide_eq_false in B. contradiction.
Qed.

Lemma extract_image_info_shape (cfg : Config) (lib : Lib) (item u : json) (f : pystr) :
  DataExtractor._extract_image_info cfg lib item = Some (u, f) ->
  truthy u = true ->
  exists s, DataExtractor._clean_filename cfg lib s u = Some f.
Proof.
  unfold DataExtractor._extract_image_info. intros E T.
  destruct (dict_get item (py "wmProductPicVos") (JArr [])) as [pic_vos|]; cbn in E;
    [|discriminate].
  destruct (truthy pic_vos); cbn in E; [|injection E as <- <-; discriminate].
  destruct (index0 pic_vos) as [first|]; cbn in E; [|discriminate].
  destruct (dict_get first (py "picLargeUrl") JNull) as [large|]; cbn in E; [|discriminate].
  destruct (if truthy large then Some large else dict_get first (py "picUrl") (JStr []))
    as [pic_url|]; cbn in E; [|discriminate].
  destruct (truthy pic_url); [|injection E as <- <-; discriminate].
  destruct (dict_get item (py "name") (JStr (py "unknown"))) as [nm|]; cbn in E;
    [|discriminate].
  destruct nm as [| | |s| |]; cbn in E; try discriminate.
  destruct (DataExtractor._clean_filename cfg lib s pic_url) as [fn|] eqn:C; cbn in E;
    [|discriminate].
  injection E as <- <-. eauto.
Qed.

Lemma extract_item_shape (cfg : Config) (lib : Lib) (item : json) (p : Product) :
  extract_item cfg lib item = Some p ->
  truthy (image_url p) = true ->
  exists s, DataExtractor._clean_filename cfg lib s (image_url p) = Some (image_filename p).
Proof.
  unfold extract_item, DataExtractor.single_product_body. intros E T.
  destruct (dict_get item (py "name") (JStr [])) as [raw|]; cbn in E; [|discriminate].
  destruct (match raw with JStr s => Some (strip s) | _ => None end) as [nm|];
    cbn in E; [|discriminate].
  destruct (bool_decide (nm = [])); [discriminate|].
  destruct (dict_get item (py "price") (JNum 0)) as [pr|]; cbn in E; [|discriminate].
  destruct (dict_get item (py "discountPrice") (JNum (-1))) as [dp|]; cbn in E;
    [|discriminate].
  destruct (dict_get item (py "monthSale") (JNum 0)) as [ms|]; cbn in E; [|discriminate].
  destruct (DataExtractor._extract_image_info cfg lib item) as [[u f]|] eqn:I; cbn in E;
    [|discriminate].
  destruct (gt_zero dp) as [pos|]; cbn in E; [|discriminate].
  injection E as <-. cbn in T |- *.
  exact (extract_image_info_shape cfg lib item u f I T).
Qed.

Lemma products_of_feed_shape (cfg : Config) (lib : Lib) (f : FeedFile) (p : Product) :
  p ∈ products_of_feed cfg lib f ->
  truthy (image_url p) = true ->
  exists s, DataExtractor._clean_filename cfg lib s (image_url p) = Some (image_filename p).
Proof.
  unfold products_of_feed, extracted_products. intros Hp T.
  destruct f as [| | |data]; try (inversion Hp; fail).
  destruct (truthy data); [|inversion Hp].
  destruct (_ ≫= _) as [items|]; [|inversion Hp].
  apply list_elem_of_omap in Hp as (item & _ & Hitem).
  exact (extract_item_shape cfg lib item p Hitem T).
Qed.

(** An extracted product with a picture URL has a filename, so the loop
    does not pass over it. *)
Lemma products_of_feed_wanted (cfg : Config) (lib : Lib) (f : FeedFile) (p : Product) :
  p ∈ products_of_feed cfg lib f -> wanted p = truthy (image_url p).
Proof.
  intros Hp. unfold wanted. destruct (truthy (image_url p)) eqn:T; [|reflexivity].
  destruct (products_of_feed_shape cfg lib f p Hp T) as [s Hs].
  apply clean_filename_shape in Hs as [Hne _].
  now rewrite bool_decide_eq_false_2.
Qed.

(** With conversion on, no target is the temporary path of another. *)
Lemma products_of_feed_no_clash (cfg : Config) (lib : Lib) (f : FeedFile) (p q : Product) :
  CONVERT_TO_JPG cfg = true ->
  q ∈ products_of_feed cfg lib f -> wanted q = true ->
  target cfg q <> target cfg p ++ py ".temp".
Proof.
  intros Hc Hq Wq E.
  rewrite (products_of_feed_wanted cfg lib f q Hq) in Wq.
  destruct (products_of_feed_shape cfg lib f q Hq Wq) as [s Hs].
  apply clean_filename_shape in Hs as [_ Hs]. destruct (Hs Hc) as [x Hx].
  unfold target, path_join in E. rewrite Hx in E.
  change (py ".jpg") with (py ".jp" ++ [103]) in E.
  change (py ".temp") with (py ".tem" ++ [112]) in E.
  rewrite !app_assoc in E. apply app_inj_tail in E as [_ E]. discriminate.
Qed.

Lemma fresh_products_none (rows : list Row) (products : list Product) :
  (forall p, p ∈ products -> name p ∈ List.map col_name rows) ->
  fresh_products rows products = [].
Proof.
  unfold fresh_products. induction products as [|p ps IH]; intros H; [reflexivity|].
  cbn. rewrite bool_decide_eq_false_2.
  - apply IH. intros q Hq. apply H. now right.
  - intros Hn. apply Hn, H. now left.
Qed.

Lemma failed_images_app (l l' : list Event) :
  failed_images (l ++ l') = (failed_images l + failed_images l')%nat.
Proof.
  induction l as [|e l IH]; [reflexivity|].
  cbn. destruct e as [lvl m| |]; try exact IH.
  destruct m; try exact IH. rewrite IH. lia.
Qed.

(** The writing stages of a first run. *)
Lemma persist_and_fetch_first (lib : Lib) (cfg : Config) (env : Env)
    (products : list Product) (st : State) :
  excel_writable env = true ->
  (CONVERT_TO_JPG cfg = true ->
     forall p q, p ∈ products -> q ∈ products -> wanted p = true -> wanted q = true ->
       target cfg q <> target cfg p ++ py ".temp") ->
  let st1 := snd (persist_and_fetch lib cfg env products st) in
  feed (world st1) = feed (world st)
  /\ IMAGES_DIR cfg ∈ dirs (world st1)
  /\ (forall p, p ∈ products ->
        name p ∈ List.map col_name (catalog_rows (excel (world st1))))
  /\ exists tr d s f,
       trace st1 = tr ++ [Log INFO (MsgSummary d s f); Log INFO MsgDone]
       /\ (f = 0%nat -> forall p, p ∈ products -> wanted p = true ->
             is_Some (files (world st1) !! target cfg p)).
Proof.
  intros Hw Hclash. cbv zeta. unfold persist_and_fetch.
  pose proof (save_products_to_excel_rows env products (OUTPUT_EXCEL cfg) st Hw) as Hrows.
  pose proof (save_products_to_excel_frame env products (OUTPUT_EXCEL cfg) st) as Hframe.
  cbv zeta in Hframe.
  destruct (ExcelManager.save_products_to_excel env products (OUTPUT_EXCEL cfg) st)
    as [[] sA] eqn:ES.
  cbn [snd] in Hrows, Hframe. destruct Hframe as (HfeedA & HfilesA & HdirsA & _).
  erewrite bind_run by exact ES.
  set (sB := snd (mkdir (IMAGES_DIR cfg) sA)).
  destruct (ImageDownloader.download_loop lib cfg env products (IMAGES_DIR cfg)
              0 0 0 sB) as [[[d s'] f] sC] eqn:EL.
  assert (ED : ImageDownloader.download_images lib cfg env products (IMAGES_DIR cfg) sA
               = (tt, add_trace sC [Log INFO (MsgSummary d s' f)])).
  { unfold ImageDownloader.download_images.
    rewrite (bind_run _ _ sA sB tt) by reflexivity.
    erewrite bind_run by exact EL. apply logger_eq. }
  erewrite bind_run by exact ED.
  apply download_loop_spec in EL as (_ & HfeedC & HexcelC & HdirsC & _ & Hall);
    [|exact Hclash].
  rewrite logger_eq. cbn [fst snd].
  change (world (add_trace (add_trace sC ?a) ?b)) with (world sC).
  split; [rewrite HfeedC; exact HfeedA|].
  split; [rewrite HdirsC; unfold sB, mkdir; cbn [snd world dirs]; apply elem_of_union_l, elem_of_singleton; reflexivity|].
  split.
  - intros p Hp. rewrite HexcelC. unfold sB, mkdir. cbn [snd world excel]. rewrite Hrows.
    rewrite List.map_app.
    destruct (decide (name p ∈ List.map col_name (catalog_rows (excel (world st)))))
      as [Hin|Hout]; [apply elem_of_app; left; exact Hin|].
    apply elem_of_app. right.
    assert (Hf : p ∈ fresh_products (catalog_rows (excel (world st))) products)
      by (apply fresh_products_spec; auto).
    rewrite List.map_map. cbn.
    change (name p ∈ name <$> fresh_products (catalog_rows (excel (world st))) products).
    now apply list_elem_of_fmap_2.
  - exists (trace sC), d, s', f. split.
    + unfold add_trace. cbn. now rewrite <- app_assoc.
    + intros -> p Hp Wp. now apply Hall.
Qed.

(** The writing stages of a run that finds every name in the catalog and
    every wanted image on disk: four log lines and nothing else. *)
Lemma persist_and_fetch_second (lib : Lib) (cfg : Config) (env : Env)
    (products : list Product) (st : State) :
  (forall p, p ∈ products ->
     name p ∈ List.map col_name (catalog_rows (excel (world st)))) ->
  IMAGES_DIR cfg ∈ dirs (world st) ->
  (forall p, p ∈ products -> wanted p = true ->
     is_Some (files (world st) !! target cfg p)) ->
  exists loaded,
    persist_and_fetch lib cfg env products st
    = (tt, add_trace st
             [loaded; Log INFO MsgNothingNew;
              Log INFO (MsgSummary 0 (length (List.filter wanted products)) 0);
              Log INFO MsgDone]).
Proof.
  intros Hnames Hdir Hfiles. unfold persist_and_fetch.
  pose proof (save_products_to_excel_eq env products (OUTPUT_EXCEL cfg) st) as ES.
  cbv zeta in ES. rewrite (fresh_products_none _ _ Hnames) in ES. cbn [List.map] in ES.
  eexists. erewrite bind_run by exact ES.
  unfold ImageDownloader.download_images.
  assert (Hmk : forall s, IMAGES_DIR cfg ∈ dirs (world s) -> mkdir (IMAGES_DIR cfg) s = (tt, s)).
  { intros [[fd ex fl ds] c t] Hd. unfold mkdir. cbn in *. do 3 f_equal.
    apply subseteq_union_1_L, singleton_subseteq_l, Hd. }
  erewrite bind_run.
  2: { erewrite bind_run by (apply Hmk; exact Hdir).
       erewrite bind_run by (apply download_loop_all_present; exact Hfiles).
       apply logger_eq. }
  rewrite logger_eq, !add_trace_app. reflexivity.
Qed.




(** * Further properties *)

(** ** What the extractor returns *)

Lemma lstrip_head (s t : pystr) (c : N) : lstrip s = c :: t -> isspace c = false.
Proof.
  induction s as [|x s IH]; cbn; [discriminate|].
  destruct (isspace x) eqn:E; [exact IH|]. now intros [= <- _].
Qed.

Lemma lstrip_suffix (s : pystr) : exists pre, s = pre ++ lstrip s.
Proof.
  induction s as [|x s [pre IH]]; [now exists []|].
  cbn. destruct (isspace x); [|now exists []].
  exists (x :: pre). cbn. now rewrite <- IH.
Qed.

(** A stripped string neither starts nor ends with white space. *)
Lemma strip_ends (s : pystr) (c : N) :
  (head (strip s) = Some c -> isspace c = false)
  /\ (last (strip s) = Some c -> isspace c = false).
Proof.
  unfold strip.
  destruct (lstrip_suffix (rev (lstrip s))) as [pre Hpre].
  set (a := lstrip s) in *. set (b := lstrip (rev a)) in *.
  split; intros H.
  - destruct (rev b) as [|x r] eqn:Er; [discriminate|]. injection H as ->.
    assert (Hb : b = rev r ++ [c]).
    { rewrite <- (rev_involutive b), Er. reflexivity. }
    assert (Ha : a = c :: rev (pre ++ rev r)).
    { rewrite <- (rev_involutive a), Hpre, Hb, app_assoc, rev_app_distr. reflexivity. }
    exact (lstrip_head s _ c Ha).
  - apply last_Some in H as [l' Hl].
    assert (Hb : b = c :: rev l').
    { rewrite <- (rev_involutive b), Hl, rev_app_distr. reflexivity. }
    exact (lstrip_head (rev a) _ c Hb).
Qed.

(** What a product says about the entry it was extracted from. *)
Lemma extract_item_inv (cfg : Config) (lib : Lib) (item : json) (p : Product) :
  extract_item cfg lib item = Some p ->
  exists (s : pystr) (dp : json) (positive : bool),
    dict_get item (py "name") (JStr []) = Some (JStr s)
    /\ name p = strip s
    /\ strip s <> []
    /\ dict_get item (py "price") (JNum 0) = Some (price p)
    /\ dict_get item (py "discountPrice") (JNum (-1)) = Some dp
    /\ gt_zero dp = Some positive
    /\ discount_price p = (if positive then dp else price p)
    /\ dict_get item (py "monthSale") (JNum 0) = Some (month_sale p)
    /\ DataExtractor._extract_image_info cfg lib item
       = Some (image_url p, image_filename p).
Proof.
  unfold extract_item, DataExtractor.single_product_body. intros E.
  destruct (dict_get item (py "name") (JStr [])) as [raw|]; cbn in E; [|discriminate].
  destruct raw as [| | |s| |]; cbn in E; try discriminate.
  destruct (bool_decide (strip s = [])) eqn:B; [discriminate|].
  apply bool_decide_eq_false in B.
  destruct (dict_get item (py "price") (JNum 0)) as [pr|]; cbn in E; [|discriminate].
  destruct (dict_get item (py "discountPrice") (JNum (-1))) as [dp|]; cbn in E;
    [|discriminate].
  destruct (dict_get item (py "monthSale") (JNum 0)) as [ms|]; cbn in E; [|discriminate].
  destruct (DataExtractor._extract_image_info cfg lib item) as [[u f]|] eqn:I; cbn in E;
    [|discriminate].
  destruct (gt_zero dp) as [pos|] eqn:G; cbn in E; [|discriminate].
  injection E as <-. cbn. exists s, dp, pos. repeat split; auto.
Qed.

Lemma extract_products_fst (cfg : Config) (lib : Lib) (data : json) (st : State) :
  fst (DataExtractor.extract_products cfg lib data st) = extracted_products cfg lib data.
Proof.
  destruct (extract_products_eq cfg lib data) as [l H]. now rewrite H.
Qed.

(** Every product returned comes from an entry of the feed. *)
Lemma extract_products_from_item (cfg : Config) (lib : Lib) (data : json)
    (st : State) (p : Product) :
  p ∈ fst (DataExtractor.extract_products cfg lib data st) ->
  exists item, extract_item cfg lib item = Some p.
Proof.
  rewrite extract_products_fst. unfold extracted_products.
  destruct (_ ≫= _) as [items|]; [|intros H; inversion H].
  intros H. apply list_elem_of_omap in H as (item & _ & H). eauto.
Qed.

(** X1: every product [extract_products] returns has a name that is not
    empty and that neither starts nor ends with a white-space character. *)
Theorem extracted_names_are_stripped (cfg : Config) (lib : Lib) (data : json)
    (st : State) (p : Product) :
  p ∈ fst (DataExtractor.extract_products cfg lib data st) ->
  name p <> []
  /\ (forall c, head (name p) = Some c -> isspace c = false)
  /\ (forall c, last (name p) = Some c -> isspace c = false).
Proof.
  intros Hp. destruct (extract_products_from_item cfg lib data st p Hp) as [item Hi].
  apply extract_item_inv in Hi as (s & _ & _ & _ & Hn & Hne & _).
  rewrite Hn. split; [exact Hne|].
  split; intros c; apply strip_ends.
Qed.

(** The worked feed: its one product is named without surrounding space. *)
Lemma extracted_names_witness :
  malatang_product ∈ fst (DataExtractor.extract_products shipped_config example_lib
                            malatang_feed (start empty_world))
  /\ name malatang_product <> [].
Proof.
  assert (Hp : malatang_product
                ∈ fst (DataExtractor.extract_products shipped_config example_lib
                         malatang_feed (start empty_world)))
    by (vm_compute; left).
  split; [exact Hp|].
  exact (proj1 (extracted_names_are_stripped shipped_config example_lib malatang_feed
                  (start empty_world) malatang_product Hp)).
Defined.

(** X2: the discount price of every product returned is the price of the
    product, unless it is a value greater than zero (the feed's positive
    discount price). *)
Theorem extracted_discount_defaults_to_price (cfg : Config) (lib : Lib) (data : json)
    (st : State) (p : Product) :
  p ∈ fst (DataExtractor.extract_products cfg lib data st) ->
  discount_price p = price p \/ gt_zero (discount_price p) = Some true.
Proof.
  intros Hp. destruct (extract_products_from_item cfg lib data st p Hp) as [item Hi].
  apply extract_item_inv in Hi as (s & dp & pos & _ & _ & _ & _ & _ & Hg & Hd & _).
  rewrite Hd. destruct pos; [right; exact Hg | left; reflexivity].
Qed.

(** The worked feed gives the discount price -1: the product takes the price. *)
Lemma extracted_discount_witness :
  malatang_product ∈ fst (DataExtractor.extract_products shipped_config example_lib
                            malatang_feed (start empty_world))
  /\ (discount_price malatang_product = price malatang_product
      \/ gt_zero (discount_price malatang_product) = Some true).
Proof.
  assert (Hp : malatang_product
                ∈ fst (DataExtractor.extract_products shipped_config example_lib
                         malatang_feed (start empty_world)))
    by (vm_compute; left).
  split; [exact Hp|].
  exact (extracted_discount_defaults_to_price shipped_config example_lib malatang_feed
           (start empty_world) malatang_product Hp).
Defined.

Lemma extract_image_info_empty (cfg : Config) (lib : Lib) (item u : json) (f : pystr) :
  DataExtractor._extract_image_info cfg lib item = Some (u, f) ->
  truthy u = false ->
  u = JStr [] /\ f = [].
Proof.
  unfold DataExtractor._extract_image_info. intros E T.
  destruct (dict_get item (py "wmProductPicVos") (JArr [])) as [pic_vos|]; cbn in E;
    [|discriminate].
  destruct (truthy pic_vos); cbn in E; [|now injection E as <- <-].
  destruct (index0 pic_vos) as [first|]; cbn in E; [|discriminate].
  destruct (dict_get first (py "picLargeUrl") JNull) as [large|]; cbn in E; [|discriminate].
  destruct (if truthy large then Some large else dict_get first (py "picUrl") (JStr []))
    as [pic_url|]; cbn in E; [|discriminate].
  destruct (truthy pic_url) eqn:Tp; [|now injection E as <- <-].
  destruct (dict_get item (py "name") (JStr (py "unknown"))) as [nm|]; cbn in E;
    [|discriminate].
  destruct nm as [| | |s| |]; cbn in E; try discriminate.
  destruct (DataExtractor._clean_filename cfg lib s pic_url) as [fn|]; cbn in E;
    [|discriminate].
  injection E as <- <-. congruence.
Qed.

(** X3: in every product returned the picture URL and the filename go
    together: with a URL that counts as true the filename is not empty,
    and otherwise both are the empty string. *)
Theorem extracted_image_fields_go_together (cfg : Config) (lib : Lib) (data : json)
    (st : State) (p : Product) :
  p ∈ fst (DataExtractor.extract_products cfg lib data st) ->
  (truthy (image_url p) = true -> image_filename p <> [])
  /\ (truthy (image_url p) = false -> image_url p = JStr [] /\ image_filename p = []).
Proof.
  intros Hp. destruct (extract_products_from_item cfg lib data st p Hp) as [item Hi].
  split; intros T.
  - destruct (extract_item_shape cfg lib item p Hi T) as [s Hs].
    now apply clean_filename_shape in Hs.
  - apply extract_item_inv in Hi as (_ & _ & _ & _ & _ & _ & _ & _ & _ & _ & _ & Hinfo).
    exact (extract_image_info_empty cfg lib item _ _ Hinfo T).
Qed.

(** The product of the worked feed has a picture, hence a filename. *)
Lemma extracted_image_fields_witness :
  malatang_product ∈ fst (DataExtractor.extract_products shipped_config example_lib
                            malatang_feed (start empty_world))
  /\ truthy (image_url malatang_product) = true
  /\ image_filename malatang_product <> [].
Proof.
  assert (Hp : malatang_product
                ∈ fst (DataExtractor.extract_products shipped_config example_lib
                         malatang_feed (start empty_world)))
    by (vm_compute; left).
  split; [exact Hp|]. split; [reflexivity|].
  exact (proj1 (extracted_image_fields_go_together shipped_config example_lib
                  malatang_feed (start empty_world) malatang_product Hp) eq_refl).
Defined.

Lemma extracted_products_spu_list (cfg : Config) (lib : Lib) (data : json) :
  extracted_products cfg lib data
  = match spu_list data ≫= DataExtractor.iterate with
    | Some items => omap (extract_item cfg lib) items
    | None => []
    end.
Proof.
  unfold extracted_products, spu_list.
  destruct (dict_get data (py "data") (JObj [])) as [inner|]; [|reflexivity].
  cbn. destruct (dict_get inner (py "spuListVos") (JArr [])); reflexivity.
Qed.

Lemma extract_single_product_fst (cfg : Config) (lib : Lib) (item : json) (st : State) :
  fst (DataExtractor._extract_single_product cfg lib item st) = extract_item cfg lib item.
Proof.
  destruct (extract_single_product_eq cfg lib item) as [l H]. now rewrite H.
Qed.

(** X4: an entry for which [_extract_single_product] returns nothing does
    not disturb the others: the products of a list with such an entry in
    it are the products of the list without it, in the same order. *)
Theorem extract_skips_failing_entry (cfg : Config) (lib : Lib) (data data' : json)
    (l1 l2 : list json) (bad : json) (st st' st0 : State) :
  spu_list data = Some (JArr (l1 ++ bad :: l2)) ->
  spu_list data' = Some (JArr (l1 ++ l2)) ->
  fst (DataExtractor._extract_single_product cfg lib bad st0) = None ->
  fst (DataExtractor.extract_products cfg lib data st)
  = fst (DataExtractor.extract_products cfg lib data' st').
Proof.
  intros H1 H2 Hbad. rewrite extract_single_product_fst in Hbad.
  rewrite !extract_products_fst, !extracted_products_spu_list, H1, H2. cbn.
  rewrite !omap_app. cbn. now rewrite Hbad.
Qed.

(** The worked feed with and without its entry of empty name. *)
Lemma extract_skips_failing_entry_witness :
  fst (DataExtractor.extract_products shipped_config example_lib
         (feed_of_entries [malatang_entry; blank_entry]) (start empty_world))
  = fst (DataExtractor.extract_products shipped_config example_lib
           (feed_of_entries [malatang_entry]) (start empty_world)).
Proof.
  exact (extract_skips_failing_entry shipped_config example_lib
           (feed_of_entries [malatang_entry; blank_entry])
           (feed_of_entries [malatang_entry])
           [malatang_entry] [] blank_entry
           (start empty_world) (start empty_world) (start empty_world)
           eq_refl eq_refl eq_refl).
Defined.

(** X5: a document without the key [data], or whose [data] has no key
    [spuListVos], is taken as a list of no entries: no product, no error
    line. A document that is not an object gives no product either, with
    one error line. The world is not touched in any of the three cases. *)
Theorem extract_without_list (cfg : Config) (lib : Lib) (st : State) :
  (forall m, members_lookup (py "data") m = None ->
     DataExtractor.extract_products cfg lib (JObj m) st
     = ([], add_trace st [Log INFO (MsgFound 0); Log INFO (MsgExtracted 0)]))
  /\ (forall m inner,
        members_lookup (py "data") m = Some (JObj inner) ->
        members_lookup (py "spuListVos") inner = None ->
        DataExtractor.extract_products cfg lib (JObj m) st
        = ([], add_trace st [Log INFO (MsgFound 0); Log INFO (MsgExtracted 0)]))
  /\ (forall data, (forall m, data <> JObj m) ->
        DataExtractor.extract_products cfg lib data st
        = ([], add_trace st [Log ERROR MsgListFailed; Log INFO (MsgExtracted 0)])).
Proof.
  assert (Hempty : forall data,
    (inner ← dict_get data (py "data") (JObj []);
     spu_list ← dict_get inner (py "spuListVos") (JArr []);
     DataExtractor.iterate spu_list) = Some [] ->
    DataExtractor.extract_products cfg lib data st
    = ([], add_trace st [Log INFO (MsgFound 0); Log INFO (MsgExtracted 0)])).
  { intros data E. unfold DataExtractor.extract_products. rewrite E.
    erewrite bind_run.
    2: { erewrite bind_run by apply logger_eq. reflexivity. }
    erewrite bind_run by apply logger_eq. unfold ret.
    rewrite !add_trace_app. reflexivity. }
  split; [|split].
  - intros m Hm. apply Hempty. cbn. rewrite Hm. reflexivity.
  - intros m inner Hm Hi. apply Hempty. cbn. rewrite Hm. cbn. rewrite Hi. reflexivity.
  - intros data Hd. unfold DataExtractor.extract_products.
    assert (E : dict_get data (py "data") (JObj []) = None).
    { destruct data; try reflexivity. now contradiction (Hd members). }
    rewrite E. cbn [mbind option_bind].
    erewrite bind_run.
    2: { erewrite bind_run by apply logger_eq. reflexivity. }
    erewrite bind_run by apply logger_eq. unfold ret.
    rewrite !add_trace_app. reflexivity.
Qed.

(** The empty object. *)
Lemma extract_without_list_witness :
  DataExtractor.extract_products shipped_config example_lib (JObj []) (start empty_world)
  = ([], add_trace (start empty_world)
           [Log INFO (MsgFound 0); Log INFO (MsgExtracted 0)]).
Proof.
  exact (proj1 (extract_without_list shipped_config example_lib (start empty_world))
           [] eq_refl).
Defined.

Lemma substitute_idempotent (c : N) : substitute (substitute c) = substitute c.
Proof.
  unfold substitute at 2 3.
  repeat match goal with
         | |- context [if c =? ?k then _ else _] =>
             destruct (N.eqb_spec c k) as [->|?]; [reflexivity|]
         end.
  unfold substitute.
  repeat match goal with H : c <> _ |- _ => apply N.eqb_neq in H; rewrite H; clear H end.
  reflexivity.
Qed.

Lemma substitute_reserved (c : N) : reserved (substitute c) = true -> substitute c = 34.
Proof.
  unfold substitute.
  repeat match goal with
         | |- context [if c =? ?k then _ else _] =>
             destruct (N.eqb_spec c k) as [->|?]; [cbn; discriminate|]
         end.
  unfold reserved. cbn [existsb]. intros R.
  repeat (apply orb_prop in R; destruct R as [R|R];
          [apply N.eqb_eq in R; subst; (reflexivity || congruence)|]).
  discriminate.
Qed.

(** X6: the cleaning of a name keeps its length, changes nothing when
    applied a second time, and leaves none of the reserved characters in
    it except, possibly, the quotation mark. *)
Theorem clean_name_idempotent_and_safe (s : pystr) :
  length (DataExtractor.clean_name s) = length s
  /\ DataExtractor.clean_name (DataExtractor.clean_name s) = DataExtractor.clean_name s
  /\ (forall c, c ∈ DataExtractor.clean_name s -> reserved c = true -> c = 34).
Proof.
  rewrite !clean_name_map. split; [apply length_map|]. split.
  - rewrite List.map_map. apply List.map_ext. apply substitute_idempotent.
  - intros c Hc R. change (List.map substitute s) with (substitute <$> s) in Hc.
    apply list_elem_of_fmap in Hc as (x & -> & _). now apply substitute_reserved.
Qed.

(** A name that holds a solidus and a quotation mark. *)
Lemma clean_name_witness :
  34 ∈ DataExtractor.clean_name [97; 47; 34] /\ reserved 34 = true /\ (34 : N) = 34.
Proof.
  assert (H : 34 ∈ DataExtractor.clean_name [97; 47; 34])
    by (vm_compute; right; right; left).
  split; [exact H|]. split; [reflexivity|].
  exact (proj2 (proj2 (clean_name_idempotent_and_safe [97; 47; 34])) 34 H eq_refl).
Defined.

(** ** More on the catalog *)

Lemma save_products_to_excel_locked (env : Env) (products : list Product)
    (path : pystr) (st : State) :
  excel_writable env = false ->
  world (snd (ExcelManager.save_products_to_excel env products path st)) = world st.
Proof.
  intros Hw. rewrite save_products_to_excel_eq. cbv zeta. rewrite Hw. cbn [snd].
  destruct (List.map _ _); reflexivity.
Qed.



Lemma fresh_products_sublist (rows : list Row) (products : list Product) :
  fresh_products rows products `sublist_of` products.
Proof.
  unfold fresh_products. induction products as [|p ps IH]; cbn; [constructor|].
  destruct (bool_decide _); now constructor.
Qed.



Lemma fresh_products_all (products : list Product) :
  fresh_products [] products = products.
Proof.
  unfold fresh_products. cbn [List.map].
  induction products as [|p ps IH]; [reflexivity|].
  cbn [List.filter]. rewrite bool_decide_eq_true_2 by apply not_elem_of_nil.
  now rewrite IH.
Qed.

(** X9: with no catalog file, or one that cannot be read, a writable
    sheet ends up holding exactly one row per product, in order, repeated
    names included; what an unreadable file held is gone. With no product
    at all nothing is written and no file is created. *)
Theorem save_into_empty_catalog (env : Env) (products : list Product)
    (path : pystr) (st : State) :
  catalog_rows (excel (world st)) = [] ->
  excel_writable env = true ->
  excel (world (snd (ExcelManager.save_products_to_excel env products path st)))
  = match products with
    | [] => excel (world st)
    | _ :: _ => ExcelSheet (List.map (ExcelManager.new_row (now env)) products)
    end.
Proof.
  intros Hrows Hw. rewrite save_products_to_excel_eq. cbv zeta.
  rewrite Hrows, fresh_products_all, Hw. cbn [snd].
  destruct products; reflexivity.
Qed.

(** An unreadable catalog and one product. *)
Lemma save_into_empty_catalog_witness :
  excel (world (snd (ExcelManager.save_products_to_excel example_env
                       [product_named (py "b") (py "http://h/b.png")]
                       (py "malatang_products.xlsx")
                       (start {| feed := FeedMissing; excel := ExcelCorrupt;
                                 files := ∅; dirs := ∅ |}))))
  = ExcelSheet [ExcelManager.new_row (py "2024-05-01 12:00:00")
                  (product_named (py "b") (py "http://h/b.png"))].
Proof.
  exact (save_into_empty_catalog example_env
           [product_named (py "b") (py "http://h/b.png")]
           (py "malatang_products.xlsx")
           (start {| feed := FeedMissing; excel := ExcelCorrupt; files := ∅; dirs := ∅ |})
           eq_refl eq_refl).
Defined.

(** ** More on the image stage *)

(** The books of the loop of [download_images]: the counters, the
    requests, and what is left alone. *)
Lemma download_loop_account (lib : Lib) (cfg : Config) (env : Env) (dir : pystr)
    (products : list Product) :
  forall (st st' : State) (d s f d' s' f' : nat),
    ImageDownloader.download_loop lib cfg env products dir d s f st
      = ((d', s', f'), st') ->
    (d' + s' + f' = d + s + f + length (List.filter wanted products))%nat
    /\ (calls st <= calls st'
        <= calls st + MAX_RETRIES cfg * length (List.filter wanted products))%nat
    /\ feed (world st') = feed (world st)
    /\ excel (world st') = excel (world st)
    /\ dirs (world st') = dirs (world st)
    /\ (forall x, is_Some (files (world st) !! x) ->
          (CONVERT_TO_JPG cfg = true ->
             forall p, p ∈ products -> wanted p = true ->
               x <> path_join dir (image_filename p) ++ py ".temp") ->
          files (world st') !! x = files (world st) !! x).
Proof.
  induction products as [|p ps IH]; intros st st' d s f d' s' f' E.
  - cbn in E. unfold ret in E. injection E as <- <- <- <-. cbn.
    repeat split; auto; lia.
  - cbn [ImageDownloader.download_loop] in E. rewrite wanted_test in E.
    cbn [List.filter].
    destruct (wanted p) eqn:W; cbn [negb length] in E |- *.
    + erewrite bind_run in E by reflexivity.
      destruct (bool_decide (is_Some (files (world st) !! path_join dir (image_filename p))))
        eqn:B.
      * apply IH in E as (Hsum & Hcalls & Hfeed & Hexcel & Hdirs & Hkeep).
        repeat split; auto; try lia.
        intros x Hx Hx'. apply Hkeep; [exact Hx|].
        intros Hc q Hq. apply Hx'; [exact Hc | now right].
      * apply bool_decide_eq_false in B.
        destruct (ImageDownloader._download_single_image lib cfg env (image_url p)
                    (path_join dir (image_filename p)) st) as [ok s1] eqn:D.
        erewrite bind_run in E by exact D.
        apply download_single_image_spec in D
          as (Hcalls1 & Hfeed1 & Hexcel1 & Hdirs1 & Hframe1 & _).
        assert (Hsame : forall x, is_Some (files (world st) !! x) ->
                  (CONVERT_TO_JPG cfg = true ->
                     forall a, a ∈ p :: ps -> wanted a = true ->
                       x <> path_join dir (image_filename a) ++ py ".temp") ->
                  files (world s1) !! x = files (world st) !! x).
        { intros x Hx Hx'. apply Hframe1.
          - intros ->. contradiction.
          - intros Hc. apply Hx'; [exact Hc | now left | exact W]. }
        destruct ok; apply IH in E as (Hsum & Hcalls & Hfeed & Hexcel & Hdirs & Hkeep);
          (repeat split; try congruence; try lia;
           [intros x Hx Hx'; rewrite Hkeep;
             [now apply Hsame
             | rewrite Hsame by assumption; exact Hx
             | intros Hc q Hq; apply Hx'; [exact Hc | now right]]]).
    + apply IH in E as (Hsum & Hcalls & Hfeed & Hexcel & Hdirs & Hkeep).
      repeat split; auto; try lia.
      intros x Hx Hx'. apply Hkeep; [exact Hx|].
      intros Hc q Hq. apply Hx'; [exact Hc | now right].
Qed.

(** [download_images] is its loop between a [mkdir] and the summary line. *)
Lemma download_images_eq (lib : Lib) (cfg : Config) (env : Env)
    (products : list Product) (dir : pystr) (st : State) :
  exists d s f sC,
    ImageDownloader.download_loop lib cfg env products dir 0 0 0 (snd (mkdir dir st))
      = ((d, s, f), sC)
    /\ ImageDownloader.download_images lib cfg env products dir st
       = (tt, add_trace sC [Log INFO (MsgSummary d s f)]).
Proof.
  destruct (ImageDownloader.download_loop lib cfg env products dir 0 0 0
              (snd (mkdir dir st))) as [[[d s] f] sC] eqn:EL.
  exists d, s, f, sC. split; [reflexivity|].
  unfold ImageDownloader.download_images.
  rewrite (bind_run _ _ st (snd (mkdir dir st)) tt) by reflexivity.
  erewrite bind_run by exact EL. apply logger_eq.
Qed.

(** X10: the summary line of [download_images] accounts for every product
    it does not pass over: downloaded, skipped and failed add up to the
    number of products that have a picture URL and a filename. *)
Theorem download_images_counts_add_up (lib : Lib) (cfg : Config) (env : Env)
    (products : list Product) (dir : pystr) (st : State) :
  exists d s f,
    image_counts (trace (snd (ImageDownloader.download_images lib cfg env products dir st)))
      = Some (d, s, f)
    /\ (d + s + f = length (List.filter wanted products))%nat.
Proof.
  destruct (download_images_eq lib cfg env products dir st)
    as (d & s & f & sC & EL & ->).
  apply download_loop_account in EL as (Hsum & _).
  exists d, s, f. split; [|lia].
  unfold image_counts. cbn [snd trace add_trace]. rewrite rev_app_distr. reflexivity.
Qed.


(** X12: [download_images] never overwrites nor removes a file that was
    there before, whatever the network answers, unless the file sits at
    the temporary path of one of the images to fetch (conversion being
    on); it creates the directory and leaves feed and catalog alone. *)
Theorem download_images_keeps_existing_files (lib : Lib) (cfg : Config) (env : Env)
    (products : list Product) (dir : pystr) (st : State) (x : pystr) (content : bytes) :
  files (world st) !! x = Some content ->
  (CONVERT_TO_JPG cfg = true ->
     forall p, p ∈ products -> wanted p = true ->
       x <> path_join dir (image_filename p) ++ py ".temp") ->
  let st' := snd (ImageDownloader.download_images lib cfg env products dir st) in
  files (world st') !! x = Some content
  /\ dirs (world st') = {[ dir ]} ∪ dirs (world st)
  /\ feed (world st') = feed (world st)
  /\ excel (world st') = excel (world st).
Proof.
  intros Hx Hsafe. cbv zeta.
  destruct (download_images_eq lib cfg env products dir st)
    as (d & s & f & sC & EL & ->).
  apply download_loop_account in EL as (_ & _ & Hfeed & Hexcel & Hdirs & Hkeep).
  cbn [snd add_trace world].
  split; [|split; [exact Hdirs | split; [exact Hfeed | exact Hexcel]]].
  rewrite Hkeep; [exact Hx | cbn; now rewrite Hx | exact Hsafe].
Qed.

(** The image of [a] is there already; the loop is run for [a]. *)
Lemma download_images_keeps_existing_witness :
  files (world (snd (ImageDownloader.download_images example_lib shipped_config
                       example_env [product_named (py "a") (py "http://h/a.png")]
                       (py "images") (start world_with_image))))
    !! py "images/a.jpg" = Some [x01].
Proof.
  refine (proj1 (download_images_keeps_existing_files example_lib shipped_config
                   example_env [product_named (py "a") (py "http://h/a.png")]
                   (py "images") (start world_with_image) (py "images/a.jpg") [x01]
                   _ _)).
  - vm_compute. reflexivity.
  - intros _ p Hp _. apply list_elem_of_singleton in Hp. subst p.
    vm_compute. discriminate.
Defined.

Lemma attempt_once_converts (lib : Lib) (cfg : Config) (env : Env) (url : json)
    (path : pystr) (attempt : nat) (st : State) (d : pystr) (content : bytes) :
  CONVERT_TO_JPG cfg = true ->
  urlparse_netloc lib url = Some d ->
  session_get env url (calls st) = Responds false content ->
  can_write env path = true ->
  exists st',
    ImageDownloader.attempt_once lib cfg env url path attempt st
      = (ImageDownloader.Return true, st')
    /\ calls st' = S (calls st)
    /\ (files (world st') !! path = Some content
        \/ exists jpeg, pil_to_jpeg lib (JPG_QUALITY cfg) content = Some jpeg
                        /\ files (world st') !! path = Some jpeg).
Proof.
  intros Hc Hd Hg Hw. unfold ImageDownloader.attempt_once. rewrite Hd.
  unfold bind at 1. unfold ImageDownloader.get. rewrite Hg, Hc.
  match goal with
  | |- context [bind (ImageDownloader._download_and_convert_to_jpg _ _ _ _ _) _ ?s] =>
      pose proof (convert_to_jpg_spec lib cfg env content path s) as H;
      cbv zeta in H;
      destruct (ImageDownloader._download_and_convert_to_jpg lib cfg env content path s)
        as [b s'] eqn:E
  end.
  erewrite bind_run by exact E. unfold ret.
  cbn [fst snd] in H. destruct H as (_ & _ & _ & _ & _ & Hcalls & Hcase).
  rewrite Hw in Hcase.
  destruct (if can_write env (path ++ py ".temp")
            then pil_to_jpeg lib (JPG_QUALITY cfg) content else None) as [jpeg|] eqn:P;
    destruct Hcase as [-> Hfile]; eexists; (split; [reflexivity|]);
    (split; [exact Hcalls|]).
  - right. exists jpeg. split; [|exact Hfile].
    destruct (can_write env (path ++ py ".temp")); [exact P | discriminate].
  - left. exact Hfile.
Qed.

Lemma attempts_after_failures (lib : Lib) (cfg : Config) (env : Env) (url : json)
    (path : pystr) (d : pystr) (content : bytes) (j : nat) :
  CONVERT_TO_JPG cfg = true ->
  urlparse_netloc lib url = Some d ->
  can_write env path = true ->
  forall (a n : nat) (st : State),
    (j < n)%nat ->
    (forall i, (i < j)%nat -> failure (session_get env url (calls st + i)) <> None) ->
    session_get env url (calls st + j) = Responds false content ->
    exists st',
      ImageDownloader.attempts lib cfg env url path (seq a n) st = (true, st')
      /\ calls st' = (calls st + j + 1)%nat
      /\ (files (world st') !! path = Some content
          \/ exists jpeg, pil_to_jpeg lib (JPG_QUALITY cfg) content = Some jpeg
                          /\ files (world st') !! path = Some jpeg).
Proof.
  intros Hc Hd Hw. induction j as [|j IH]; intros a n st Hn Hfail Hok.
  - destruct n as [|n]; [lia|]. cbn [seq ImageDownloader.attempts].
    rewrite Nat.add_0_r in Hok.
    destruct (attempt_once_converts lib cfg env url path a st d content Hc Hd Hok Hw)
      as (st' & E & Hcalls & Hfile).
    exists st'. erewrite bind_run by exact E. unfold ret.
    split; [reflexivity|]. split; [lia | exact Hfile].
  - destruct n as [|n]; [lia|]. cbn [seq ImageDownloader.attempts].
    destruct (failure (session_get env url (calls st))) as [e|] eqn:F.
    2: { exfalso. apply (Hfail 0%nat); [lia|]. now rewrite Nat.add_0_r. }
    erewrite bind_run by (apply (attempt_once_failure _ _ _ _ _ _ _ d e Hd F)).
    destruct (IH (S a) n (after_failure cfg url (bool_decide (d = py "img.meituan.net"))
                            e a st)) as (st' & E & Hcalls & Hfile).
    + lia.
    + intros i Hi. cbn [calls after_failure].
      replace (S (calls st) + i)%nat with (calls st + S i)%nat by lia.
      apply Hfail. lia.
    + cbn [calls after_failure].
      replace (S (calls st) + j)%nat with (calls st + S j)%nat by lia. exact Hok.
    + exists st'. split; [exact E|]. split; [|exact Hfile].
      rewrite Hcalls. cbn [calls after_failure]. lia.
Qed.

(** X13: with conversion on and a writable target, a call of
    [_download_single_image] whose first [j] requests fail (with [j]
    below [MAX_RETRIES]) and whose next request is answered succeeds: it
    returns [True] after [j + 1] requests and the target then holds the
    JPEG made from the body or, if that could not be made, the body. *)
Theorem download_succeeds_after_failures (lib : Lib) (cfg : Config) (env : Env)
    (url : json) (path : pystr) (st : State) (d : pystr) (content : bytes) (j : nat) :
  CONVERT_TO_JPG cfg = true ->
  urlparse_netloc lib url = Some d ->
  can_write env path = true ->
  (j < MAX_RETRIES cfg)%nat ->
  (forall i, (i < j)%nat -> failure (session_get env url (calls st + i)) <> None) ->
  session_get env url (calls st + j) = Responds false content ->
  let r := ImageDownloader._download_single_image lib cfg env url path st in
  fst r = true
  /\ calls (snd r) = (calls st + j + 1)%nat
  /\ (files (world (snd r)) !! path = Some content
      \/ exists jpeg, pil_to_jpeg lib (JPG_QUALITY cfg) content = Some jpeg
                      /\ files (world (snd r)) !! path = Some jpeg).
Proof.
  intros Hc Hd Hw Hj Hfail Hok. cbv zeta.
  unfold ImageDownloader._download_single_image.
  destruct (attempts_after_failures lib cfg env url path d content j Hc Hd Hw
              0%nat (MAX_RETRIES cfg) st Hj Hfail Hok) as (st' & -> & Hcalls & Hfile).
  cbn [fst snd]. auto.
Qed.

(** Two timeouts, then an answer: the third request succeeds. *)
Lemma download_succeeds_after_failures_witness :
  let r := ImageDownloader._download_single_image example_lib shipped_config flaky_env
             (JStr (py "http://h/a.png")) (py "images/a.jpg") (start empty_world) in
  fst r = true /\ calls (snd r) = 3%nat.
Proof.
  cbv zeta.
  assert (Hfail : forall i, (i < 2)%nat ->
            failure (session_get flaky_env (JStr (py "http://h/a.png"))
                       (calls (start empty_world) + i)) <> None).
  { intros i Hi. destruct i as [|[|i]]; [discriminate | discriminate | lia]. }
  pose proof (download_succeeds_after_failures example_lib shipped_config flaky_env
    (JStr (py "http://h/a.png")) (py "images/a.jpg") (start empty_world)
    (py "img.meituan.net") (repeat x00 2048) 2%nat
    eq_refl eq_refl eq_refl ltac:(cbn; lia) Hfail eq_refl) as H.
  cbv zeta in H. destruct H as (H1 & H2 & _). split; [exact H1 | exact H2].
Defined.

Lemma attempt_once_keep_format (lib : Lib) (cfg : Config) (env : Env) (url : json)
    (path : pystr) (attempt : nat) (st st' : State) (step : ImageDownloader.Step) :
  CONVERT_TO_JPG cfg = false ->
  ImageDownloader.attempt_once lib cfg env url path attempt st = (step, st') ->
  match step with
  | ImageDownloader.Return true =>
      exists content,
        session_get env url (calls st) = Responds false content
        /\ files (world st') !! path = Some content
        /\ (1024 <= length content)%nat
  | ImageDownloader.Return false => files (world st') !! path = None
  | ImageDownloader.NextAttempt => files (world st') = files (world st)
  end.
Proof.
  intros Hc. unfold ImageDownloader.attempt_once.
  destruct (urlparse_netloc lib url) as [d|].
  2: { rewrite on_error_eq. now intros [= <- <-]. }
  unfold bind at 1. unfold ImageDownloader.get.
  destruct (session_get env url (calls st)) as [e|[|] content] eqn:G.
  1,2: rewrite on_error_eq; now intros [= <- <-].
  rewrite Hc. unfold bind at 1. unfold write_file.
  destruct (can_write env path) eqn:Wp.
  - unfold bind at 1. unfold getsize. cbn. rewrite lookup_insert_eq. cbn.
    destruct (length content <? 1024)%nat eqn:L; run_m; intros [= <- <-]; cbn.
    + apply lookup_delete_eq.
    + exists content. split; [reflexivity|]. split; [apply lookup_insert_eq|].
      apply Nat.ltb_ge in L. exact L.
  - rewrite on_error_eq. now intros [= <- <-].
Qed.

Lemma attempts_keep_format (lib : Lib) (cfg : Config) (env : Env) (url : json)
    (path : pystr) (range : list nat) :
  CONVERT_TO_JPG cfg = false ->
  forall (st st' : State) (b : bool),
    ImageDownloader.attempts lib cfg env url path range st = (b, st') ->
    if b
    then exists n content,
           session_get env url n = Responds false content
           /\ files (world st') !! path = Some content
           /\ (1024 <= length content)%nat
    else files (world st') !! path = None \/ files (world st') = files (world st).
Proof.
  intros Hc. induction range as [|attempt rest IH]; intros st st' b.
  - cbn. unfold ret. intros [= <- <-]. now right.
  - cbn [ImageDownloader.attempts]. unfold bind at 1.
    destruct (ImageDownloader.attempt_once lib cfg env url path attempt st)
      as [step s1] eqn:E1.
    apply attempt_once_keep_format in E1; [|exact Hc].
    destruct step as [[|]|].
    + unfold ret. intros [= <- <-]. destruct E1 as (content & H). eauto.
    + unfold ret. intros [= <- <-]. now left.
    + intros E2. apply IH in E2. destruct b; [exact E2|].
      rewrite <- E1. exact E2.
Qed.

(** X14: with conversion off, a file that [_download_single_image] reports
    as downloaded holds a response body of at least 1024 bytes, as it was
    received; and after a failed call the target is either absent or what
    it was. *)
Theorem keep_format_download_outcome (lib : Lib) (cfg : Config) (env : Env)
    (url : json) (path : pystr) (st : State) :
  CONVERT_TO_JPG cfg = false ->
  let r := ImageDownloader._download_single_image lib cfg env url path st in
  if fst r
  then exists n content,
         session_get env url n = Responds false content
         /\ files (world (snd r)) !! path = Some content
         /\ (1024 <= length content)%nat
  else files (world (snd r)) !! path = None
       \/ files (world (snd r)) = files (world st).
Proof.
  intros Hc. cbv zeta. unfold ImageDownloader._download_single_image.
  destruct (ImageDownloader.attempts lib cfg env url path (seq 0 (MAX_RETRIES cfg)) st)
    as [b st'] eqn:E.
  exact (attempts_keep_format lib cfg env url path _ Hc st st' b E).
Qed.

(** Two timeouts, then 2048 bytes, kept as they are. *)
Lemma keep_format_download_witness :
  files (world (snd (ImageDownloader._download_single_image example_lib
                       keep_format_config flaky_env (JStr (py "http://h/a.png"))
                       (py "images/a.png") (start empty_world))))
    !! py "images/a.png" = Some (repeat x00 2048).
Proof.
  pose proof (keep_format_download_outcome example_lib keep_format_config flaky_env
                (JStr (py "http://h/a.png")) (py "images/a.png") (start empty_world)
                eq_refl) as H.
  cbv zeta in H.
  assert (Hr : fst (ImageDownloader._download_single_image example_lib
                keep_format_config flaky_env (JStr (py "http://h/a.png"))
                (py "images/a.png") (start empty_world)) = true)
    by (vm_compute; reflexivity).
  rewrite Hr in H. destruct H as (n & content & Hn & Hfile & _).
  rewrite Hfile. f_equal.
  destruct n as [|[|n]]; cbn in Hn; try discriminate; now injection Hn as <-.
Defined.

(** ** More on the file watcher *)

Lemma on_modified_ignores (cfg : Config) (P : M unit) (t : Q)
    (e : FileMonitorHandler.FileSystemEvent) (h : FileMonitorHandler.t) (st : State) :
  watched cfg e = false ->
  FileMonitorHandler.on_modified cfg P t e h st = (h, st).
Proof.
  unfold watched, FileMonitorHandler.on_modified.
  destruct (FileMonitorHandler.is_directory e); [reflexivity|].
  cbn. now intros ->.
Qed.

Lemma accepted_handler (P : M unit) (t : Q) (st : State) :
  fst (accepted P t st) = {| FileMonitorHandler.last_modified := t |}.
Proof.
  unfold accepted, bind, ret, logger, sleep, emit. cbn. now destruct (P _).
Qed.

(** X15: over any sequence of notifications the handler does what the
    accepted ones alone would do, one run of [process_file] for each, and
    nothing for the others: a notification for a directory or for another
    path is never accepted, and each accepted one is read at least 2
    seconds after the accepted one before it. *)
Theorem dispatch_runs_spaced_notifications (cfg : Config) (P : M unit)
    (notifications : list (Q * FileMonitorHandler.FileSystemEvent)) :
  forall (h : FileMonitorHandler.t) (st : State),
    dispatch cfg P notifications h st
    = run_accepted P (accepted_times cfg (FileMonitorHandler.last_modified h) notifications)
        h st
    /\ spaced (FileMonitorHandler.last_modified h)
         (accepted_times cfg (FileMonitorHandler.last_modified h) notifications)
    /\ (forall t, t ∈ accepted_times cfg (FileMonitorHandler.last_modified h) notifications ->
          exists e, (t, e) ∈ notifications /\ watched cfg e = true).
Proof.
  induction notifications as [|[t e] rest IH]; intros h st.
  - cbn. repeat split. intros t Ht. inversion Ht.
  - cbn [dispatch accepted_times spaced run_accepted].
    destruct (watched cfg e) eqn:W.
    + destruct (Qlt_le_dec (t - FileMonitorHandler.last_modified h) 2) as [Hlt|Hle].
      * erewrite bind_run by (apply on_modified_discards; exact Hlt).
        destruct (IH h st) as (E & S & A). repeat split; auto.
        intros x Hx. destruct (A x Hx) as (e' & He' & We').
        exists e'. split; [now right | exact We'].
      * cbn [run_accepted spaced].
        unfold bind at 1. rewrite (on_modified_accepts cfg P t e h st W Hle).
        unfold bind at 1.
        pose proof (accepted_handler P t st) as Hh.
        destruct (accepted P t st) as [h' s1]. cbn [fst] in Hh. subst h'.
        destruct (IH {| FileMonitorHandler.last_modified := t |} s1) as (E & S & A).
        cbn [FileMonitorHandler.last_modified] in E, S, A.
        repeat split; auto.
        intros x Hx. apply elem_of_cons in Hx as [->|Hx].
        -- exists e. split; [now left | exact W].
        -- destruct (A x Hx) as (e' & He' & We').
           exists e'. split; [now right | exact We'].
    + erewrite bind_run by (apply on_modified_ignores; exact W).
      destruct (IH h st) as (E & S & A). repeat split; auto.
      intros x Hx. destruct (A x Hx) as (e' & He' & We').
      exists e'. split; [now right | exact We'].
Qed.

(** Of the five notifications the first and the last are accepted. *)
Lemma dispatch_witness :
  accepted_times shipped_config 0 five_notifications = [1000%Q; 1003%Q]
  /\ dispatch shipped_config
       (MalatangProcessor.process_file example_lib shipped_config example_env)
       five_notifications FileMonitorHandler.init (start empty_world)
     = run_accepted
         (MalatangProcessor.process_file example_lib shipped_config example_env)
         [1000%Q; 1003%Q] FileMonitorHandler.init (start empty_world).
Proof.
  assert (E : accepted_times shipped_config 0 five_notifications = [1000%Q; 1003%Q])
    by (vm_compute; reflexivity).
  split; [exact E|].
  pose proof (proj1 (dispatch_runs_spaced_notifications shipped_config
    (MalatangProcessor.process_file example_lib shipped_config example_env)
    five_notifications FileMonitorHandler.init (start empty_world))) as H.
  cbn [FileMonitorHandler.last_modified FileMonitorHandler.init] in H.
  rewrite E in H. exact H.
Defined.

(** ** More on a run *)

Lemma save_products_to_excel_prefix (env : Env) (products : list Product)
    (path : pystr) (st : State) :
  catalog_rows (excel (world st))
    `prefix_of`
  catalog_rows (excel (world (snd (ExcelManager.save_products_to_excel env products path st)))).
Proof.
  rewrite save_products_to_excel_eq. cbv zeta. cbn [snd].
  destruct (List.map _ _) as [|r l]; [reflexivity|].
  destruct (excel_writable env); [|reflexivity].
  cbn. now apply prefix_app_r.
Qed.

(** What the two writing stages do to the world, whatever the answers. *)
Lemma persist_and_fetch_frame (lib : Lib) (cfg : Config) (env : Env)
    (products : list Product) (st : State) :
  let st' := snd (persist_and_fetch lib cfg env products st) in
  feed (world st') = feed (world st)
  /\ catalog_rows (excel (world st)) `prefix_of` catalog_rows (excel (world st'))
  /\ dirs (world st') = {[ IMAGES_DIR cfg ]} ∪ dirs (world st)
  /\ (calls st <= calls st'
      <= calls st + MAX_RETRIES cfg * length (List.filter wanted products))%nat.
Proof.
  cbv zeta. unfold persist_and_fetch.
  pose proof (save_products_to_excel_prefix env products (OUTPUT_EXCEL cfg) st) as Hpre.
  pose proof (save_products_to_excel_frame env products (OUTPUT_EXCEL cfg) st) as Hframe.
  cbv zeta in Hframe.
  destruct (ExcelManager.save_products_to_excel env products (OUTPUT_EXCEL cfg) st)
    as [[] sA] eqn:ES.
  cbn [snd] in Hpre, Hframe. destruct Hframe as (HfeedA & HfilesA & HdirsA & HcallsA).
  erewrite bind_run by exact ES.
  destruct (download_images_eq lib cfg env products (IMAGES_DIR cfg) sA)
    as (d & s & f & sC & EL & ED).
  erewrite bind_run by exact ED. rewrite logger_eq. cbn [snd].
  apply download_loop_account in EL as (_ & Hcalls & Hfeed & Hexcel & Hdirs & _).
  change (world (add_trace (add_trace sC ?a) ?b)) with (world sC).
  change (calls (add_trace (add_trace sC ?a) ?b)) with (calls sC).
  cbn in Hcalls, Hfeed, Hexcel, Hdirs.
  rewrite Hfeed, Hexcel, Hdirs, HfeedA, HdirsA. rewrite HcallsA in Hcalls.
  repeat split; auto; lia.
Qed.


(** X17: a run whose feed yields no product (it does not parse, it is an
    empty value, or none of its entries gives a product) stops before the
    catalog and the image directory: the world is as it was and no request
    is made. *)
Theorem process_file_without_products (lib : Lib) (cfg : Config) (env : Env) (st : State) :
  products_of_feed cfg lib (feed (world st)) = [] ->
  world (snd (MalatangProcessor.process_file lib cfg env st)) = world st
  /\ calls (snd (MalatangProcessor.process_file lib cfg env st)) = calls st.
Proof.
  intros EP. destruct (process_file_eq lib cfg env st) as [l ->].
  rewrite EP. split; reflexivity.
Qed.

(** A feed whose only entry has an empty name, beside a catalog. *)
Lemma process_file_without_products_witness :
  world (snd (MalatangProcessor.process_file example_lib shipped_config example_env
                (start {| feed := FeedJson (feed_of_entries [blank_entry]);
                          excel := excel world_with_a; files := ∅; dirs := ∅ |})))
  = {| feed := FeedJson (feed_of_entries [blank_entry]);
       excel := excel world_with_a; files := ∅; dirs := ∅ |}.
Proof.
  exact (proj1 (process_file_without_products example_lib shipped_config example_env
    (start {| feed := FeedJson (feed_of_entries [blank_entry]);
              excel := excel world_with_a; files := ∅; dirs := ∅ |}) eq_refl)).
Defined.

(** ** The image stage does not look at the catalog *)

Lemma blind_ret {A} (a : A) : blind (ret a).
Proof. intros st st' H. now split. Qed.

Lemma blind_bind {A B} (m : M A) (k : A -> M B) :
  blind m -> (forall a, blind (k a)) -> blind (bind m k).
Proof.
  intros Hm Hk st st' H. unfold bind.
  destruct (Hm st st' H) as [Ha Hs].
  destruct (m st) as [a s1], (m st') as [a' s1']. cbn in Ha, Hs. subst a'.
  exact (Hk a s1 s1' Hs).
Qed.

Lemma blind_emit (e : Event) : blind (emit e).
Proof. intros st st' H. split; [reflexivity | exact H]. Qed.

Lemma blind_exists_file (path : pystr) : blind (exists_file path).
Proof.
  intros st st' H. pose proof H as (_ & Hf & _). unfold exists_file. cbn.
  rewrite Hf. now split.
Qed.

Lemma blind_read_file (path : pystr) : blind (read_file path).
Proof.
  intros st st' H. pose proof H as (_ & Hf & _). unfold read_file. cbn.
  rewrite Hf. now split.
Qed.

Lemma blind_getsize (path : pystr) : blind (getsize path).
Proof.
  intros st st' H. pose proof H as (_ & Hf & _). unfold getsize. cbn.
  rewrite Hf. now split.
Qed.

Lemma blind_write_file (env : Env) (path : pystr) (data : bytes) :
  blind (write_file env path data).
Proof.
  intros st st' H. unfold write_file.
  destruct (can_write env path); [|now split].
  destruct H as (H1 & H2 & H3 & H4). cbn. unfold agree. cbn.
  rewrite H2. auto.
Qed.

Lemma blind_remove_file (path : pystr) : blind (remove_file path).
Proof.
  intros st st' (H1 & H2 & H3 & H4). unfold remove_file, agree. cbn.
  rewrite H2. auto.
Qed.

Lemma blind_mkdir (d : pystr) : blind (mkdir d).
Proof.
  intros st st' (H1 & H2 & H3 & H4). unfold mkdir, agree. cbn.
  rewrite H3. auto.
Qed.

Lemma blind_get (cfg : Config) (env : Env) (url : json) (cdn : bool) :
  blind (ImageDownloader.get cfg env url cdn).
Proof.
  intros st st' (H1 & H2 & H3 & H4). unfold ImageDownloader.get, agree. cbn.
  rewrite H4. auto.
Qed.

Ltac blind_auto :=
  repeat first
    [ apply blind_ret
    | apply blind_emit
    | apply blind_exists_file
    | apply blind_read_file
    | apply blind_getsize
    | apply blind_write_file
    | apply blind_remove_file
    | apply blind_mkdir
    | apply blind_get
    | apply blind_bind; [|intros ?]
    | match goal with
      | |- blind (if ?b then _ else _) => destruct b
      | |- blind (match ?x with _ => _ end) => destruct x
      end ].

Lemma blind_convert (lib : Lib) (cfg : Config) (env : Env) (data : bytes) (path : pystr) :
  blind (ImageDownloader._download_and_convert_to_jpg lib cfg env data path).
Proof.
  unfold ImageDownloader._download_and_convert_to_jpg, logger. blind_auto.
Qed.

Lemma blind_on_error (cfg : Config) (e : RequestError) (attempt : nat) (url : json) :
  blind (ImageDownloader.on_error cfg e attempt url).
Proof.
  unfold ImageDownloader.on_error, logger, sleep. blind_auto.
Qed.

Lemma blind_attempt_once (lib : Lib) (cfg : Config) (env : Env) (url : json)
    (path : pystr) (attempt : nat) :
  blind (ImageDownloader.attempt_once lib cfg env url path attempt).
Proof.
  unfold ImageDownloader.attempt_once, logger.
  repeat first
    [ apply blind_on_error
    | apply blind_convert
    | apply blind_ret
    | apply blind_emit
    | apply blind_getsize
    | apply blind_write_file
    | apply blind_remove_file
    | apply blind_get
    | apply blind_bind; [|intros ?]
    | match goal with
      | |- blind (if ?b then _ else _) => destruct b
      | |- blind (match ?x with _ => _ end) => destruct x
      end ].
Qed.

Lemma blind_attempts (lib : Lib) (cfg : Config) (env : Env) (url : json)
    (path : pystr) (range : list nat) :
  blind (ImageDownloader.attempts lib cfg env url path range).
Proof.
  induction range as [|attempt rest IH]; cbn [ImageDownloader.attempts].
  - apply blind_ret.
  - apply blind_bind; [apply blind_attempt_once|].
    intros [b|]; [apply blind_ret | exact IH].
Qed.

Lemma blind_download_loop (lib : Lib) (cfg : Config) (env : Env)
    (products : list Product) (dir : pystr) :
  forall d s f, blind (ImageDownloader.download_loop lib cfg env products dir d s f).
Proof.
  induction products as [|p ps IH]; intros d s f; cbn [ImageDownloader.download_loop].
  - apply blind_ret.
  - destruct (_ || _); [apply IH|].
    apply blind_bind; [apply blind_exists_file|].
    intros [|]; [apply IH|].
    apply blind_bind; [apply blind_attempts|].
    intros [|]; apply IH.
Qed.

Lemma blind_download_images (lib : Lib) (cfg : Config) (env : Env)
    (products : list Product) (dir : pystr) :
  blind (ImageDownloader.download_images lib cfg env products dir).
Proof.
  unfold ImageDownloader.download_images, logger.
  apply blind_bind; [apply blind_mkdir|]. intros _.
  apply blind_bind; [apply blind_download_loop|]. intros c. apply blind_emit.
Qed.

Lemma attempt_once_env (lib : Lib) (cfg : Config) (env1 env2 : Env) (url : json)
    (path : pystr) (attempt : nat) (st : State) :
  session_get env1 = session_get env2 ->
  can_write env1 = can_write env2 ->
  ImageDownloader.attempt_once lib cfg env1 url path attempt st
  = ImageDownloader.attempt_once lib cfg env2 url path attempt st.
Proof.
  destruct env1, env2. cbn. intros -> ->. reflexivity.
Qed.

Lemma attempts_env (lib : Lib) (cfg : Config) (env1 env2 : Env) (url : json)
    (path : pystr) (range : list nat) :
  session_get env1 = session_get env2 ->
  can_write env1 = can_write env2 ->
  forall st,
    ImageDownloader.attempts lib cfg env1 url path range st
    = ImageDownloader.attempts lib cfg env2 url path range st.
Proof.
  intros Hg Hw. induction range as [|attempt rest IH]; intros st; [reflexivity|].
  cbn [ImageDownloader.attempts]. unfold bind.
  rewrite (attempt_once_env lib cfg env1 env2 url path attempt st Hg Hw).
  destruct (ImageDownloader.attempt_once lib cfg env2 url path attempt st) as [[b|] s1];
    [reflexivity | apply IH].
Qed.

Lemma download_loop_env (lib : Lib) (cfg : Config) (env1 env2 : Env)
    (products : list Product) (dir : pystr) :
  session_get env1 = session_get env2 ->
  can_write env1 = can_write env2 ->
  forall d s f st,
    ImageDownloader.download_loop lib cfg env1 products dir d s f st
    = ImageDownloader.download_loop lib cfg env2 products dir d s f st.
Proof.
  intros Hg Hw. induction products as [|p ps IH]; intros d s f st; [reflexivity|].
  cbn [ImageDownloader.download_loop].
  destruct (_ || _); [apply IH|].
  unfold bind at 1 3. destruct (exists_file _ st) as [[|] s0]; [apply IH|].
  unfold bind, ImageDownloader._download_single_image.
  rewrite (attempts_env lib cfg env1 env2 _ _ _ Hg Hw s0).
  destruct (ImageDownloader.attempts lib cfg env2 _ _ _ s0) as [[|] s1]; apply IH.
Qed.

Lemma download_images_env (lib : Lib) (cfg : Config) (env1 env2 : Env)
    (products : list Product) (dir : pystr) (st : State) :
  session_get env1 = session_get env2 ->
  can_write env1 = can_write env2 ->
  ImageDownloader.download_images lib cfg env1 products dir st
  = ImageDownloader.download_images lib cfg env2 products dir st.
Proof.
  intros Hg Hw. unfold ImageDownloader.download_images, bind.
  destruct (mkdir dir st) as [u s0].
  now rewrite (download_loop_env lib cfg env1 env2 products dir Hg Hw).
Qed.

Lemma agree_add_trace (st st' : State) (l l' : list Event) :
  agree st st' -> agree (add_trace st l) (add_trace st' l').
Proof. intros H. exact H. Qed.

(** X18: the image stage of a run does not depend on the catalog stage:
    two runs from one state, in worlds that answer requests and file
    writes alike but differ in whether the sheet can be written (or in the
    time), leave the same files and directories and make the same number
    of requests. *)
Theorem catalog_failure_does_not_touch_images (lib : Lib) (cfg : Config)
    (env1 env2 : Env) (st : State) :
  session_get env1 = session_get env2 ->
  can_write env1 = can_write env2 ->
  let st1 := snd (MalatangProcessor.process_file lib cfg env1 st) in
  let st2 := snd (MalatangProcessor.process_file lib cfg env2 st) in
  files (world st1) = files (world st2)
  /\ dirs (world st1) = dirs (world st2)
  /\ calls st1 = calls st2.
Proof.
  intros Hg Hw. cbv zeta.
  destruct (process_file_eq lib cfg env1 st) as [l1 ->].
  destruct (process_file_eq lib cfg env2 st) as [l2 ->].
  destruct (products_of_feed cfg lib (feed (world st))) as [|p ps];
    [repeat split; reflexivity|].
  unfold persist_and_fetch.
  pose proof (save_products_to_excel_frame env1 (p :: ps) (OUTPUT_EXCEL cfg)
                (add_trace st l1)) as F1.
  pose proof (save_products_to_excel_frame env2 (p :: ps) (OUTPUT_EXCEL cfg)
                (add_trace st l2)) as F2.
  cbv zeta in F1, F2.
  destruct (ExcelManager.save_products_to_excel env1 (p :: ps) (OUTPUT_EXCEL cfg)
              (add_trace st l1)) as [[] sA1] eqn:E1.
  destruct (ExcelManager.save_products_to_excel env2 (p :: ps) (OUTPUT_EXCEL cfg)
              (add_trace st l2)) as [[] sA2] eqn:E2.
  cbn [snd world calls add_trace] in F1, F2.
  assert (HA : agree sA1 sA2).
  { destruct F1 as (a1 & b1 & c1 & d1), F2 as (a2 & b2 & c2 & d2).
    unfold agree. rewrite a1, b1, c1, d1, a2, b2, c2, d2. auto. }
  erewrite bind_run by exact E1. erewrite (bind_run _ _ (add_trace st l2)) by exact E2.
  pose proof (blind_download_images lib cfg env2 (p :: ps) (IMAGES_DIR cfg) sA1 sA2 HA)
    as [_ HB].
  rewrite <- (download_images_env lib cfg env1 env2 (p :: ps) (IMAGES_DIR cfg) sA1 Hg Hw)
    in HB.
  destruct (ImageDownloader.download_images lib cfg env1 (p :: ps) (IMAGES_DIR cfg) sA1)
    as [[] sB1] eqn:D1.
  destruct (ImageDownloader.download_images lib cfg env2 (p :: ps) (IMAGES_DIR cfg) sA2)
    as [[] sB2] eqn:D2.
  erewrite bind_run by exact D1. erewrite (bind_run _ _ sA2) by exact D2.
  rewrite !logger_eq. cbn [snd world calls add_trace].
  cbn [snd] in HB. destruct HB as (_ & Hf & Hd & Hc). auto.
Qed.

(** The same feed and the same answers, the sheet writable or locked. *)
Lemma catalog_failure_witness :
  files (world (snd (MalatangProcessor.process_file example_lib shipped_config
                       example_env (start one_product_world))))
  = files (world (snd (MalatangProcessor.process_file example_lib shipped_config
                         locked_env (start one_product_world)))).
Proof.
  exact (proj1 (catalog_failure_does_not_touch_images example_lib shipped_config
                  example_env locked_env (start one_product_world) eq_refl eq_refl)).
Defined.

(** ** The processor of the interface *)

Lemma quiet_gret {A} (a : A) : quiet (GUIProcessor.gret a).
Proof. intros g. reflexivity. Qed.

Lemma quiet_gbind {A B} (m : GUIProcessor.GM A) (k : A -> GUIProcessor.GM B) :
  quiet m -> (forall a, quiet (k a)) -> quiet (GUIProcessor.gbind m k).
Proof.
  intros Hm Hk g. unfold GUIProcessor.gbind.
  specialize (Hm g). destruct (m g) as [a g1]. cbn in Hm.
  now rewrite (Hk a g1).
Qed.

Lemma quiet_show (e : GUIProcessor.GuiEvent) : quiet (GUIProcessor.show e).
Proof. intros g. reflexivity. Qed.

Lemma quiet_get_self : quiet GUIProcessor.get_self.
Proof. intros g. reflexivity. Qed.

Lemma quiet_set_steps (a b : nat) : quiet (GUIProcessor.set_steps a b).
Proof. intros g. reflexivity. Qed.

Lemma quiet_log (m : GUIProcessor.GuiMessage) (l : GUIProcessor.GuiLevel) :
  quiet (GUIProcessor.log m l).
Proof.
  unfold GUIProcessor.log.
  apply quiet_gbind; [apply quiet_show|]. intros _.
  apply quiet_gbind; [apply quiet_get_self|]. intros s.
  destruct (GUIProcessor.log_callback s); [apply quiet_show | apply quiet_gret].
Qed.

Lemma quiet_update_progress (step : option GUIProcessor.StepName) :
  quiet (GUIProcessor.update_progress step).
Proof.
  unfold GUIProcessor.update_progress.
  apply quiet_gbind; [apply quiet_get_self|]. intros s.
  destruct (0 <? GUIProcessor.total_steps s)%nat; [|apply quiet_gret].
  apply quiet_gbind.
  - destruct (GUIProcessor.progress_callback s); [apply quiet_show | apply quiet_gret].
  - intros _. destruct step; [apply quiet_log | apply quiet_gret].
Qed.

Lemma quiet_next_step (step : GUIProcessor.StepName) : quiet (GUIProcessor.next_step step).
Proof.
  unfold GUIProcessor.next_step.
  apply quiet_gbind; [apply quiet_get_self|]. intros s.
  apply quiet_gbind; [apply quiet_set_steps|]. intros _.
  apply quiet_update_progress.
Qed.

Lemma tracks_gret {A} (a : A) : tracks (GUIProcessor.gret a) (ret a).
Proof. intros g. now split. Qed.

Lemma tracks_lift {A} (m : M A) : tracks (GUIProcessor.lift m) m.
Proof.
  intros g. unfold GUIProcessor.lift. destruct (m (GUIProcessor.base g)). now split.
Qed.

Lemma tracks_gbind {A B} (gm : GUIProcessor.GM A) (gk : A -> GUIProcessor.GM B)
    (m : M A) (k : A -> M B) :
  tracks gm m -> (forall a, tracks (gk a) (k a)) ->
  tracks (GUIProcessor.gbind gm gk) (bind m k).
Proof.
  intros Hm Hk g. unfold GUIProcessor.gbind, bind.
  destruct (Hm g) as [Ha Hs].
  destruct (gm g) as [a g1], (m (GUIProcessor.base g)) as [a' s1].
  cbn in Ha, Hs. subst a' s1. exact (Hk a g1).
Qed.

(** A quiet step in front changes nothing for the components. *)
Lemma tracks_after_quiet {A B} (q : GUIProcessor.GM A) (gk : A -> GUIProcessor.GM B)
    (m : M B) :
  quiet q -> (forall a, tracks (gk a) m) -> tracks (GUIProcessor.gbind q gk) m.
Proof.
  intros Hq Hk g. unfold GUIProcessor.gbind.
  specialize (Hq g). destruct (q g) as [a g1]. cbn in Hq.
  rewrite <- Hq. exact (Hk a g1).
Qed.

Lemma tracks_progress_loop (lib : Lib) (cfg : Config) (env : Env)
    (products : list Product) (dir : pystr) (total : nat) :
  forall i d s f,
    tracks (GUIProcessor.progress_loop lib cfg env products dir total i d s f)
           (ImageDownloader.download_loop lib cfg env products dir d s f).
Proof.
  induction products as [|p ps IH]; intros i d s f;
    cbn [GUIProcessor.progress_loop ImageDownloader.download_loop].
  - apply tracks_gret.
  - destruct (_ || _); [apply IH|].
    apply tracks_gbind; [apply tracks_lift|]. intros [|].
    + apply tracks_after_quiet; [apply quiet_log|]. intros _. apply IH.
    + apply tracks_after_quiet; [apply quiet_log|]. intros _.
      apply tracks_gbind; [apply tracks_lift|]. intros [|];
        (apply tracks_after_quiet; [apply quiet_log|]); intros _; apply IH.
Qed.

Lemma tracks_process_file_body (lib : Lib) (cfg : Config) (env : Env)
    (input output dir : pystr) :
  tracks (GUIProcessor.process_file_body lib cfg env input output dir)
         (component_calls lib cfg env input output dir).
Proof.
  unfold GUIProcessor.process_file_body, component_calls.
  apply tracks_after_quiet; [apply quiet_set_steps|]. intros _.
  apply tracks_after_quiet; [apply quiet_log|]. intros _.
  apply tracks_after_quiet; [apply quiet_next_step|]. intros _.
  apply tracks_gbind; [apply tracks_lift|]. intros [data|]; [|apply tracks_gret].
  destruct (negb (truthy data)); [apply tracks_gret|].
  apply tracks_after_quiet; [apply quiet_log|]. intros _.
  apply tracks_after_quiet; [apply quiet_next_step|]. intros _.
  apply tracks_gbind; [apply tracks_lift|]. intros [|p ps]; [apply tracks_gret|].
  apply tracks_after_quiet; [apply quiet_log|]. intros _.
  apply tracks_after_quiet; [apply quiet_log|]. intros _.
  apply tracks_after_quiet; [apply quiet_next_step|]. intros _.
  apply tracks_gbind; [apply tracks_lift|]. intros existing_df.
  cbv zeta.
  apply tracks_after_quiet; [apply quiet_log|]. intros _.
  apply tracks_after_quiet; [apply quiet_log|]. intros _.
  apply tracks_after_quiet; [apply quiet_next_step|]. intros _.
  apply tracks_gbind; [apply tracks_lift|]. intros _.
  apply tracks_after_quiet; [apply quiet_log|]. intros _.
  apply tracks_after_quiet; [apply quiet_next_step|]. intros _.
  apply tracks_gbind; [apply tracks_lift|]. intros _.
  apply tracks_after_quiet; [apply quiet_log|]. intros _.
  apply tracks_after_quiet; [apply quiet_next_step|]. intros _.
  apply tracks_gbind; [apply tracks_progress_loop|]. intros counts.
  apply tracks_after_quiet; [apply quiet_get_self|]. intros s.
  apply tracks_after_quiet; [apply quiet_set_steps|]. intros _.
  apply tracks_after_quiet; [apply quiet_update_progress|]. intros _.
  apply tracks_after_quiet; [apply quiet_log|]. intros _.
  apply tracks_after_quiet; [apply quiet_log|]. intros _.
  apply tracks_after_quiet; [apply quiet_log|]. intros _.
  apply tracks_gret.
Qed.

Lemma tracks_process_file (lib : Lib) (cfg : Config) (env : Env)
    (input output dir : pystr) :
  tracks (GUIProcessor.process_file lib cfg env input output dir)
         (component_calls lib cfg env input output dir).
Proof.
  intros g. unfold GUIProcessor.process_file, GUIProcessor.gbind.
  destruct (tracks_process_file_body lib cfg env input output dir g) as [Ha Hs].
  destruct (GUIProcessor.process_file_body lib cfg env input output dir g) as [r g1].
  cbn in Ha, Hs. rewrite <- Ha, <- Hs.
  destruct r as [e|res]; [|now split].
  pose proof (quiet_log (GUIProcessor.GProcessFailed e) GUIProcessor.LvError g1) as Hq.
  destruct (GUIProcessor.log _ _ g1) as [u g2]. cbn in Hq |- *. now split.
Qed.

Lemma load_existing_data_eq (path : pystr) (st : State) :
  exists m,
    ExcelManager.load_existing_data path st
    = (catalog_rows (excel (world st)), add_trace st [m]).
Proof.
  unfold ExcelManager.load_existing_data.
  erewrite bind_run by reflexivity.
  destruct (excel (world st)); eexists;
    (erewrite bind_run by apply logger_eq); reflexivity.
Qed.

(** The component calls of the processor are an extraction, which only
    logs, followed by the catalog stage, the directory and the loop over
    the images. *)
Lemma component_calls_eq (lib : Lib) (cfg : Config) (env : Env)
    (input output dir : pystr) (st : State) :
  exists l e,
    component_calls lib cfg env input output dir st
    = match products_of_feed cfg lib (feed (world st)) with
      | [] => (inl e, add_trace st l)
      | _ :: _ =>
          let products := products_of_feed cfg lib (feed (world st)) in
          let sA := snd (ExcelManager.save_products_to_excel env products output
                           (add_trace st l)) in
          let r := ImageDownloader.download_loop lib cfg env products dir 0 0 0
                     (snd (mkdir dir sA)) in
          (inr {|
             GUIProcessor.total_products := length products;
             GUIProcessor.new_products :=
               length (fresh_products (catalog_rows (excel (world st))) products);
             GUIProcessor.downloaded_images := fst (fst (fst r));
             GUIProcessor.skipped_images := snd (fst (fst r));
             GUIProcessor.failed_images := snd (fst r);
             GUIProcessor.excel_file := output;
             GUIProcessor.images_dir := dir
           |}, snd r)
      end.
Proof.
  unfold component_calls, products_of_feed.
  destruct (parse_json_file_eq input st) as [m Hp].
  erewrite bind_run by exact Hp.
  destruct (feed (world st)) as [| | |data];
    try (exists [m], GUIProcessor.ParseFailed; reflexivity).
  destruct (truthy data) eqn:T; cbn [negb];
    [|exists [m], GUIProcessor.ParseFailed; reflexivity].
  destruct (extract_products_eq cfg lib data) as [l H].
  erewrite bind_run by apply H.
  destruct (extracted_products cfg lib data) as [|p ps] eqn:E.
  - exists ([m] ++ l), GUIProcessor.NoProducts. unfold ret.
    now rewrite add_trace_app.
  - destruct (load_existing_data_eq output (add_trace (add_trace st [m]) l)) as [m' Hl].
    exists (([m] ++ l) ++ [m']), GUIProcessor.ParseFailed.
    erewrite bind_run by exact Hl.
    rewrite !add_trace_app.
    change (world (add_trace (add_trace st [m]) l)) with (world st).
    cbv zeta.
    set (s0 := add_trace st (([m] ++ l) ++ [m'])).
    rewrite (bind_run _ _ s0
               (snd (ExcelManager.save_products_to_excel env (p :: ps) output s0)) tt)
      by (destruct (ExcelManager.save_products_to_excel env (p :: ps) output s0)
            as [[] ?]; reflexivity).
    erewrite (bind_run (mkdir dir)) by reflexivity.
    unfold bind at 1.
    destruct (ImageDownloader.download_loop _ _ _ _ _ _ _ _ _) as [[[d s] f] sC].
    unfold ret, fresh_products. cbn [fst snd]. do 2 f_equal.
    change (world (add_trace st ([m] ++ l))) with (world st).
    f_equal. f_equal. apply List.filter_ext. intros q. apply existing_names_rows.
Qed.

Lemma world_eq (w w' : World) :
  feed w = feed w' -> excel w = excel w' -> files w = files w' -> dirs w = dirs w' ->
  w = w'.
Proof. destruct w, w'. cbn. now intros -> -> -> ->. Qed.

(** The catalog stage from two states with one world and one request
    count leaves one world and one request count. *)
Lemma save_products_to_excel_same (env : Env) (products : list Product)
    (path path' : pystr) (st st' : State) :
  world st = world st' -> calls st = calls st' ->
  world (snd (ExcelManager.save_products_to_excel env products path st))
  = world (snd (ExcelManager.save_products_to_excel env products path' st'))
  /\ calls (snd (ExcelManager.save_products_to_excel env products path st))
     = calls (snd (ExcelManager.save_products_to_excel env products path' st')).
Proof.
  intros Hw Hc. rewrite !save_products_to_excel_eq. cbv zeta. cbn [snd].
  rewrite <- Hw.
  destruct (List.map _ _); [|destruct (excel_writable env)]; cbn; auto.
Qed.

(** The directory and the loop over the images from two states with one
    world and one request count. *)
Lemma download_loop_same (lib : Lib) (cfg : Config) (env : Env)
    (products : list Product) (dir : pystr) (st st' : State) :
  world st = world st' -> calls st = calls st' ->
  let r := ImageDownloader.download_loop lib cfg env products dir 0 0 0
             (snd (mkdir dir st)) in
  let r' := ImageDownloader.download_loop lib cfg env products dir 0 0 0
              (snd (mkdir dir st')) in
  fst r = fst r' /\ world (snd r) = world (snd r') /\ calls (snd r) = calls (snd r').
Proof.
  intros Hw Hc. cbv zeta.
  assert (Ha : agree (snd (mkdir dir st)) (snd (mkdir dir st'))).
  { unfold agree. cbn. now rewrite Hw, Hc. }
  destruct (blind_download_loop lib cfg env products dir 0 0 0 _ _ Ha)
    as (Hv & Hfeed & Hfiles & Hdirs & Hcalls).
  destruct (ImageDownloader.download_loop lib cfg env products dir 0 0 0
              (snd (mkdir dir st))) as [[[d s] f] s1] eqn:E1.
  destruct (ImageDownloader.download_loop lib cfg env products dir 0 0 0
              (snd (mkdir dir st'))) as [[[d' s'] f'] s1'] eqn:E1'.
  apply download_loop_account in E1 as (_ & _ & _ & Hex & _).
  apply download_loop_account in E1' as (_ & _ & _ & Hex' & _).
  cbn [fst snd] in *. repeat split; auto.
  apply world_eq; auto. rewrite Hex, Hex'. cbn. now rewrite Hw.
Qed.







(** ** What the processor of the interface shows *)

Lemma triple_gbind {A B} (P R : GUIProcessor.GState -> Prop)
    (Q : B -> GUIProcessor.GState -> Prop)
    (m : GUIProcessor.GM A) (k : A -> GUIProcessor.GM B) :
  triple P m (fun _ => R) -> (forall a, triple R (k a) Q) ->
  triple P (GUIProcessor.gbind m k) Q.
Proof.
  intros Hm Hk g HP. unfold GUIProcessor.gbind.
  specialize (Hm g HP). destruct (m g) as [a g1]. exact (Hk a g1 Hm).
Qed.

Lemma triple_gret {A} (P : GUIProcessor.GState -> Prop) (a : A) :
  triple P (GUIProcessor.gret a) (fun _ => P).
Proof. intros g HP. exact HP. Qed.

Lemma log_run (m : GUIProcessor.GuiMessage) (lv : GUIProcessor.GuiLevel)
    (g : GUIProcessor.GState) :
  GUIProcessor.log m lv g
  = (tt, {| GUIProcessor.base := GUIProcessor.base g;
            GUIProcessor.self := GUIProcessor.self g;
            GUIProcessor.shown :=
              GUIProcessor.shown g
              ++ GUIProcessor.LoggerInfo m
                 :: (if GUIProcessor.log_callback (GUIProcessor.self g)
                     then [GUIProcessor.LogCallback m lv] else []) |}).
Proof.
  unfold GUIProcessor.log, GUIProcessor.gbind, GUIProcessor.show, GUIProcessor.get_self,
    GUIProcessor.gret.
  cbn. destruct (GUIProcessor.log_callback (GUIProcessor.self g)); cbn.
  - now rewrite <- app_assoc.
  - destruct g; reflexivity.
Qed.

Lemma progress_values_app (l l' : list GUIProcessor.GuiEvent) :
  progress_values (l ++ l') = progress_values l ++ progress_values l'.
Proof. apply omap_app. Qed.

Lemma logger_lines_app (l l' : list GUIProcessor.GuiEvent) :
  logger_lines (l ++ l') = logger_lines l ++ logger_lines l'.
Proof. apply omap_app. Qed.

Lemma callback_lines_app (l l' : list GUIProcessor.GuiEvent) :
  callback_lines (l ++ l') = callback_lines l ++ callback_lines l'.
Proof. apply omap_app. Qed.

(** *** The progress values *)

Lemma progress_log (lc : bool) (t k : nat) (l : list nat)
    (m : GUIProcessor.GuiMessage) (lv : GUIProcessor.GuiLevel) :
  triple (progress_state lc t k l) (GUIProcessor.log m lv)
         (fun _ => progress_state lc t k l).
Proof.
  intros g [Hs Hl]. rewrite log_run. split; [exact Hs|]. cbn [snd GUIProcessor.shown].
  rewrite progress_values_app, Hl.
  destruct (GUIProcessor.log_callback _); cbn; apply app_nil_r.
Qed.

Lemma progress_lift {A} (lc : bool) (t k : nat) (l : list nat) (m : M A) :
  triple (progress_state lc t k l) (GUIProcessor.lift m)
         (fun _ => progress_state lc t k l).
Proof.
  intros g H. unfold GUIProcessor.lift. destruct (m (GUIProcessor.base g)). exact H.
Qed.

Lemma progress_update (lc : bool) (t k : nat) (l : list nat) (step : GUIProcessor.StepName) :
  (0 < t)%nat ->
  triple (progress_state lc t k l) (GUIProcessor.update_progress (Some step))
         (fun _ => progress_state lc t k (l ++ [(k * 100 / t)%nat])).
Proof.
  intros Ht g [Hs Hl].
  unfold GUIProcessor.update_progress, GUIProcessor.gbind, GUIProcessor.get_self.
  rewrite Hs. cbn [GUIProcessor.total_steps GUIProcessor.current_step
                   GUIProcessor.progress_callback].
  apply Nat.ltb_lt in Ht. rewrite Ht. cbn [GUIProcessor.show].
  rewrite log_run. cbn [snd GUIProcessor.self GUIProcessor.shown].
  split; [exact Hs|]. cbn [GUIProcessor.shown].
  rewrite !progress_values_app, Hl.
  destruct (GUIProcessor.log_callback _); cbn; now rewrite app_nil_r.
Qed.

Lemma progress_next_step (lc : bool) (t k : nat) (l : list nat) (step : GUIProcessor.StepName) :
  (0 < t)%nat ->
  triple (progress_state lc t k l) (GUIProcessor.next_step step)
         (fun _ => progress_state lc t (k + 1) (l ++ [((k + 1) * 100 / t)%nat])).
Proof.
  intros Ht g [Hs Hl].
  unfold GUIProcessor.next_step, GUIProcessor.gbind, GUIProcessor.get_self,
    GUIProcessor.set_steps.
  apply (progress_update lc t (k + 1) l step Ht).
  split; [|exact Hl]. cbn. now rewrite Hs.
Qed.

Lemma progress_progress_loop (lib : Lib) (cfg : Config) (env : Env)
    (products : list Product) (dir : pystr) (total : nat)
    (lc : bool) (t k : nat) (l : list nat) :
  forall i d s f,
    triple (progress_state lc t k l)
           (GUIProcessor.progress_loop lib cfg env products dir total i d s f)
           (fun _ => progress_state lc t k l).
Proof.
  induction products as [|p ps IH]; intros i d s f; cbn [GUIProcessor.progress_loop].
  - apply triple_gret.
  - destruct (_ || _); [apply IH|].
    eapply triple_gbind; [apply progress_lift|]. intros [|].
    + eapply triple_gbind; [apply progress_log|]. intros _. apply IH.
    + eapply triple_gbind; [apply progress_log|]. intros _.
      eapply triple_gbind; [apply progress_lift|]. intros [|];
        (eapply triple_gbind; [apply progress_log|]); intros _; apply IH.
Qed.


Lemma triple_get_self {B} (P : GUIProcessor.GState -> Prop)
    (Q : B -> GUIProcessor.GState -> Prop) (k : GUIProcessor.t -> GUIProcessor.GM B) :
  (forall s, triple (fun g => P g /\ GUIProcessor.self g = s) (k s) Q) ->
  triple P (GUIProcessor.gbind GUIProcessor.get_self k) Q.
Proof.
  intros H g HP. exact (H (GUIProcessor.self g) g (conj HP eq_refl)).
Qed.

Lemma progress_set_steps (lc : bool) (l : list nat) (t k : nat) :
  triple (fun g => GUIProcessor.log_callback (GUIProcessor.self g) = lc
                   /\ GUIProcessor.progress_callback (GUIProcessor.self g) = true
                   /\ progress_values (GUIProcessor.shown g) = l)
         (GUIProcessor.set_steps t k)
         (fun _ => progress_state lc t k l).
Proof.
  intros g (Hlc & Hpc & Hl). split; [|exact Hl]. cbn. now rewrite Hlc, Hpc.
Qed.

Lemma progress_process_file_body (lib : Lib) (cfg : Config) (env : Env)
    (input output dir : pystr) (lc : bool) (l : list nat) :
  triple (fun g => GUIProcessor.log_callback (GUIProcessor.self g) = lc
                   /\ GUIProcessor.progress_callback (GUIProcessor.self g) = true
                   /\ progress_values (GUIProcessor.shown g) = l)
         (GUIProcessor.process_file_body lib cfg env input output dir)
         (fun r g' =>
            GUIProcessor.log_callback (GUIProcessor.self g') = lc
            /\ progress_values (GUIProcessor.shown g')
               = l ++ match r with
                      | inl GUIProcessor.ParseFailed => [16]
                      | inl GUIProcessor.NoProducts => [16; 33]
                      | inr _ => [16; 33; 50; 66; 83; 100; 100]
                      end)%nat.
Proof.
  unfold GUIProcessor.process_file_body.
  assert (H6 : (0 < 6)%nat) by lia.
  eapply triple_gbind; [apply progress_set_steps|]. intros _.
  eapply triple_gbind; [apply progress_log|]. intros _.
  eapply triple_gbind; [apply (progress_next_step _ _ _ _ _ H6)|]. intros _.
  eapply triple_gbind; [apply progress_lift|].
  intros [data|]; [|intros g [Hs Hl]; unfold GUIProcessor.gret; cbn [fst snd]; split; [now rewrite Hs | exact Hl]].
  destruct (negb (truthy data)); [intros g [Hs Hl]; unfold GUIProcessor.gret; cbn [fst snd]; split; [now rewrite Hs | exact Hl]|].
  eapply triple_gbind; [apply progress_log|]. intros _.
  eapply triple_gbind; [apply (progress_next_step _ _ _ _ _ H6)|]. intros _.
  eapply triple_gbind; [apply progress_lift|].
  intros [|p ps];
    [intros g [Hs Hl]; unfold GUIProcessor.gret; cbn [fst snd]; split; [now rewrite Hs | rewrite Hl, <- app_assoc; reflexivity]|].
  eapply triple_gbind; [apply progress_log|]. intros _.
  eapply triple_gbind; [apply progress_log|]. intros _.
  eapply triple_gbind; [apply (progress_next_step _ _ _ _ _ H6)|]. intros _.
  eapply triple_gbind; [apply progress_lift|]. intros existing_df. cbv zeta.
  eapply triple_gbind; [apply progress_log|]. intros _.
  eapply triple_gbind; [apply progress_log|]. intros _.
  eapply triple_gbind; [apply (progress_next_step _ _ _ _ _ H6)|]. intros _.
  eapply triple_gbind; [apply progress_lift|]. intros _.
  eapply triple_gbind; [apply progress_log|]. intros _.
  eapply triple_gbind; [apply (progress_next_step _ _ _ _ _ H6)|]. intros _.
  eapply triple_gbind; [apply progress_lift|]. intros _.
  eapply triple_gbind; [apply progress_log|]. intros _.
  eapply triple_gbind; [apply (progress_next_step _ _ _ _ _ H6)|]. intros _.
  eapply triple_gbind; [apply progress_progress_loop|]. intros counts.
  apply triple_get_self. intros s.
  eapply (triple_gbind _ (progress_state lc 6 6 _)).
  { intros g [[Hs Hl] <-]. split; [|exact Hl]. cbn. now rewrite Hs. }
  intros _.
  eapply triple_gbind; [apply (progress_update _ _ _ _ _ H6)|]. intros _.
  eapply triple_gbind; [apply progress_log|]. intros _.
  eapply triple_gbind; [apply progress_log|]. intros _.
  eapply triple_gbind; [apply progress_log|]. intros _.
  intros g [Hs Hl]. unfold GUIProcessor.gret. cbn [fst snd].
  split; [now rewrite Hs|]. rewrite Hl, <- !app_assoc. reflexivity.
Qed.



(** *** The lines of the log callback *)

Lemma mirrored_gret {A} (lc : bool) (a b : list GUIProcessor.GuiMessage) (x : A) :
  triple (mirrored lc a b) (GUIProcessor.gret x) (fun _ => mirrored lc a b).
Proof. apply triple_gret. Qed.

Lemma mirrored_log (lc : bool) (a b : list GUIProcessor.GuiMessage)
    (m : GUIProcessor.GuiMessage) (lv : GUIProcessor.GuiLevel) :
  triple (mirrored lc a b) (GUIProcessor.log m lv) (fun _ => mirrored lc a b).
Proof.
  intros g (Hlc & more & Hl & Hc). rewrite log_run. split; [exact Hlc|].
  exists (more ++ [m]). cbn [snd GUIProcessor.shown].
  rewrite logger_lines_app, callback_lines_app, Hl, Hc, Hlc.
  destruct lc; cbn; rewrite <- ?app_assoc, ?app_nil_r; split; reflexivity.
Qed.

Lemma mirrored_lift {A} (lc : bool) (a b : list GUIProcessor.GuiMessage) (m : M A) :
  triple (mirrored lc a b) (GUIProcessor.lift m) (fun _ => mirrored lc a b).
Proof.
  intros g H. unfold GUIProcessor.lift. destruct (m (GUIProcessor.base g)). exact H.
Qed.

Lemma mirrored_set_steps (lc : bool) (a b : list GUIProcessor.GuiMessage) (t k : nat) :
  triple (mirrored lc a b) (GUIProcessor.set_steps t k) (fun _ => mirrored lc a b).
Proof. intros g H. exact H. Qed.

Lemma mirrored_progress (lc : bool) (a b : list GUIProcessor.GuiMessage) (n : nat) :
  triple (mirrored lc a b) (GUIProcessor.show (GUIProcessor.ProgressCallback n))
         (fun _ => mirrored lc a b).
Proof.
  intros g (Hlc & more & Hl & Hc). split; [exact Hlc|]. exists more.
  cbn [snd GUIProcessor.show GUIProcessor.shown].
  rewrite logger_lines_app, callback_lines_app, Hl, Hc. cbn.
  now rewrite !app_nil_r.
Qed.

Lemma mirrored_keep_self {B} (lc : bool) (a b : list GUIProcessor.GuiMessage)
    (k : GUIProcessor.t -> GUIProcessor.GM B) :
  (forall s, triple (mirrored lc a b) (k s) (fun _ => mirrored lc a b)) ->
  triple (mirrored lc a b) (GUIProcessor.gbind GUIProcessor.get_self k)
         (fun _ => mirrored lc a b).
Proof. intros H g Hg. exact (H (GUIProcessor.self g) g Hg). Qed.

Lemma mirrored_update_progress (lc : bool) (a b : list GUIProcessor.GuiMessage)
    (step : option GUIProcessor.StepName) :
  triple (mirrored lc a b) (GUIProcessor.update_progress step) (fun _ => mirrored lc a b).
Proof.
  unfold GUIProcessor.update_progress. apply mirrored_keep_self. intros s.
  destruct (0 <? GUIProcessor.total_steps s)%nat; [|apply mirrored_gret].
  eapply triple_gbind.
  - destruct (GUIProcessor.progress_callback s);
      [apply mirrored_progress | apply mirrored_gret].
  - intros _. destruct step; [apply mirrored_log | apply mirrored_gret].
Qed.

Lemma mirrored_next_step (lc : bool) (a b : list GUIProcessor.GuiMessage)
    (step : GUIProcessor.StepName) :
  triple (mirrored lc a b) (GUIProcessor.next_step step) (fun _ => mirrored lc a b).
Proof.
  unfold GUIProcessor.next_step. apply mirrored_keep_self. intros s.
  eapply triple_gbind; [apply mirrored_set_steps|]. intros _.
  apply mirrored_update_progress.
Qed.

Lemma mirrored_progress_loop (lib : Lib) (cfg : Config) (env : Env)
    (products : list Product) (dir : pystr) (total : nat)
    (lc : bool) (a b : list GUIProcessor.GuiMessage) :
  forall i d s f,
    triple (mirrored lc a b)
           (GUIProcessor.progress_loop lib cfg env products dir total i d s f)
           (fun _ => mirrored lc a b).
Proof.
  induction products as [|p ps IH]; intros i d s f; cbn [GUIProcessor.progress_loop].
  - apply mirrored_gret.
  - destruct (_ || _); [apply IH|].
    eapply triple_gbind; [apply mirrored_lift|]. intros [|].
    + eapply triple_gbind; [apply mirrored_log|]. intros _. apply IH.
    + eapply triple_gbind; [apply mirrored_log|]. intros _.
      eapply triple_gbind; [apply mirrored_lift|]. intros [|];
        (eapply triple_gbind; [apply mirrored_log|]); intros _; apply IH.
Qed.

Tactic Notation "mirror_step" uconstr(lem) := eapply triple_gbind; [apply lem|].

Lemma mirrored_process_file (lib : Lib) (cfg : Config) (env : Env)
    (input output dir : pystr) (lc : bool) (a b : list GUIProcessor.GuiMessage) :
  triple (mirrored lc a b) (GUIProcessor.process_file lib cfg env input output dir)
         (fun _ => mirrored lc a b).
Proof.
  unfold GUIProcessor.process_file.
  eapply triple_gbind.
  - unfold GUIProcessor.process_file_body, GUIProcessor.download_images_with_progress.
    mirror_step mirrored_set_steps. intros _.
    mirror_step mirrored_log. intros _.
    mirror_step mirrored_next_step. intros _.
    mirror_step mirrored_lift. intros [data|]; [|apply mirrored_gret].
    destruct (negb (truthy data)); [apply mirrored_gret|].
    mirror_step mirrored_log. intros _.
    mirror_step mirrored_next_step. intros _.
    mirror_step mirrored_lift. intros [|p ps]; [apply mirrored_gret|].
    mirror_step mirrored_log. intros _.
    mirror_step mirrored_log. intros _.
    mirror_step mirrored_next_step. intros _.
    mirror_step mirrored_lift. intros existing_df. cbv zeta.
    mirror_step mirrored_log. intros _.
    mirror_step mirrored_log. intros _.
    mirror_step mirrored_next_step. intros _.
    mirror_step mirrored_lift. intros _.
    mirror_step mirrored_log. intros _.
    mirror_step mirrored_next_step. intros _.
    mirror_step mirrored_lift. intros _.
    mirror_step mirrored_log. intros _.
    mirror_step mirrored_next_step. intros _.
    mirror_step mirrored_progress_loop. intros counts.
    apply mirrored_keep_self. intros s.
    mirror_step mirrored_set_steps. intros _.
    mirror_step mirrored_update_progress. intros _.
    mirror_step mirrored_log. intros _.
    mirror_step mirrored_log. intros _.
    mirror_step mirrored_log. intros _.
    apply mirrored_gret.
  - intros [e|res]; [|apply mirrored_gret].
    mirror_step mirrored_log. intros _. apply mirrored_gret.
Qed.

